(** * PartField web front end: job orchestration (gradio_app.py)

    A shallow embedding of the job pipeline of [gradio_app.py]
    ([validate_file], [cleanup_old_jobs], [run_command],
    [process_3d_file], [on_process]) together with the properties of
    its natural-language specification.

    Modelling conventions
    - Python [str] is [string] (a sequence of bytes); file names are taken
      as byte strings, so the case mapping, the white space and the
      digits recognised by [int()] are the ASCII ones.
    - Python [int] is [Z]; [None] in place of a string behaves as the
      empty string wherever the program tests it.
    - [datetime] values are [Z], counted in microseconds (the resolution
      of [datetime]) on the naive local time line that both
      [datetime.now()] and [datetime.fromtimestamp] produce.
    - The file system is a tree of [node]s; a directory keeps its entries
      in the order in which the operating system lists them. Paths are
      followed from the root; symbolic links and [..] are not modelled.
    - What the program cannot decide by itself (what a subprocess does,
      whether a system call is refused, the identifier drawn by
      [uuid.uuid4()]) is supplied by an [Env].
    - Effects are threaded by the monad [M]: it passes the [World]
      (file system and clock), may raise a Python exception, may block
      for ever on a subprocess, and records the calls it makes as a list
      of [event]s. The events are only there to state properties: the
      program does not read them.
    - The run is sequential: nothing else changes the world between two
      steps, except the subprocesses the run itself starts.

    Layout: the embedding, the scenarios on which it is run, the
    vocabulary of the specification, then the properties, one section
    per claim or group of claims (C1 to C10), and further properties of
    the program (numbered from X1). *)

From Stdlib Require Import ZArith Lia Ascii.
From stdpp Require Import gmap strings pretty sorting.

Local Open Scope Z_scope.

(** ** Python strings *)

Module Py.

Definition len (s : string) : nat := String.length s.

(** [c.lower()] for one ASCII character. *)
Definition lower_char (c : ascii) : ascii :=
  let n := Ascii.N_of_ascii c in
  if ((65 <=? n) && (n <=? 90))%N then Ascii.ascii_of_N (n + 32) else c.

(** [s.lower()] *)
Fixpoint lower (s : string) : string :=
  match s with
  | EmptyString => EmptyString
  | String c s' => String (lower_char c) (lower s')
  end.

(** [s[i:]] for [0 <= i] *)
Fixpoint drop (i : nat) (s : string) : string :=
  match i, s with
  | O, _ => s
  | S i', EmptyString => EmptyString
  | S i', String _ s' => drop i' s'
  end.

(** [s[:i]] for [0 <= i] *)
Fixpoint take (i : nat) (s : string) : string :=
  match i, s with
  | O, _ => EmptyString
  | S i', EmptyString => EmptyString
  | S i', String c s' => String c (take i' s')
  end.

(** [s[-n:]] for [0 < n]: the last [n] characters, the whole string
    when it is shorter. *)
Definition last_chars (n : nat) (s : string) : string :=
  drop (len s - n) s.

(** [s.rfind(c)] for a one-character [c]; [None] stands for [-1]. *)
Fixpoint rfind (c : ascii) (s : string) : option nat :=
  match s with
  | EmptyString => None
  | String a s' =>
      match rfind c s' with
      | Some i => Some (S i)
      | None => if Ascii.eqb a c then Some O else None
      end
  end.

(** [s.startswith(p)] *)
Definition startswith (p s : string) : bool := String.prefix p s.

(** [s.endswith(p)] *)
Definition endswith (p s : string) : bool :=
  (len p <=? len s)%nat && String.eqb (drop (len s - len p) s) p.

(** [sub in s] *)
Fixpoint contains (sub s : string) : bool :=
  String.prefix sub s ||
  match s with
  | EmptyString => false
  | String _ s' => contains sub s'
  end.

(** [sep.join(l)] *)
Definition join (sep : string) (l : list string) : string :=
  String.concat sep l.

(** [s.split(c)] for a one-character separator: never the empty list. *)
Fixpoint split (c : ascii) (s : string) : list string :=
  match s with
  | EmptyString => [EmptyString]
  | String a s' =>
      if Ascii.eqb a c then EmptyString :: split c s'
      else match split c s' with
           | tok :: rest => String a tok :: rest
           | [] => [String a EmptyString]
           end
  end.

(** [l[-1]] of a list of strings. *)
Definition last_item (l : list string) : string := List.last l EmptyString.

(** [l[-n:]] *)
Definition last_items {A} (n : nat) (l : list A) : list A :=
  list.drop (length l - n) l.

(** [str(b)] for a [bool]. *)
Definition str_bool (b : bool) : string := if b then "True" else "False".

(** [str(n)] for an [int]. *)
Definition str_int (n : Z) : string := pretty n.

(** Two decimal digits, as [%H], [%M] and [%S] print them. *)
Definition two_digits (n : Z) : string :=
  if n <? 10 then "0" +:+ pretty n else pretty n.

(** *** [int(s)] in base 10

    [int] strips white space at both ends, reads an optional sign and
    then decimal digits, where single underscores may separate digits.
    [None] stands for the [ValueError] it raises on anything else.
    The digits and the white space read here are those of ASCII; [int]
    also reads the other decimal digits of Unicode, so what is proved
    of the value of [int] is stated for ASCII text. *)

Definition is_space (c : ascii) : bool :=
  let n := Ascii.N_of_ascii c in
  (((9 <=? n) && (n <=? 13)) || ((28 <=? n) && (n <=? 32)))%N.

Definition digit_val (c : ascii) : option Z :=
  let n := Ascii.N_of_ascii c in
  if ((48 <=? n) && (n <=? 57))%N then Some (Z.of_N n - 48) else None.

Fixpoint lstrip (s : string) : string :=
  match s with
  | String c s' => if is_space c then lstrip s' else s
  | EmptyString => EmptyString
  end.

Fixpoint rstrip (s : string) : string :=
  match s with
  | String c s' =>
      match rstrip s' with
      | EmptyString => if is_space c then EmptyString else String c EmptyString
      | r => String c r
      end
  | EmptyString => EmptyString
  end.

(** [strip s] is [s.strip()] *)
Definition strip (s : string) : string := rstrip (lstrip s).

(** Digits with single underscores between them; [after_digit] tells
    whether the previous character was a digit. *)
Fixpoint digits (acc : Z) (after_digit : bool) (s : string) : option Z :=
  match s with
  | EmptyString => if after_digit then Some acc else None
  | String c s' =>
      match digit_val c with
      | Some d => digits (10 * acc + d) true s'
      | None =>
          if Ascii.eqb c "_" && after_digit then digits acc false s'
          else None
      end
  end.

Definition int (s : string) : option Z :=
  match strip s with
  | String "+" s' => digits 0 false s'
  | String "-" s' => Z.opp <$> digits 0 false s'
  | s' => digits 0 false s'
  end.

End Py.

(** ** Exceptions *)

(** A raised exception: its class and [str(e)]. Only synchronous
    exceptions, all below [Exception], are modelled. *)
Record exn := Exn { exn_class : string; exn_str : string }.

(** ** Paths ([pathlib.Path]) *)

Record Path := mkPath { anchored : bool; parts : list string }.

Module PathOps.

(** [Path(s)]: the components between slashes, the empty ones and
    the dots dropped. *)
Definition of_str (s : string) : Path :=
  {| anchored := Py.startswith "/" s;
     parts := List.filter
                (fun c => negb (String.eqb c EmptyString) && negb (String.eqb c "."))
                (Py.split "/" s) |}.

(** [str(p)] *)
Definition str (p : Path) : string :=
  match parts p with
  | [] => if anchored p then "/" else "."
  | _ => (if anchored p then "/" else EmptyString) +:+ Py.join "/" (parts p)
  end.

(** [p / c] for a single component [c]; every right operand of [/] in
    the program is one (a literal, the job identifier, a [.name]). *)
Definition child (p : Path) (c : string) : Path :=
  {| anchored := anchored p; parts := parts p ++ [c] |}.

(** [p.name] *)
Definition name (p : Path) : string := List.last (parts p) EmptyString.

(** [p.suffix] and [p.stem], as pathlib computes them from [name]:
    [i = name.rfind('.')], and the suffix is [name[i:]] when
    [0 < i < len(name) - 1]. *)
Definition suffix_of_name (nm : string) : string :=
  match Py.rfind "." nm with
  | Some i => if ((0 <? i) && (i <? Py.len nm - 1))%nat then Py.drop i nm
              else EmptyString
  | None => EmptyString
  end.

Definition stem_of_name (nm : string) : string :=
  match Py.rfind "." nm with
  | Some i => if ((0 <? i) && (i <? Py.len nm - 1))%nat then Py.take i nm
              else nm
  | None => nm
  end.

Definition suffix (p : Path) : string := suffix_of_name (name p).
Definition stem (p : Path) : string := stem_of_name (name p).

End PathOps.

Notation "p // c" := (PathOps.child p c) (at level 40, left associativity).

(** ** The file system *)

(** A file with its size and modification time, or a directory with its
    modification time and its entries in listing order. Symbolic links
    are not modelled. *)
#[warnings="-register-all"]
Inductive node :=
| File (st_size : Z) (st_mtime : Z)
| Dir (st_mtime : Z) (entries : list (string * node)).

Module FS.

Definition is_dir (n : node) : bool :=
  match n with Dir _ _ => true | File _ _ => false end.

Definition mtime (n : node) : Z :=
  match n with File _ t => t | Dir t _ => t end.

(** [st_size]; a directory reports one block. *)
Definition size (n : node) : Z :=
  match n with File s _ => s | Dir _ _ => 4096 end.

Fixpoint find (c : string) (es : list (string * node)) : option node :=
  match es with
  | [] => None
  | (c', n) :: es' => if String.eqb c' c then Some n else find c es'
  end.

(** Replace the entry called [c], or add it at the end of the listing. *)
Fixpoint set (c : string) (v : node) (es : list (string * node))
  : list (string * node) :=
  match es with
  | [] => [(c, v)]
  | (c', n) :: es' =>
      if String.eqb c' c then (c', v) :: es' else (c', n) :: set c v es'
  end.

Definition del (c : string) (es : list (string * node))
  : list (string * node) :=
  List.filter (fun e => negb (String.eqb (fst e) c)) es.

(** The node a path leads to, from the root. *)
Fixpoint lookup (p : list string) (n : node) : option node :=
  match p with
  | [] => Some n
  | c :: p' =>
      match n with
      | Dir _ es =>
          match find c es with
          | Some n' => lookup p' n'
          | None => None
          end
      | File _ _ => None
      end
  end.

(** Unlink the entry at [p] with all below it; the directory that held
    it is stamped [now]. *)
Fixpoint remove (now : Z) (p : list string) (n : node) : node :=
  match p with
  | [] => n
  | c :: p' =>
      match n with
      | File _ _ => n
      | Dir m es =>
          match p' with
          | [] => match find c es with
                  | Some _ => Dir now (del c es)
                  | None => n
                  end
          | _ :: _ =>
              match find c es with
              | Some n' => Dir m (set c (remove now p' n') es)
              | None => n
              end
          end
      end
  end.

(** A chain of fresh directories *)
Fixpoint fresh_dirs (now : Z) (p : list string) : node :=
  match p with
  | [] => Dir now []
  | c :: p' => Dir now [(c, fresh_dirs now p')]
  end.

Definition os_error (cls : string) (errno : string) (what : string)
  (full : string) : exn :=
  Exn cls ("[Errno " +:+ errno +:+ "] " +:+ what +:+ ": '" +:+ full +:+ "'").

Definition FileExistsError := os_error "FileExistsError" "17" "File exists".
Definition NotADirectoryError := os_error "NotADirectoryError" "20" "Not a directory".
Definition FileNotFoundError := os_error "FileNotFoundError" "2" "No such file or directory".
Definition IsADirectoryError := os_error "IsADirectoryError" "21" "Is a directory".

(** [mkdir(parents=True, exist_ok=True)]: directories that are there
    are kept, missing ones are made; a regular file on the way is an
    error. [full] is the path as the message prints it. *)
Fixpoint mkdirs (now : Z) (full : string) (p : list string) (n : node)
  : exn + node :=
  match p with
  | [] => match n with
          | Dir _ _ => inr n
          | File _ _ => inl (FileExistsError full)
          end
  | c :: p' =>
      match n with
      | File _ _ => inl (NotADirectoryError full)
      | Dir m es =>
          match find c es with
          | Some n' =>
              match mkdirs now full p' n' with
              | inl e => inl e
              | inr n'' => inr (Dir m (set c n'' es))
              end
          | None => inr (Dir now (es ++ [(c, fresh_dirs now p')]))
          end
      end
  end.

(** Open [p] for writing and store the file [f] there: the parent must
    be a directory and [p] itself must not be one. *)
Fixpoint write (now : Z) (full : string) (p : list string) (f : node)
  (n : node) : exn + node :=
  match p with
  | [] => inl (IsADirectoryError full)
  | c :: p' =>
      match n with
      | File _ _ => inl (NotADirectoryError full)
      | Dir m es =>
          match p' with
          | [] =>
              match find c es with
              | Some (Dir _ _) => inl (IsADirectoryError full)
              | Some (File _ _) => inr (Dir m (set c f es))
              | None => inr (Dir now (es ++ [(c, f)]))
              end
          | _ :: _ =>
              match find c es with
              | Some n' =>
                  match write now full p' f n' with
                  | inl e => inl e
                  | inr n'' => inr (Dir m (set c n'' es))
                  end
              | None => inl (FileNotFoundError full)
              end
          end
      end
  end.

(** The names a directory lists, in listing order; nothing when [p]
    is not a directory. *)
Definition listing (p : list string) (n : node) : list string :=
  match lookup p n with
  | Some (Dir _ es) => List.map fst es
  | _ => []
  end.

End FS.

(** ** The world, the environment and the events of a run *)

(** The file system and the clock of the server; the clock counts
    microseconds of local time from the first instant of year 1. *)
Record World := mkWorld { fs : node; clock : Z }.

(** What a subprocess does, as [run_command] can observe it. *)
Inductive process :=
| SpawnFails (e : exn)
    (** [Popen] raises: no such program, no such working directory *)
| CaptureFails (lines : list string) (e : exn) (after : World)
    (** reading its output raises after these lines *)
| Exits (lines : list string) (returncode : Z) (after : World)
    (** it prints these lines, closes its output and exits *)
| Hangs.
    (** it never closes its output *)

Inductive fs_op :=
| OpMkdir (p : Path)
| OpCopy (src dst : Path)
| OpRmtree (p : Path)
| OpStat (p : Path).

Inductive event :=
| EvMkdir (p : Path) (failure : option exn)
| EvCopy (src dst : Path) (failure : option exn)
| EvSweep (jobs_dir : Path)
| EvRmtree (p : Path) (failure : option exn)
| EvSpawn (cmd : list string) (cwd : Path) (p : process)
| EvGpuClear
| EvProgress (percent : Z) (desc : string).

Record Env := mkEnv {
  (** [sys.executable] *)
  sys_executable : string;
  (** [Path(__file__).parent.absolute()] *)
  script_dir : Path;
  (** [str(uuid.uuid4())] of this job *)
  uuid4 : string;
  (** the order in which the set [SUPPORTED_EXTENSIONS] is iterated,
      which depends on the hash seed of the interpreter *)
  extensions_order : list string;
  (** the system refuses this call (permissions, a full disk, a
      directory that goes away meanwhile) with this error *)
  refused : fs_op -> option exn;
  (** what the program started by [Popen(cmd, cwd=..)] does in a world *)
  subprocess : list string -> string -> World -> process;
}.

(** ** The monad of effects *)

Inductive result (A : Type) :=
| Ret (a : A)
| Raise (e : exn)
| Block.
Arguments Ret {A} a.
Arguments Raise {A} e.
Arguments Block {A}.

Record run (A : Type) := Run {
  res : result A;
  final : World;
  events : list event;
}.
Arguments Run {A} res final events.
Arguments res {A} r.
Arguments final {A} r.
Arguments events {A} r.

Definition M (A : Type) : Type := World -> run A.

Definition ret {A} (a : A) : M A := fun w => Run (Ret a) w [].

Definition bind {A B} (m : M A) (f : A -> M B) : M B :=
  fun w =>
    let r := m w in
    match res r with
    | Ret a =>
        let r' := f a (final r) in
        Run (res r') (final r') (events r ++ events r')
    | Raise e => Run (Raise e) (final r) (events r)
    | Block => Run Block (final r) (events r)
    end.

Definition raise {A} (e : exn) : M A := fun w => Run (Raise e) w [].

Definition block {A} : M A := fun w => Run Block w [].

(** [try: m except Exception as e: h e] *)
Definition try_except {A} (m : M A) (h : exn -> M A) : M A :=
  fun w =>
    let r := m w in
    match res r with
    | Raise e =>
        let r' := h e (final r) in
        Run (res r') (final r') (events r ++ events r')
    | _ => r
    end.

Definition emit (ev : event) : M unit := fun w => Run (Ret tt) w [ev].

Definition get_world : M World := fun w => Run (Ret w) w [].

Definition put_world (w' : World) : M unit := fun _ => Run (Ret tt) w' [].

Definition set_fs (n : node) : M unit :=
  fun w => Run (Ret tt) (mkWorld n (clock w)) [].

Declare Scope M_scope.
Delimit Scope M_scope with M.
Notation "x <- m ;; k" := (bind m (fun x => k))
  (at level 100, m at next level, right associativity) : M_scope.
Notation "m ;; k" := (bind m (fun _ => k))
  (at level 100, right associativity) : M_scope.
Local Open Scope M_scope.

(** [for x in l: acc = body acc x] *)
Fixpoint for_each {A B} (l : list A) (body : B -> A -> M B) (acc : B) : M B :=
  match l with
  | [] => ret acc
  | x :: l' => acc' <- body acc x ;; for_each l' body acc'
  end.

(** ** Configuration *)

Definition MODEL_CHECKPOINT : string := "model/model_objaverse.ckpt".
Definition CONFIG_FILE : string := "configs/final/demo.yaml".
Definition SUPPORTED_EXTENSIONS : list string := [".obj"; ".glb"; ".off"; ".ply"].
Definition JOB_EXPIRY_HOURS : Z := 24.

(** The newline character *)
Definition nl : string := String "010"%char EmptyString.

(** [timedelta(hours=h)] in microseconds *)
Definition timedelta_hours (h : Z) : Z := h * 3600 * 1000000.

(** [t.strftime("%H:%M:%S")] *)
Definition strftime_HMS (t : Z) : string :=
  let seconds := t / 1000000 in
  Py.two_digits ((seconds / 3600) mod 24) +:+ ":" +:+
  Py.two_digits ((seconds / 60) mod 60) +:+ ":" +:+
  Py.two_digits (seconds mod 60).

(** [f"{size / (1024 * 1024):.1f}"]: the quotient is exact in binary
    floating point for any size below 2^53, and the format rounds it to
    the nearest tenth, ties to the even one. *)
Definition format_mib_1f (size : Z) : string :=
  let q := (10 * size) / 1048576 in
  let r := (10 * size) mod 1048576 in
  let tenths :=
    if (524288 <? r) || ((r =? 524288) && Z.odd q) then q + 1 else q in
  Py.str_int (tenths / 10) +:+ "." +:+ Py.str_int (tenths mod 10).

(** ** The program *)

Section Program.

Context (env : Env).

(** *** System calls *)

Definition reads {A} (f : World -> A) : M A := fun w => Run (Ret (f w)) w [].

(** [datetime.now()] *)
Definition datetime_now : M Z := reads clock.

(** [p.exists()] *)
Definition path_exists (p : Path) : M bool :=
  reads (fun w => bool_decide (is_Some (FS.lookup (parts p) (fs w)))).

(** [p.is_dir()] *)
Definition path_is_dir (p : Path) : M bool :=
  reads (fun w => match FS.lookup (parts p) (fs w) with
                  | Some n => FS.is_dir n
                  | None => false
                  end).

(** [p.mkdir(parents=True, exist_ok=True)] *)
Definition mkdir (p : Path) : M unit :=
  w <- get_world ;;
  match refused env (OpMkdir p) with
  | Some e => emit (EvMkdir p (Some e)) ;; raise e
  | None =>
      match FS.mkdirs (clock w) (PathOps.str p) (parts p) (fs w) with
      | inl e => emit (EvMkdir p (Some e)) ;; raise e
      | inr n => emit (EvMkdir p None) ;; set_fs n
      end
  end.

(** What [shutil.copy2(src, dst)] does to the file system: a directory
    as [dst] receives the file under its own name; the copy keeps the
    size and the modification time of the source. *)
Definition copy2_fs (src dst : Path) (w : World) : exn + node :=
  let dst' :=
    match FS.lookup (parts dst) (fs w) with
    | Some (Dir _ _) => dst // PathOps.name src
    | _ => dst
    end in
  match FS.lookup (parts src) (fs w) with
  | None => inl (FS.FileNotFoundError (PathOps.str src))
  | Some (Dir _ _) => inl (FS.IsADirectoryError (PathOps.str src))
  | Some (File size mt) =>
      if bool_decide (parts src = parts dst') then
        inl (Exn "SameFileError"
               ("'" +:+ PathOps.str src +:+ "' and '" +:+ PathOps.str dst'
                +:+ "' are the same file"))
      else FS.write (clock w) (PathOps.str dst') (parts dst') (File size mt) (fs w)
  end.

(** [shutil.copy2(src, dst)] *)
Definition copy2 (src dst : Path) : M unit :=
  w <- get_world ;;
  match refused env (OpCopy src dst) with
  | Some e => emit (EvCopy src dst (Some e)) ;; raise e
  | None =>
      match copy2_fs src dst w with
      | inl e => emit (EvCopy src dst (Some e)) ;; raise e
      | inr n => emit (EvCopy src dst None) ;; set_fs n
      end
  end.

(** [shutil.rmtree(p)] (in the program the operand is never the
    root). A removal that fails is taken to remove nothing, where
    [shutil.rmtree] may have removed a part of the tree before it
    raised: the properties say nothing of what a directory holds after
    its removal has failed. *)
Definition rmtree (p : Path) : M unit :=
  w <- get_world ;;
  match refused env (OpRmtree p) with
  | Some e => emit (EvRmtree p (Some e)) ;; raise e
  | None =>
      match FS.lookup (parts p) (fs w) with
      | Some (Dir _ _) =>
          emit (EvRmtree p None) ;;
          set_fs (FS.remove (clock w) (parts p) (fs w))
      | Some (File _ _) =>
          let e := FS.NotADirectoryError (PathOps.str p) in
          emit (EvRmtree p (Some e)) ;; raise e
      | None =>
          let e := FS.FileNotFoundError (PathOps.str p) in
          emit (EvRmtree p (Some e)) ;; raise e
      end
  end.

(** [shutil.rmtree(p, ignore_errors=True)] *)
Definition rmtree_ignore_errors (p : Path) : M unit :=
  try_except (rmtree p) (fun _ => ret tt).

(** [datetime.fromtimestamp(p.stat().st_mtime)]; the time stamp is
    taken to lie in the range of [datetime] (outside it the call
    raises, and the sweep passes the entry over). *)
Definition stat_mtime (p : Path) : M Z :=
  w <- get_world ;;
  match refused env (OpStat p) with
  | Some e => raise e
  | None =>
      match FS.lookup (parts p) (fs w) with
      | Some n => ret (FS.mtime n)
      | None => raise (FS.FileNotFoundError (PathOps.str p))
      end
  end.

(** [list(p.iterdir())] *)
Definition iterdir (p : Path) : M (list Path) :=
  w <- get_world ;;
  match FS.lookup (parts p) (fs w) with
  | Some (Dir _ es) => ret (List.map (fun e => p // fst e) es)
  | Some (File _ _) => raise (FS.NotADirectoryError (PathOps.str p))
  | None => raise (FS.FileNotFoundError (PathOps.str p))
  end.

(** A name matches the pattern [pre*suf]. *)
Definition fnmatch_star (pre suf nm : string) : bool :=
  (Py.len pre + Py.len suf <=? Py.len nm)%nat
  && Py.startswith pre nm && Py.endswith suf nm.

(** [list(p.glob(pre + "*" + suf))] on a file system *)
Definition glob_fs (p : Path) (pre suf : string) (n : node) : list Path :=
  List.map (fun c => p // c)
    (List.filter (fnmatch_star pre suf) (FS.listing (parts p) n)).

Definition glob (p : Path) (pre suf : string) : M (list Path) :=
  reads (fun w => glob_fs p pre suf (fs w)).

(** [progress(percent / 100, desc=desc)] *)
Definition progress (percent : Z) (desc : string) : M unit :=
  emit (EvProgress percent desc).

(** *** Utility functions *)

Definition get_partfield_dir : M Path :=
  found <- path_exists (script_dir env // "partfield_inference.py") ;;
  if found then ret (script_dir env)
  else ret (PathOps.of_str "/workspace/partfield").

(** The cutoff is computed on the integers; in Python
    [timedelta(hours=h)] and the subtraction raise [OverflowError]
    outside the ranges of [timedelta] and [datetime], so the sweep is
    described for an expiry and a cutoff inside them. *)
Definition cleanup_old_jobs (jobs_dir : Path) (expiry_hours : Z) : M Z :=
  emit (EvSweep jobs_dir) ;;
  found <- path_exists jobs_dir ;;
  if negb found then ret 0
  else
    now <- datetime_now ;;
    let cutoff := now - timedelta_hours expiry_hours in
    job_dirs <- iterdir jobs_dir ;;
    for_each job_dirs
      (fun removed job_dir =>
         d <- path_is_dir job_dir ;;
         if d then
           try_except
             (mtime <- stat_mtime job_dir ;;
              if mtime <? cutoff then
                rmtree job_dir ;;
                ret (removed + 1)
              else ret removed)
             (fun _ => ret removed)
         else ret removed)
      0.

(** Every failure inside is caught; the cache has no counterpart in
    the world. *)
Definition clear_gpu_memory : M unit := emit EvGpuClear.

(** [validate_file] only inspects the file system. *)
Definition validate_file (file_path : string) (n : node) : bool * string :=
  if String.eqb file_path EmptyString then (false, "No file uploaded")
  else
    let path := PathOps.of_str file_path in
    match FS.lookup (parts path) n with
    | None => (false, "File does not exist")
    | Some st =>
        let ext := Py.lower (PathOps.suffix path) in
        if negb (bool_decide (ext ∈ SUPPORTED_EXTENSIONS)) then
          (false, "Unsupported format: " +:+ ext +:+ ". Supported: "
                  +:+ Py.join ", " (extensions_order env))
        else if 100 * (1024 * 1024) <? FS.size st then
          (false, "File too large: " +:+ format_mib_1f (FS.size st)
                  +:+ "MB (max 100MB)")
        else
          let stem := Py.lower (PathOps.stem path) in
          if bool_decide (stem ∈ ["car"; "complex_car"]) then
            (false, "The filename '" +:+ PathOps.name path
                    +:+ "' is reserved and will be skipped by the model. Please rename your file.")
          else (true, "File valid")
    end.

(** *** Subprocesses *)

(** [subprocess.Popen(cmd, cwd=str(cwd), ...)] *)
Definition Popen (cmd : list string) (cwd : Path) : M process :=
  w <- get_world ;;
  let p := subprocess env cmd (PathOps.str cwd) w in
  emit (EvSpawn cmd cwd p) ;;
  match p with
  | SpawnFails e => raise e
  | _ => ret p
  end.

(** The loop over [iter(process.stdout.readline, '')]: each line is
    appended and the callback, when there is one, is called on the
    text so far. Its value is not used, and the one callback the
    program passes, [update_log], only builds a string: callbacks are
    taken to be functions. *)
Definition collect_output (log_callback : option (string -> string))
  (lines : list string) : list string :=
  List.fold_left
    (fun output_lines line =>
       let output_lines := output_lines ++ [line] in
       match log_callback with
       | Some cb => let _ := cb (Py.join EmptyString output_lines) in output_lines
       | None => output_lines
       end)
    lines [].

Definition read_lines (p : process) (log_callback : option (string -> string))
  : M (list string) :=
  match p with
  | Exits lines _ _ => ret (collect_output log_callback lines)
  | CaptureFails lines e after =>
      let _ := collect_output log_callback lines in
      put_world after ;; raise e
  | SpawnFails e => raise e
  | Hangs => block
  end.

(** [process.wait()], then [process.returncode] *)
Definition wait (p : process) : M Z :=
  match p with
  | Exits _ returncode after => put_world after ;; ret returncode
  | CaptureFails _ e _ => raise e
  | SpawnFails e => raise e
  | Hangs => block
  end.

Definition run_command (cmd : list string) (cwd : Path)
  (log_callback : option (string -> string)) : M (bool * string) :=
  try_except
    (process <- Popen cmd cwd ;;
     output_lines <- read_lines process log_callback ;;
     returncode <- wait process ;;
     let output := Py.join EmptyString output_lines in
     ret (returncode =? 0, output))
    (fun e => ret (false, "Command failed: " +:+ exn_str e)).

(** *** The processing pipeline *)

(** [mesh_list.sort(key=key)]: the sort of Python lists is stable, and
    a stable sort by a key has one possible result. It is computed
    here by inserting each item before the first one of a key not
    below its own. *)
Fixpoint insert_by_key {A} (key : A -> Z) (x : A) (l : list A) : list A :=
  match l with
  | [] => [x]
  | y :: l' =>
      if key x <=? key y then x :: y :: l' else y :: insert_by_key key x l'
  end.

Fixpoint sort_by_key {A} (key : A -> Z) (l : list A) : list A :=
  match l with
  | [] => []
  | x :: l' => insert_by_key key x (sort_by_key key l')
  end.

(** The local function [get_cluster_count] of [process_3d_file]:
    [int(path.stem.split('_')[-1])], and 0 when that raises. *)
Definition get_cluster_count (path : Path) : Z :=
  match Py.int (Py.last_item (Py.split "_" (PathOps.stem path))) with
  | Some n => n
  | None => 0
  end.

(** The local function [log]: it stamps the message, appends it to
    [log_output] and gives the list back; [transcript] is the text
    ['\n'.join(log_output)] that the Python function returns. *)
Definition transcript (log_output : list string) : string :=
  Py.join nl log_output.

Definition log (log_output : list string) (msg : string) : M (list string) :=
  now <- datetime_now ;;
  let timestamp := strftime_HMS now in
  ret (log_output ++ ["[" +:+ timestamp +:+ "] " +:+ msg]).

(** The local function [update_log] *)
Definition update_log (log_output : list string) (output : string) : string :=
  let lines := Py.last_items 50 (Py.split "010" output) in
  transcript log_output +:+ nl +:+ "--- Inference Output ---" +:+ nl
  +:+ Py.join nl lines.

Definition process_3d_file
  (file_path : string) (is_point_cloud : bool) (max_clusters : Z)
  (use_agglomerative : bool) (preprocess_mesh : bool)
  (adjacency_option : Z) (add_knn_edges : bool) (points_per_face : Z)
  (jobs_dir : string)
  : M (string * list string * option string * string) :=
  (* Validate file *)
  v <- reads (fun w => validate_file file_path (fs w)) ;;
  if negb v.1 then
    log_output <- log [] ("Validation failed: " +:+ v.2) ;;
    ret ("Error: " +:+ v.2, [], None, transcript log_output)
  else
  log_output <- log [] "File validated successfully" ;;
  (* Setup job directory *)
  let job_id := Py.take 8 (uuid4 env) in
  let jobs_path := PathOps.of_str jobs_dir in
  let job_dir := jobs_path // job_id in
  let input_dir := job_dir // "input" in
  let output_dir := job_dir // "output" in
  mkdir input_dir ;;
  mkdir output_dir ;;
  log_output <- log log_output ("Created job directory: " +:+ job_id) ;;
  (* Copy input file *)
  let input_path := PathOps.of_str file_path in
  let dest_path := input_dir // PathOps.name input_path in
  copy2 input_path dest_path ;;
  log_output <- log log_output ("Copied input file: " +:+ PathOps.name input_path) ;;
  (* Cleanup old jobs *)
  progress 5 "Cleaning up old jobs..." ;;
  removed <- cleanup_old_jobs jobs_path JOB_EXPIRY_HOURS ;;
  log_output <-
    (if 0 <? removed
     then log log_output ("Cleaned up " +:+ Py.str_int removed +:+ " old job(s)")
     else ret log_output) ;;
  (* Clear GPU memory *)
  progress 10 "Preparing GPU..." ;;
  clear_gpu_memory ;;
  log_output <- log log_output "GPU memory cleared" ;;
  partfield_dir <- get_partfield_dir ;;
  (* Step 1: Feature Extraction *)
  progress 15 "Extracting features..." ;;
  log_output <- log log_output "Starting feature extraction..." ;;
  let result_name := "job_" +:+ job_id in
  let actual_features_dir := partfield_dir // "exp_results" // result_name in
  let inference_cmd :=
    [ sys_executable env; "partfield_inference.py";
      "-c"; CONFIG_FILE;
      "--opts";
      "continue_ckpt"; MODEL_CHECKPOINT;
      "result_name"; result_name;
      "dataset.data_path"; PathOps.str input_dir;
      "is_pc"; Py.str_bool is_point_cloud;
      "n_point_per_face"; Py.str_int points_per_face;
      "dataset.val_num_workers"; "2";
      "dataset.val_batch_size"; "1" ]
    ++ (if preprocess_mesh && negb is_point_cloud
        then ["preprocess_mesh"; "True"] else []) in
  log_output <- log log_output
    ("Running: " +:+ Py.join " " (take 5 inference_cmd) +:+ "...") ;;
  s1 <- run_command inference_cmd partfield_dir (Some (update_log log_output)) ;;
  let success := s1.1 in
  let inference_output := s1.2 in
  if negb success then
    (* Check for OOM error *)
    if Py.contains "CUDA out of memory" inference_output
       || Py.contains "OutOfMemoryError" inference_output
    then
      log_output <- log log_output
        ("Feature extraction failed: GPU out of memory" +:+ nl
         +:+ Py.last_chars 500 inference_output) ;;
      ret ("Error: GPU out of memory. Try reducing 'Points per face' in advanced options.",
           [], None, transcript log_output)
    else
      log_output <- log log_output
        ("Feature extraction failed:" +:+ nl
         +:+ Py.last_chars 1000 inference_output) ;;
      ret ("Error: Feature extraction failed", [], None, transcript log_output)
  else
  log_output <- log log_output "Feature extraction completed" ;;
  progress 50 "Features extracted" ;;
  (* Find PCA visualization file *)
  pca_files <- glob actual_features_dir "feat_pca_" ".ply" ;;
  let pca_file := PathOps.str <$> head pca_files in
  (* Step 2: Clustering *)
  progress 55 "Running clustering..." ;;
  log_output <- log log_output "Starting clustering..." ;;
  let clustering_cmd :=
    [ sys_executable env; "run_part_clustering.py";
      "--root"; PathOps.str actual_features_dir;
      "--dump_dir"; PathOps.str output_dir;
      "--source_dir"; PathOps.str input_dir;
      "--max_num_clusters"; Py.str_int max_clusters;
      "--is_pc"; Py.str_bool is_point_cloud;
      "--export_mesh"; "True" ]
    ++ (if negb is_point_cloud
        then [ "--use_agglo"; Py.str_bool use_agglomerative;
               "--option"; Py.str_int adjacency_option;
               "--with_knn"; Py.str_bool add_knn_edges ]
        else []) in
  log_output <- log log_output
    ("Running clustering with max " +:+ Py.str_int max_clusters +:+ " clusters...") ;;
  s2 <- run_command clustering_cmd partfield_dir (Some (update_log log_output)) ;;
  let success := s2.1 in
  let clustering_output := s2.2 in
  if negb success then
    log_output <- log log_output
      ("Clustering failed:" +:+ nl +:+ Py.last_chars 1000 clustering_output) ;;
    ret ("Error: Clustering failed", [], pca_file, transcript log_output)
  else
  log_output <- log log_output "Clustering completed" ;;
  progress 90 "Clustering complete" ;;
  (* Step 3: Collect Results *)
  progress 95 "Collecting results..." ;;
  let ply_dir := output_dir // "ply" in
  found <- path_exists ply_dir ;;
  mesh_files <-
    (if found then
       plys <- glob ply_dir EmptyString ".ply" ;;
       objs <- glob ply_dir EmptyString ".obj" ;;
       let mesh_list := sort_by_key get_cluster_count (plys ++ objs) in
       ret (PathOps.str <$> mesh_list)
     else ret []) ;;
  match mesh_files with
  | [] =>
      log_output <- log log_output
        "Processing completed but no mesh files were generated" ;;
      ret ("Warning: No output files generated", [], pca_file,
           transcript log_output)
  | _ :: _ =>
      (* Clear GPU memory after processing *)
      clear_gpu_memory ;;
      (* Cleanup feature files to save disk space *)
      found <- path_exists actual_features_dir ;;
      (if found then rmtree_ignore_errors actual_features_dir else ret tt) ;;
      let has_obj := existsb (Py.endswith ".obj") mesh_files in
      let format_note := if has_obj then " (with UV maps)" else EmptyString in
      let count := Py.str_int (Z.of_nat (length mesh_files)) in
      log_output <- log log_output
        ("Generated " +:+ count +:+ " segmentation result(s)" +:+ format_note) ;;
      progress 100 "Done!" ;;
      ret ("Success! Generated " +:+ count +:+ " segmentation(s) with 2 to "
           +:+ Py.str_int max_clusters +:+ " parts" +:+ format_note,
           mesh_files, pca_file, transcript log_output)
  end.

(** *** The handler of the process button *)

(** The label the loop of [on_process] gives to one mesh path. *)
Definition mesh_label (mesh_path : string) : string :=
  let path := PathOps.of_str mesh_path in
  let cluster_count := Py.last_item (Py.split "_" (PathOps.stem path)) in
  let format_suffix :=
    if String.eqb (Py.lower (PathOps.suffix path)) ".obj" then " (UV)"
    else EmptyString in
  cluster_count +:+ " parts" +:+ format_suffix.

(** The loop of [on_process]: the drop-down choices and the mapping
    from label to path. *)
Definition build_choices (mesh_files : list string)
  : list string * gmap string string :=
  List.fold_left
    (fun acc mesh_path =>
       let label := mesh_label mesh_path in
       (acc.1 ++ [label], <[label := mesh_path]> acc.2))
    mesh_files ([], ∅).

Definition on_process (jobs_dir : string)
  (file_path : string) (is_pc : bool) (max_clust : Z) (use_agglo : bool)
  (preprocess : bool) (adj_opt : Z) (knn : bool) (ppf : Z)
  : M (string * (list string * option string) * option string
       * option string * string * gmap string string) :=
  r <- process_3d_file file_path is_pc max_clust use_agglo preprocess
         adj_opt knn ppf jobs_dir ;;
  let status := r.1.1.1 in
  let mesh_files := r.1.1.2 in
  let pca_file := r.1.2 in
  let log := r.2 in
  let c := build_choices mesh_files in
  let dropdown_choices := c.1 in
  let files_mapping := c.2 in
  (* Select first result by default *)
  let first_choice := head dropdown_choices in
  let first_model :=
    match first_choice with
    | Some label =>
        if String.eqb label EmptyString then None else files_mapping !! label
    | None => None
    end in
  ret (status, (dropdown_choices, first_choice), first_model, pca_file,
       log, files_mapping).

(** *** The handlers of the drop-down and of the download button *)

(** [on_select_result]: the path behind the selected label, [None] when
    nothing is selected, the mapping is empty or the label is not in
    it. An empty selection stands for [None] as well. *)
Definition on_select_result (selected_label : string)
  (files_mapping : gmap string string) : option string :=
  if negb (String.eqb selected_label EmptyString)
     && negb (bool_decide (files_mapping = ∅))
     && bool_decide (is_Some (files_mapping !! selected_label))
  then files_mapping !! selected_label
  else None.

(** [on_download]: [Some path] is [gr.File(value=path, visible=True)],
    [None] is [gr.File(visible=False)]. The component is taken as a
    value: what gradio does with the file it is given is not part of
    the model. *)
Definition on_download (selected_label : string)
  (files_mapping : gmap string string) : M (option string) :=
  if negb (String.eqb selected_label EmptyString)
     && negb (bool_decide (files_mapping = ∅))
     && bool_decide (is_Some (files_mapping !! selected_label))
  then
    match files_mapping !! selected_label with
    | Some path =>
        found <- path_exists (PathOps.of_str path) ;;
        if found then ret (Some path) else ret None
    | None => ret None
    end
  else ret None.

End Program.

(** ** Scenarios *)

(** Concrete worlds and environments on which the program is run. *)
Module Scenario.

Definition hour : Z := 3600 * 1000000.
Definition second : Z := 1000000.

(** Noon of some day, on the clock of the server *)
Definition noon : Z := 500 * 24 * hour + 12 * hour.

(** Put node [n] at [p], making the directories on the way. *)
Definition install (now : Z) (p : list string) (n : node) (root : node) : node :=
  match FS.mkdirs now EmptyString (removelast p) root with
  | inr root1 =>
      match FS.write now EmptyString p n root1 with
      | inr root2 => root2
      | inl _ => root1
      end
  | inl _ => root
  end.

Definition upload : string := "/tmp/gradio/chair.obj".

(** The disk of the server: the installation, an upload, and three
    job directories of different ages. *)
Definition disk : node :=
  Dir 0
    [ ("workspace",
       Dir 0
         [ ("partfield",
            Dir 0 [ ("partfield_inference.py", File 9000 0);
                    ("run_part_clustering.py", File 7000 0) ]);
           ("jobs",
            Dir 0 [ ("0a0a0a0a", Dir (noon - 24 * hour - second) []);
                    ("1b1b1b1b", Dir (noon - 24 * hour + second) []);
                    ("2c2c2c2c", Dir (noon - 24 * hour) []);
                    ("notes.txt", File 10 0);
                    ("3d3d3d3d", Dir (noon - 30 * hour)
                                   [("input", Dir (noon - 30 * hour) [])]) ]) ]);
      ("tmp",
       Dir 0 [ ("gradio", Dir 0 [ ("chair.obj", File 2048 (noon - hour)) ]) ]) ].

Definition world0 : World := mkWorld disk noon.

Definition features : list string :=
  ["workspace"; "partfield"; "exp_results"; "job_3f2a9c1e"].
Definition ply_out : list string :=
  ["workspace"; "jobs"; "3f2a9c1e"; "output"; "ply"].

(** Feature extraction as it behaves on a good day: it writes the
    features and the PCA picture, and takes a minute. *)
Definition inference_ok (w : World) : process :=
  let t := clock w + 60 * second in
  Exits ["Loading model" +:+ nl; "done" +:+ nl] 0
    (mkWorld
       (install t (features ++ ["feat_pca_chair.ply"]) (File 4000 t)
          (install t (features ++ ["part_feat_chair.npy"]) (File 900000 t) (fs w)))
       t).

(** Feature extraction running out of GPU memory *)
Definition inference_oom (w : World) : process :=
  Exits ["Loading model" +:+ nl;
         "torch.cuda.OutOfMemoryError: CUDA out of memory. Tried to allocate 2.00 GiB" +:+ nl]
    1 (mkWorld (fs w) (clock w + 5 * second)).

(** Feature extraction failing for another reason *)
Definition inference_crash (w : World) : process :=
  Exits ["Traceback (most recent call last):" +:+ nl;
         "KeyError: 'vertices'" +:+ nl]
    1 (mkWorld (fs w) (clock w + 5 * second)).

(** Clustering that writes the given files into [output/ply]. *)
Definition clustering_writes (names : list string) (w : World) : process :=
  let t := clock w + 30 * second in
  Exits ["clustering" +:+ nl] 0
    (mkWorld
       (List.fold_left (fun root nm => install t (ply_out ++ [nm]) (File 500 t) root)
          names (install t ply_out (Dir t []) (fs w)))
       t).

(** Clustering that ends well and writes nothing. *)
Definition clustering_silent (w : World) : process :=
  Exits ["clustering" +:+ nl] 0 (mkWorld (fs w) (clock w + 30 * second)).

Definition runs (script : string) (cmd : list string) : bool :=
  bool_decide (cmd !! 1%nat = Some script).

Definition stages (s1 s2 : World -> process)
  (cmd : list string) (cwd : string) (w : World) : process :=
  if runs "partfield_inference.py" cmd then s1 w
  else if runs "run_part_clustering.py" cmd then s2 w
  else SpawnFails (FS.FileNotFoundError (default EmptyString (head cmd))).

Definition env_with (refuse : fs_op -> option exn)
  (s1 s2 : World -> process) : Env :=
  {| sys_executable := "/usr/bin/python3";
     script_dir := PathOps.of_str "/workspace/partfield";
     uuid4 := "3f2a9c1e-8b4d-4c6a-9e2f-0123456789ab";
     extensions_order := [".ply"; ".obj"; ".glb"; ".off"];
     refused := refuse;
     subprocess := stages s1 s2 |}.

Definition nothing_refused (_ : fs_op) : option exn := None.

(** A run that goes well and yields three segmentations. *)
Definition env_ok : Env :=
  env_with nothing_refused inference_ok
    (clustering_writes ["x_0_5.ply"; "x_0_2.ply"; "x_0_10.ply"]).

(** A run whose clustering writes both formats for five parts. *)
Definition env_both : Env :=
  env_with nothing_refused inference_ok
    (clustering_writes ["x_0_5.ply"; "x_0_5.obj"]).

Definition env_oom : Env :=
  env_with nothing_refused inference_oom clustering_silent.

Definition env_crash : Env :=
  env_with nothing_refused inference_crash clustering_silent.

Definition env_silent : Env :=
  env_with nothing_refused inference_ok clustering_silent.

(** The disk is full when the upload is copied. *)
Definition disk_full (op : fs_op) : option exn :=
  match op with
  | OpCopy _ _ => Some (Exn "OSError" "[Errno 28] No space left on device")
  | _ => None
  end.

Definition env_disk_full : Env :=
  env_with disk_full inference_ok clustering_silent.

(** Clustering that exits with status 2 *)
Definition clustering_crash (w : World) : process :=
  Exits ["Traceback (most recent call last):" +:+ nl;
         "ValueError: need at least one array to concatenate" +:+ nl]
    2 (mkWorld (fs w) (clock w + 5 * second)).

Definition env_clustering_crash : Env :=
  env_with nothing_refused inference_ok clustering_crash.

(** A run whose clustering writes two meshes of five parts in one
    format. *)
Definition env_twins : Env :=
  env_with nothing_refused inference_ok
    (clustering_writes ["a_0_5.ply"; "b_0_5.ply"]).

(** An upload that is a directory *)
Definition upload_dir : string := "/tmp/gradio/scan.obj".

Definition world_dir : World :=
  mkWorld (install noon ["tmp"; "gradio"; "scan.obj"] (Dir noon []) disk) noon.

(** The uploads folder with two small files of reserved names *)
Definition disk_cars : node :=
  install noon ["tmp"; "gradio"; "Complex_Car.ply"] (File 4096 (noon - hour))
    (install noon ["tmp"; "gradio"; "CAR.obj"] (File 2048 (noon - hour)) disk).

End Scenario.

(** ** The vocabulary of the specification *)

(** The paths of a job, as [process_3d_file] names them *)
Definition job_id (env : Env) : string := Py.take 8 (uuid4 env).
Definition job_dir (env : Env) (jobs_dir : string) : Path :=
  PathOps.of_str jobs_dir // job_id env.
Definition input_dir (env : Env) (jobs_dir : string) : Path :=
  job_dir env jobs_dir // "input".
Definition output_dir (env : Env) (jobs_dir : string) : Path :=
  job_dir env jobs_dir // "output".
Definition ply_dir (env : Env) (jobs_dir : string) : Path :=
  output_dir env jobs_dir // "ply".
Definition dest_path (env : Env) (jobs_dir file_path : string) : Path :=
  input_dir env jobs_dir // PathOps.name (PathOps.of_str file_path).

(** The features directory of the job, when the pipeline is installed
    in [partfield_dir] *)
Definition features_dir (env : Env) (partfield_dir : Path) : Path :=
  partfield_dir // "exp_results" // ("job_" +:+ job_id env).

(** The two stages are told apart by the script they run. *)
Definition is_stage1 (cmd : list string) : Prop :=
  cmd !! 1%nat = Some "partfield_inference.py".
Definition is_stage2 (cmd : list string) : Prop :=
  cmd !! 1%nat = Some "run_part_clustering.py".

(** The out-of-memory signature looked for in the output of stage 1 *)
Definition oom_signature (output : string) : bool :=
  Py.contains "CUDA out of memory" output
  || Py.contains "OutOfMemoryError" output.

(** The mesh files found in a directory, in the order of the harvest *)
Definition harvest (dir : Path) (n : node) : list Path :=
  sort_by_key get_cluster_count
    (glob_fs dir EmptyString ".ply" n ++ glob_fs dir EmptyString ".obj" n).

(** Kinds of events *)
Definition is_sweep (ev : event) : bool :=
  match ev with EvSweep _ => true | _ => false end.
Definition is_workspace (ev : event) : bool :=
  match ev with EvMkdir _ _ | EvCopy _ _ _ => true | _ => false end.
Definition is_spawn (ev : event) : bool :=
  match ev with EvSpawn _ _ _ => true | _ => false end.

(** A call that sets up the workspace failed with [e]. *)
Definition workspace_failure (ev : event) (e : exn) : Prop :=
  (exists p, ev = EvMkdir p (Some e)) \/ (exists src dst, ev = EvCopy src dst (Some e)).

(** A mesh path names an OBJ file. *)
Definition is_obj (mesh_path : string) : bool :=
  String.eqb (Py.lower (PathOps.suffix (PathOps.of_str mesh_path))) ".obj".

Definition is_rmtree (ev : event) : bool :=
  match ev with EvRmtree _ _ => true | _ => false end.

(** Ascending order of a key, and the items of key [k] in the order of
    the list *)
Definition key_le {A} (key : A -> Z) (x y : A) : Prop := key x <= key y.

Definition of_key {A} (key : A -> Z) (k : Z) (l : list A) : list A :=
  List.filter (fun x => key x =? k) l.

(** [wp m w Q]: the run of [m] from [w] ends in a result, a world and a
    list of events that satisfy [Q]. *)
Definition wp {A} (m : M A) (w : World)
  (Q : result A -> World -> list event -> Prop) : Prop :=
  Q (res (m w)) (final (m w)) (events (m w)).

(** The retention sweep: a directory is expired when it was last
    modified strictly before the cutoff; it is swept when, besides, the
    system neither refuses to read its time stamp nor to remove it. *)
Definition expired (cutoff : Z) (n : node) : bool :=
  FS.is_dir n && (FS.mtime n <? cutoff).

Definition allowed (env : Env) (op : fs_op) : bool :=
  match refused env op with None => true | Some _ => false end.

Definition swept (env : Env) (jobs_dir : Path) (cutoff : Z)
  (e : string * node) : bool :=
  expired cutoff e.2
  && allowed env (OpStat (jobs_dir // e.1))
  && allowed env (OpRmtree (jobs_dir // e.1)).

(** The range of [datetime]: the clock of the server counts the
    microseconds since [datetime.min], the first instant of year 1, and
    [datetime.max] is the last microsecond of year 9999, 3652059 days
    later. A [timedelta] spans less than a thousand million days
    either way. Outside these ranges [timedelta(hours=h)] and the
    subtraction of line 47 raise [OverflowError], and
    [datetime.fromtimestamp] raises as well. *)
Definition DATETIME_MAX : Z := 3652059 * 86400 * 1000000 - 1.

Definition valid_datetime (t : Z) : Prop := 0 <= t <= DATETIME_MAX.

Definition valid_timedelta (d : Z) : Prop :=
  - (999999999 * 86400 * 1000000) <= d < 1000000000 * 86400 * 1000000.

(** The sweep tries to remove an entry when it is an expired directory
    whose time stamp the system lets it read. *)
Definition attempted (env : Env) (jobs_dir : Path) (cutoff : Z)
  (e : string * node) : bool :=
  expired cutoff e.2 && allowed env (OpStat (jobs_dir // e.1)).

(** An ASCII character; a file name of ASCII characters, of at most 255
    bytes as file systems have them. On such text [Py.int] is [int]. *)
Definition ascii_char (c : ascii) : bool := (N_of_ascii c <? 128)%N.

Definition ascii_name (s : string) : Prop :=
  forallb ascii_char (String.list_ascii_of_string s) = true
  /\ (String.length s <= 255)%nat.

(** The characters a decimal numeral is made of for [int]: digits,
    a sign, an underscore, white space. *)
Definition numeral_char (c : ascii) : bool :=
  match Py.digit_val c with
  | Some _ => true
  | None =>
      Py.is_space c || Ascii.eqb c "+" || Ascii.eqb c "-" || Ascii.eqb c "_"
  end.

(** The last token of the stem of a mesh path, as a string *)
Definition last_token (mesh_path : string) : string :=
  Py.last_item (Py.split "_" (PathOps.stem (PathOps.of_str mesh_path))).

(** The last character of a string *)
Fixpoint last_char (s : string) : option ascii :=
  match s with
  | EmptyString => None
  | String c s' => match last_char s' with Some d => Some d | None => Some c end
  end.

(** The artifacts a job returns, and the mapping the handler builds *)
Definition artifacts_of {A B C} (r : run (A * list string * B * C)) : list string :=
  match res r with Ret v => v.1.1.2 | _ => [] end.

Definition mapping_of {A} (r : run (A * gmap string string)) : gmap string string :=
  match res r with Ret v => v.2 | _ => ∅ end.

(** A path leads to a directory. *)
Definition is_dir_at (p : list string) (n : node) : Prop :=
  exists m es, FS.lookup p n = Some (Dir m es).

(** A call of [rmtree] that removed its tree *)
Definition is_removal (ev : event) : bool :=
  match ev with EvRmtree _ None => true | _ => false end.

(** The character does not occur in the string. *)
Definition lacks (c : ascii) (s : string) : Prop := Py.rfind c s = None.

(** A path component as [pathlib] has them: without slash, not empty
    and not a dot. *)
Definition plain (c : string) : Prop :=
  lacks "/" c /\ c ≠ EmptyString /\ c ≠ ".".

(** Every character of the string is a decimal digit. *)
Fixpoint all_digits (s : string) : bool :=
  match s with
  | EmptyString => true
  | String c s' =>
      match Py.digit_val c with
      | Some _ => all_digits s'
      | None => false
      end
  end.

(** The name the clustering script gives to an output file:
    [{uid}_{num_clusters}] and the extension, where [uid] may itself
    hold a view identifier. *)
Definition output_name (uid : string) (num_clusters : Z) (ext : string) : string :=
  uid +:+ "_" +:+ Py.str_int num_clusters +:+ ext.

(** The percentages of the progress reports of a run, in order *)
Definition percents (evs : list event) : list Z :=
  List.flat_map
    (fun ev => match ev with EvProgress percent _ => [percent] | _ => [] end)
    evs.

(** Where a job may create and remove: it makes directories and copies
    inside its own directory, and removes entries of the jobs root (the
    sweep) or its features directory. *)
Definition in_bounds (env : Env) (jobs_dir : string) (ev : event) : Prop :=
  match ev with
  | EvMkdir p _ => parts (job_dir env jobs_dir) `prefix_of` parts p
  | EvCopy _ dst _ => parts (job_dir env jobs_dir) `prefix_of` parts dst
  | EvRmtree p _ =>
      (exists c, p = PathOps.of_str jobs_dir // c)
      \/ (exists d, p = features_dir env d)
  | _ => True
  end.

(** *** Readings of the specification that the program does not follow *)

(** "When two artifacts share the part count and differ in format, only
    the OBJ one is surfaced in the mapping from label to path": the
    other one is under no label. *)
Definition only_uv_is_surfaced (mesh_files : list string)
  (mapping : gmap string string) : Prop :=
  forall p q,
    In p mesh_files -> In q mesh_files ->
    get_cluster_count (PathOps.of_str p) = get_cluster_count (PathOps.of_str q) ->
    is_obj p = false -> is_obj q = true ->
    forall label, mapping !! label ≠ Some p.


(** "Whenever both stages exit successfully, the features directory is
    deleted before [process_3d_file] returns." *)
Definition features_deleted_on_success {A} (env : Env) (r : run A) : Prop :=
  forall cmd1 cmd2 d lines1 lines2 after1 after2,
    In (EvSpawn cmd1 d (Exits lines1 0 after1)) (events r) -> is_stage1 cmd1 ->
    In (EvSpawn cmd2 d (Exits lines2 0 after2)) (events r) -> is_stage2 cmd2 ->
    FS.lookup (parts (features_dir env d)) (fs (final r)) = None.


(** "The sweep is invoked before the workspace directories are created
    and the input file is copied": any call that sets up the workspace
    comes after a sweep. *)
Definition sweep_precedes_workspace (evs : list event) : Prop :=
  forall pre ev post,
    evs = pre ++ ev :: post -> is_workspace ev = true ->
    exists j, In (EvSweep j) pre.

(** "A failure to set up the workspace is returned as a status, never
    raised." *)
Definition workspace_error_is_returned {A}
  (r : run (string * list string * option string * A)) : Prop :=
  forall ev e,
    In ev (events r) -> workspace_failure ev e ->
    exists status aux log, res r = Ret (status, [], aux, log).

(** * Properties *)

(** ** The file system *)

Section FSFacts.

Implicit Types (c d : string) (es : list (string * node)) (p q : list string).

Lemma eqb_string_refl c : String.eqb c c = true.
Proof. apply String.eqb_refl. Qed.

Lemma eqb_string_ne c d : c ≠ d -> String.eqb c d = false.
Proof. intros H. apply String.eqb_neq. exact H. Qed.

Lemma find_del_eq c es : FS.find c (FS.del c es) = None.
Proof.
  induction es as [|[c' n] es IH]; simpl; [reflexivity|].
  destruct (String.eqb c' c) eqn:E; simpl; [exact IH|].
  rewrite E. exact IH.
Qed.

Lemma find_del_ne c d es : c ≠ d -> FS.find d (FS.del c es) = FS.find d es.
Proof.
  intros Hne. induction es as [|[c' n] es IH]; simpl; [reflexivity|].
  destruct (String.eqb c' c) eqn:E; simpl.
  - apply String.eqb_eq in E. subst c'.
    rewrite (eqb_string_ne c d Hne). exact IH.
  - destruct (String.eqb c' d); [reflexivity | exact IH].
Qed.

Lemma find_set_eq c v es : FS.find c (FS.set c v es) = Some v.
Proof.
  induction es as [|[c' n] es IH]; simpl.
  - rewrite eqb_string_refl. reflexivity.
  - destruct (String.eqb c' c) eqn:E; simpl; rewrite E; [reflexivity | exact IH].
Qed.

Lemma find_set_ne c d v es : c ≠ d -> FS.find d (FS.set c v es) = FS.find d es.
Proof.
  intros Hne. induction es as [|[c' n] es IH]; simpl.
  - rewrite (eqb_string_ne c d Hne). reflexivity.
  - destruct (String.eqb c' c) eqn:E; simpl.
    + apply String.eqb_eq in E. subst c'.
      rewrite (eqb_string_ne c d Hne). reflexivity.
    + destruct (String.eqb c' d); [reflexivity | exact IH].
Qed.

Lemma find_not_listed c es : c ∉ List.map fst es -> FS.find c es = None.
Proof.
  induction es as [|[c' n] es IH]; simpl; intros H; [reflexivity|].
  rewrite eqb_string_ne.
  - apply IH. intros Hin. apply H. right. exact Hin.
  - intros ->. apply H. left.
Qed.

Lemma find_app_r c es1 es2 :
  c ∉ List.map fst es1 -> FS.find c (es1 ++ es2) = FS.find c es2.
Proof.
  induction es1 as [|[c' n] es1 IH]; simpl; intros H; [reflexivity|].
  rewrite eqb_string_ne.
  - apply IH. intros Hin. apply H. right. exact Hin.
  - intros ->. apply H. left.
Qed.

Lemma del_not_listed c es : c ∉ List.map fst es -> FS.del c es = es.
Proof.
  induction es as [|[c' n] es IH]; simpl; intros H; [reflexivity|].
  rewrite eqb_string_ne; simpl.
  - f_equal. apply IH. intros Hin. apply H. right. exact Hin.
  - intros ->. apply H. left.
Qed.

Lemma del_app c es1 es2 : FS.del c (es1 ++ es2) = FS.del c es1 ++ FS.del c es2.
Proof. unfold FS.del. apply List.filter_app. Qed.

(** The node below a directory entry *)
Lemma lookup_child p c n :
  FS.lookup (p ++ [c]) n =
  match FS.lookup p n with
  | Some (Dir _ es) => FS.find c es
  | _ => None
  end.
Proof.
  revert n. induction p as [|d p IH]; intros n; simpl.
  - destruct n as [|m es]; [reflexivity|]. destruct (FS.find c es); reflexivity.
  - destruct n as [|m es]; [reflexivity|].
    destruct (FS.find d es) as [n'|]; [apply IH | reflexivity].
Qed.

(** Once removed, a path leads nowhere. *)
Lemma lookup_remove_self now p n :
  p ≠ [] -> FS.lookup p (FS.remove now p n) = None.
Proof.
  revert n. induction p as [|c p IH]; intros n Hp; [congruence|].
  destruct n as [sz m|m es]; [reflexivity|].
  destruct p as [|c' p'].
  - simpl. destruct (FS.find c es) eqn:E; simpl.
    + rewrite find_del_eq. reflexivity.
    + rewrite E. reflexivity.
  - change (FS.remove now (c :: c' :: p') (Dir m es))
      with (match FS.find c es with
            | Some n' => Dir m (FS.set c (FS.remove now (c' :: p') n') es)
            | None => Dir m es
            end).
    destruct (FS.find c es) as [n'|] eqn:E.
    + change (FS.lookup (c :: c' :: p') (Dir m (FS.set c (FS.remove now (c' :: p') n') es)))
        with (match FS.find c (FS.set c (FS.remove now (c' :: p') n') es) with
              | Some x => FS.lookup (c' :: p') x
              | None => None
              end).
      rewrite find_set_eq. apply IH. discriminate.
    + simpl. rewrite E. reflexivity.
Qed.

(** Removing a path leaves every path that is neither above nor below
    it as it was. *)
Lemma lookup_remove_other now p q n :
  ¬ p `prefix_of` q -> ¬ q `prefix_of` p ->
  FS.lookup q (FS.remove now p n) = FS.lookup q n.
Proof.
  revert q n. induction p as [|c p IH]; intros q n Hpq Hqp; [reflexivity|].
  destruct q as [|d q]; [exfalso; apply Hqp, prefix_nil|].
  destruct n as [sz m|m es]; [reflexivity|].
  destruct p as [|c' p'].
  - assert (c ≠ d) as Hne.
    { intros ->. apply Hpq. exists q. reflexivity. }
    simpl. destruct (FS.find c es) eqn:E; simpl; [|reflexivity].
    rewrite find_del_ne by exact Hne. reflexivity.
  - change (FS.remove now (c :: c' :: p') (Dir m es))
      with (match FS.find c es with
            | Some n' => Dir m (FS.set c (FS.remove now (c' :: p') n') es)
            | None => Dir m es
            end).
    destruct (FS.find c es) as [n'|] eqn:E; [|reflexivity].
    simpl FS.lookup at 1 2.
    destruct (decide (c = d)) as [->|Hne].
    + rewrite find_set_eq, E. apply IH.
      * intros Hp. apply Hpq. apply prefix_cons. exact Hp.
      * intros Hq. apply Hqp. apply prefix_cons. exact Hq.
    + rewrite find_set_ne by exact Hne. reflexivity.
Qed.

(** Removing an entry of a directory takes it out of the listing. *)
Lemma lookup_remove_parent now p c n m es x :
  FS.lookup p n = Some (Dir m es) -> FS.find c es = Some x ->
  exists m', FS.lookup p (FS.remove now (p ++ [c]) n) = Some (Dir m' (FS.del c es)).
Proof.
  revert n. induction p as [|d p IH]; intros n Hl Hf.
  - simpl in Hl. injection Hl as ->. simpl. rewrite Hf. eauto.
  - destruct n as [sz m0|m0 es0]; [discriminate|].
    simpl in Hl. destruct (FS.find d es0) as [n0|] eqn:E; [|discriminate].
    destruct (IH n0 Hl Hf) as [m' Hm'].
    exists m'. simpl app.
    destruct (p ++ [c]) as [|c' p'] eqn:Ep.
    { destruct p; discriminate. }
    change (FS.remove now (d :: c' :: p') (Dir m0 es0))
      with (match FS.find d es0 with
            | Some n' => Dir m0 (FS.set d (FS.remove now (c' :: p') n') es0)
            | None => Dir m0 es0
            end).
    rewrite E. simpl. rewrite find_set_eq. exact Hm'.
Qed.

End FSFacts.

(** ** Reasoning about runs *)

Section WP.

Context (env : Env).

Lemma wp_ret {A} (a : A) w Q : Q (Ret a) w [] -> wp (ret a) w Q.
Proof. intros H. exact H. Qed.

Lemma wp_bind {A B} (m : M A) (f : A -> M B) w Q :
  wp m w (fun r w1 e1 =>
            match r with
            | Ret a => wp (f a) w1 (fun r2 w2 e2 => Q r2 w2 (e1 ++ e2))
            | Raise e => Q (Raise e) w1 e1
            | Block => Q Block w1 e1
            end) ->
  wp (bind m f) w Q.
Proof.
  unfold wp, bind. destruct (res (m w)); intros H; exact H.
Qed.

Lemma wp_try_except {A} (m : M A) (h : exn -> M A) w Q :
  wp m w (fun r w1 e1 =>
            match r with
            | Raise e => wp (h e) w1 (fun r2 w2 e2 => Q r2 w2 (e1 ++ e2))
            | _ => Q r w1 e1
            end) ->
  wp (try_except m h) w Q.
Proof.
  unfold wp, try_except. destruct (res (m w)) eqn:E; intros H;
    try exact H; rewrite E; exact H.
Qed.

Lemma wp_reads {A} (f : World -> A) w Q : Q (Ret (f w)) w [] -> wp (reads f) w Q.
Proof. intros H. exact H. Qed.

Lemma wp_emit ev w Q : Q (Ret tt) w [ev] -> wp (emit ev) w Q.
Proof. intros H. exact H. Qed.

Lemma wp_progress pc desc w Q :
  Q (Ret tt) w [EvProgress pc desc] -> wp (progress pc desc) w Q.
Proof. intros H. exact H. Qed.

Lemma wp_clear_gpu_memory w Q : Q (Ret tt) w [EvGpuClear] -> wp clear_gpu_memory w Q.
Proof. intros H. exact H. Qed.

Lemma wp_log lo msg w Q :
  Q (Ret (lo ++ ["[" +:+ strftime_HMS (clock w) +:+ "] " +:+ msg])) w [] ->
  wp (log lo msg) w Q.
Proof. intros H. exact H. Qed.

Lemma wp_path_exists p w Q :
  Q (Ret (bool_decide (is_Some (FS.lookup (parts p) (fs w))))) w [] ->
  wp (path_exists p) w Q.
Proof. intros H. exact H. Qed.

Lemma wp_glob p pre suf w Q :
  Q (Ret (glob_fs p pre suf (fs w))) w [] -> wp (glob p pre suf) w Q.
Proof. intros H. exact H. Qed.

Lemma wp_get_partfield_dir w Q :
  (forall d, Q (Ret d) w []) -> wp (get_partfield_dir env) w Q.
Proof.
  intros H. unfold wp, get_partfield_dir, bind, path_exists, reads. simpl.
  destruct (bool_decide _); simpl; apply H.
Qed.

Lemma wp_mkdir p w Q :
  (forall e, Q (Raise e) w [EvMkdir p (Some e)]) ->
  (forall n, Q (Ret tt) (mkWorld n (clock w)) [EvMkdir p None]) ->
  wp (mkdir env p) w Q.
Proof.
  intros Hf Hs. unfold wp, mkdir, bind, get_world. simpl.
  destruct (refused env (OpMkdir p)); simpl; [apply Hf|].
  destruct (FS.mkdirs _ _ _ _); simpl; [apply Hf | apply Hs].
Qed.

Lemma wp_copy2 src dst w Q :
  (forall e, Q (Raise e) w [EvCopy src dst (Some e)]) ->
  (forall n, Q (Ret tt) (mkWorld n (clock w)) [EvCopy src dst None]) ->
  wp (copy2 env src dst) w Q.
Proof.
  intros Hf Hs. unfold wp, copy2, bind, get_world. simpl.
  destruct (refused env (OpCopy src dst)); simpl; [apply Hf|].
  destruct (copy2_fs _ _ _); simpl; [apply Hf | apply Hs].
Qed.

Lemma wp_rmtree p w Q :
  (forall e, Q (Raise e) w [EvRmtree p (Some e)]) ->
  (refused env (OpRmtree p) = None ->
   is_Some (FS.lookup (parts p) (fs w)) ->
   Q (Ret tt) (mkWorld (FS.remove (clock w) (parts p) (fs w)) (clock w))
     [EvRmtree p None]) ->
  wp (rmtree env p) w Q.
Proof.
  intros Hf Hs. unfold wp, rmtree, bind, get_world. simpl.
  destruct (refused env (OpRmtree p)); simpl; [apply Hf|].
  destruct (FS.lookup _ _) as [[|]|] eqn:E; simpl; try apply Hf.
  apply Hs; eauto.
Qed.

Lemma wp_rmtree_ignore_errors p w Q :
  (forall e, Q (Ret tt) w [EvRmtree p (Some e)]) ->
  (refused env (OpRmtree p) = None ->
   is_Some (FS.lookup (parts p) (fs w)) ->
   Q (Ret tt) (mkWorld (FS.remove (clock w) (parts p) (fs w)) (clock w))
     [EvRmtree p None]) ->
  wp (rmtree_ignore_errors env p) w Q.
Proof.
  intros Hf Hs. unfold rmtree_ignore_errors.
  apply wp_try_except, wp_rmtree.
  - intros e. apply wp_ret. rewrite app_nil_r. apply Hf.
  - exact Hs.
Qed.

(** [run_command] as a function of what the subprocess does *)
Lemma collect_output_from (cb : option (string -> string)) lines acc :
  List.fold_left
    (fun output_lines line =>
       let output_lines := output_lines ++ [line] in
       match cb with
       | Some cb => let _ := cb (Py.join EmptyString output_lines) in output_lines
       | None => output_lines
       end) lines acc = acc ++ lines.
Proof.
  revert acc. induction lines as [|l lines IH]; intros acc; simpl.
  - rewrite app_nil_r. reflexivity.
  - destruct cb; rewrite IH, <- app_assoc; reflexivity.
Qed.

Lemma collect_output_all cb lines : collect_output cb lines = lines.
Proof. unfold collect_output. apply collect_output_from. Qed.

Lemma run_command_run cmd cwd cb w :
  run_command env cmd cwd cb w =
  let p := subprocess env cmd (PathOps.str cwd) w in
  match p with
  | SpawnFails e =>
      Run (Ret (false, "Command failed: " +:+ exn_str e)) w
        [EvSpawn cmd cwd p]
  | CaptureFails _ e after =>
      Run (Ret (false, "Command failed: " +:+ exn_str e)) after
        [EvSpawn cmd cwd p]
  | Exits lines returncode after =>
      Run (Ret (returncode =? 0, Py.join EmptyString lines)) after
        [EvSpawn cmd cwd p]
  | Hangs => Run Block w [EvSpawn cmd cwd p]
  end.
Proof.
  unfold run_command, try_except, Popen, bind, get_world, emit.
  cbn [res final events app].
  destruct (subprocess env cmd (PathOps.str cwd) w) eqn:E;
    cbn [res final events app read_lines wait raise block ret bind put_world];
    try reflexivity.
  rewrite collect_output_all. reflexivity.
Qed.

Lemma wp_run_command cmd cwd cb w Q :
  (match subprocess env cmd (PathOps.str cwd) w with
   | SpawnFails e =>
       Q (Ret (false, "Command failed: " +:+ exn_str e)) w
         [EvSpawn cmd cwd (SpawnFails e)]
   | CaptureFails lines e after =>
       Q (Ret (false, "Command failed: " +:+ exn_str e)) after
         [EvSpawn cmd cwd (CaptureFails lines e after)]
   | Exits lines returncode after =>
       Q (Ret (returncode =? 0, Py.join EmptyString lines)) after
         [EvSpawn cmd cwd (Exits lines returncode after)]
   | Hangs => Q Block w [EvSpawn cmd cwd Hangs]
   end) ->
  wp (run_command env cmd cwd cb) w Q.
Proof.
  unfold wp. rewrite run_command_run. simpl.
  destruct (subprocess env cmd (PathOps.str cwd) w); intros H; exact H.
Qed.

End WP.

(** ** The events of the retention sweep *)

Section SweepEvents.

Context (env : Env).

Lemma wp_mono {A} (m : M A) w (Q Q' : result A -> World -> list event -> Prop) :
  wp m w Q -> (forall r w' evs, Q r w' evs -> Q' r w' evs) -> wp m w Q'.
Proof. unfold wp. intros H HQ. apply HQ, H. Qed.

(** A loop whose body never blocks and only emits events of one kind
    does the same as a whole. *)
Lemma wp_for_each_events {A B} (P : event -> Prop) (l : list A)
  (body : B -> A -> M B) :
  (forall acc x w,
      wp (body acc x) w (fun r _ evs => r ≠ Block /\ Forall P evs)) ->
  forall acc w,
    wp (for_each l body acc) w (fun r _ evs => r ≠ Block /\ Forall P evs).
Proof.
  intros Hbody. induction l as [|x l IH]; intros acc w.
  - apply wp_ret. split; [discriminate | constructor].
  - simpl. apply wp_bind. eapply wp_mono; [apply Hbody|].
    intros r w' evs [Hr Hevs]. destruct r as [acc'| |]; [| tauto | congruence].
    eapply wp_mono; [apply IH|].
    intros r' w'' evs' [Hr' Hevs']. split; [exact Hr'|].
    apply Forall_app. split; assumption.
Qed.

Lemma wp_stat_mtime p w Q :
  (forall e, Q (Raise e) w []) ->
  (forall t, Q (Ret t) w []) ->
  wp (stat_mtime env p) w Q.
Proof.
  intros Hf Hs. unfold wp, stat_mtime, bind, get_world. simpl.
  destruct (refused env (OpStat p)); simpl; [apply Hf|].
  destruct (FS.lookup _ _); simpl; [apply Hs | apply Hf].
Qed.

Lemma wp_iterdir p w Q :
  (forall e, Q (Raise e) w []) ->
  (forall l, Q (Ret l) w []) ->
  wp (iterdir p) w Q.
Proof.
  intros Hf Hs. unfold wp, iterdir, bind, get_world. simpl.
  destruct (FS.lookup _ _) as [[|]|]; simpl; [apply Hf | apply Hs | apply Hf].
Qed.

(** The sweep announces itself, then only removes trees; it never
    blocks. *)
Lemma wp_cleanup_old_jobs jobs_dir expiry_hours w Q :
  (forall r w' rms,
      r ≠ Block -> Forall (fun ev => is_rmtree ev = true) rms ->
      Q r w' (EvSweep jobs_dir :: rms)) ->
  wp (cleanup_old_jobs env jobs_dir expiry_hours) w Q.
Proof.
  intros HQ. unfold cleanup_old_jobs.
  apply wp_bind, wp_emit. cbv beta iota.
  apply wp_bind, wp_path_exists. cbv beta iota.
  destruct (bool_decide _); cbn [negb].
  2:{ apply wp_ret. apply HQ; [discriminate | constructor]. }
  apply wp_bind, wp_reads. cbv beta iota.
  apply wp_bind, wp_iterdir; cbv beta iota.
  { intros e. apply HQ; [discriminate | constructor]. }
  intros l.
  eapply wp_mono.
  { apply (wp_for_each_events (fun ev => is_rmtree ev = true)).
    intros acc x w0.
    apply wp_bind, wp_reads. cbv beta iota.
    destruct (match FS.lookup _ _ with Some _ => _ | None => _ end).
    2:{ apply wp_ret. split; [discriminate | constructor]. }
    apply wp_try_except, wp_bind, wp_stat_mtime; cbv beta iota.
    { intros e. apply wp_ret. split; [discriminate | constructor]. }
    intros t. destruct (t <? _).
    2:{ apply wp_ret. split; [discriminate | constructor]. }
    apply wp_bind, wp_rmtree; cbv beta iota.
    - intros e. apply wp_ret. split; [discriminate|].
      repeat constructor.
    - intros _ _. apply wp_ret. split; [discriminate|].
      repeat constructor. }
  cbv beta. intros r w' evs [Hr Hevs]. apply HQ; assumption.
Qed.

End SweepEvents.

(** ** Stepping through [process_3d_file] *)

Section Steps.

Context (env : Env).

(** The text of the log is not looked at by the properties below. *)
Lemma wp_log_any lo msg w (Q : result (list string) -> World -> list event -> Prop) :
  (forall lo', Q (Ret lo') w []) -> wp (log lo msg) w Q.
Proof. intros H. apply wp_log, H. Qed.

Lemma wp_log_if (b : bool) lo msg w
  (Q : result (list string) -> World -> list event -> Prop) :
  (forall lo', Q (Ret lo') w []) ->
  wp (if b then log lo msg else ret lo) w Q.
Proof. intros H. destruct b; [apply wp_log_any | apply wp_ret]; apply H. Qed.

Lemma no_spawn_among_rmtrees rms cmd cwd p :
  Forall (fun ev => is_rmtree ev = true) rms -> ¬ In (EvSpawn cmd cwd p) rms.
Proof.
  intros H Hin. rewrite List.Forall_forall in H. apply H in Hin. discriminate.
Qed.

End Steps.

(** One step of the run: the rule of the command at the head. *)
Ltac wp_step :=
  lazymatch goal with
  | |- wp (bind _ _) _ _ => apply wp_bind
  | |- wp (ret _) _ _ => apply wp_ret
  | |- wp (log _ _) _ _ => apply wp_log_any; intros ?log_output
  | |- wp (if _ then log _ _ else ret _) _ _ => apply wp_log_if; intros ?log_output
  | |- wp (reads _) _ _ => apply wp_reads
  | |- wp (progress _ _) _ _ => apply wp_progress
  | |- wp clear_gpu_memory _ _ => apply wp_clear_gpu_memory
  | |- wp (path_exists _) _ _ => apply wp_path_exists
  | |- wp (glob _ _ _) _ _ => apply wp_glob
  | |- wp (get_partfield_dir _) _ _ =>
      apply wp_get_partfield_dir; intros ?partfield_dir
  | |- wp (mkdir _ _) _ _ => apply wp_mkdir; [intros ?e | intros ?n]
  | |- wp (copy2 _ _ _) _ _ => apply wp_copy2; [intros ?e | intros ?n]
  | |- wp (rmtree_ignore_errors _ _) _ _ =>
      apply wp_rmtree_ignore_errors; [intros ?e | intros ?Hperm ?Hthere]
  | |- wp (cleanup_old_jobs _ _ _) _ _ =>
      apply wp_cleanup_old_jobs;
      let r := fresh "r" in
      intros r ?w ?rms ?Hnb ?Hrms; destruct r as [?removed|?e|]; [| |congruence]
  | |- wp (run_command _ _ _ _) _ _ =>
      apply wp_run_command;
      lazymatch goal with
      | |- match ?s with _ => _ end =>
          destruct s as [?e|?lines ?e ?after|?lines ?code ?after|] eqn:?Hproc
      end
  | |- wp (if negb ?b then _ else _) _ _ => destruct b eqn:?; cbn [negb]
  | |- wp (if ?b then _ else _) _ _ => destruct b eqn:?
  | |- wp (match ?l with [] => _ | _ :: _ => _ end) _ _ => destruct l eqn:?
  end; cbv beta iota zeta; cbn [fst snd negb].

Ltac wp_run := repeat wp_step; cbn [app].

(** An event found in the list of a run is one of those listed. *)
Ltac in_cases H :=
  lazymatch type of H with
  | In _ (_ :: _) =>
      let H1 := fresh "Hev" in
      destruct H as [H1|H]; [ try discriminate H1 | in_cases H ]
  | In _ (_ ++ _) =>
      apply in_app_or in H;
      let H1 := fresh "Hin" in
      destruct H as [H1|H]; [ in_cases H1 | in_cases H ]
  | In _ [] => destruct H
  | False => destruct H
  | _ => idtac
  end.

(** An event is among those listed. *)
Ltac prove_in :=
  lazymatch goal with
  | |- In _ (_ :: _) => first [left; reflexivity | right; prove_in]
  | |- In _ (_ ++ _) => apply in_or_app; first [left; prove_in | right; prove_in]
  end.

(** ** Workspace set-up and the retention sweep (claims C2 and C3) *)

Section Workspace.

Context (env : Env).
Context (file_path : string) (is_point_cloud : bool) (max_clusters : Z)
  (use_agglomerative preprocess_mesh : bool) (adjacency_option : Z)
  (add_knn_edges : bool) (points_per_face : Z) (jobs_dir : string).

Local Abbreviation job :=
  (process_3d_file env file_path is_point_cloud max_clusters use_agglomerative
     preprocess_mesh adjacency_option add_knn_edges points_per_face jobs_dir).

Local Abbreviation handler :=
  (on_process env jobs_dir file_path is_point_cloud max_clusters
     use_agglomerative preprocess_mesh adjacency_option add_knn_edges
     points_per_face).

(** The handler of the button passes on what the job raises. *)
Lemma on_process_raises w e : res (job w) = Raise e -> res (handler w) = Raise e.
Proof.
  intros H. unfold on_process, bind. rewrite H. reflexivity.
Qed.

(** The events of a job begin with the set-up of the workspace; the
    sweep, when the run gets that far, is the fifth event, and nothing
    after it touches the workspace or sweeps again. *)
Lemma job_prefix w :
  let r := job w in
  let mk1 := EvMkdir (input_dir env jobs_dir) in
  let mk2 := EvMkdir (output_dir env jobs_dir) in
  let cp := EvCopy (PathOps.of_str file_path) (dest_path env jobs_dir file_path) in
  (events r = [] /\ (validate_file env file_path (fs w)).1 = false)
  \/ (exists e, events r = [mk1 (Some e)] /\ res r = Raise e)
  \/ (exists e, events r = [mk1 None; mk2 (Some e)] /\ res r = Raise e)
  \/ (exists e, events r = [mk1 None; mk2 None; cp (Some e)] /\ res r = Raise e)
  \/ (exists rest,
        events r = [mk1 None; mk2 None; cp None;
                    EvProgress 5 "Cleaning up old jobs...";
                    EvSweep (PathOps.of_str jobs_dir)] ++ rest
        /\ Forall (fun ev => is_sweep ev = false /\ is_workspace ev = false) rest
        /\ (validate_file env file_path (fs w)).1 = true).
Proof.
  change (wp job w (fun r _ evs =>
    let mk1 := EvMkdir (input_dir env jobs_dir) in
    let mk2 := EvMkdir (output_dir env jobs_dir) in
    let cp := EvCopy (PathOps.of_str file_path) (dest_path env jobs_dir file_path) in
    (evs = [] /\ (validate_file env file_path (fs w)).1 = false)
    \/ (exists e, evs = [mk1 (Some e)] /\ r = Raise e)
    \/ (exists e, evs = [mk1 None; mk2 (Some e)] /\ r = Raise e)
    \/ (exists e, evs = [mk1 None; mk2 None; cp (Some e)] /\ r = Raise e)
    \/ (exists rest,
          evs = [mk1 None; mk2 None; cp None;
                 EvProgress 5 "Cleaning up old jobs...";
                 EvSweep (PathOps.of_str jobs_dir)] ++ rest
          /\ Forall (fun ev => is_sweep ev = false /\ is_workspace ev = false) rest
          /\ (validate_file env file_path (fs w)).1 = true))).
  assert (Hrm : forall rms rest,
             Forall (fun ev => is_rmtree ev = true) rms ->
             Forall (fun ev => is_sweep ev = false /\ is_workspace ev = false) rest ->
             Forall (fun ev => is_sweep ev = false /\ is_workspace ev = false)
               (rms ++ rest)).
  { intros rms rest H1 H2. apply Forall_app. split; [|exact H2].
    eapply Forall_impl; [exact H1|].
    intros [] Hx; try discriminate Hx. split; reflexivity. }
  unfold process_3d_file, input_dir, output_dir, dest_path, job_dir, job_id.
  wp_run.
  all: try (left; split; reflexivity).
  all: try (right; left; eexists; split; reflexivity).
  all: try (right; right; left; eexists; split; reflexivity).
  all: try (right; right; right; left; eexists; split; reflexivity).
  all: right; right; right; right; eexists; split; [reflexivity|].
  all: split; [|reflexivity].
  all: lazymatch goal with
       | |- Forall _ (_ ++ _) => apply Hrm; [assumption|]
       | |- Forall _ ?l => rewrite <- (app_nil_r l); apply Hrm; [assumption|]
       end.
  all: repeat constructor.
Qed.

Lemma split_at_sweep (a b pre post : list event) j0 j :
  Forall (fun ev => is_sweep ev = false) a ->
  Forall (fun ev => is_sweep ev = false) b ->
  a ++ EvSweep j0 :: b = pre ++ EvSweep j :: post ->
  pre = a /\ j = j0 /\ post = b.
Proof.
  intros Ha Hb. revert pre.
  induction Ha as [|x a Hx Ha IH]; intros pre Heq.
  - destruct pre as [|y pre]; simpl in Heq.
    + injection Heq as -> ->. auto.
    + injection Heq as <- Heq. exfalso.
      assert (In (EvSweep j) b) as Hin.
      { rewrite Heq. apply in_or_app. right. left. reflexivity. }
      rewrite List.Forall_forall in Hb. apply Hb in Hin. discriminate.
  - destruct pre as [|y pre]; simpl in Heq.
    + injection Heq as -> _. discriminate.
    + injection Heq as <- Heq. destruct (IH pre Heq) as (-> & -> & ->). auto.
Qed.

(** C3, as the program has it. If a call that sets up the workspace
    (one of the two [mkdir] or the copy of the upload) fails, the job
    stops there: the exception leaves [process_3d_file], and
    [on_process] with it, no status is returned, and neither a sweep
    nor a subprocess has been started. *)
Theorem workspace_failure_is_raised w ev e :
  In ev (events (job w)) -> workspace_failure ev e ->
  res (job w) = Raise e
  /\ res (handler w) = Raise e
  /\ Forall (fun ev => is_spawn ev = false /\ is_sweep ev = false)
       (events (job w)).
Proof.
  intros Hin Hfail.
  assert (res (job w) = Raise e
          /\ Forall (fun ev => is_spawn ev = false /\ is_sweep ev = false)
               (events (job w))) as [Hres Hall].
  { destruct (job_prefix w) as
      [[Hev _]|[[e0 [Hev Hres]]|[[e0 [Hev Hres]]|[[e0 [Hev Hres]]|[rest [Hev [Hrest Hok]]]]]]];
      rewrite Hev in Hin |- *.
    - destruct Hin.
    - in_cases Hin. subst ev.
      destruct Hfail as [[p Hp]|[s0 [d Hp]]]; [|discriminate].
      injection Hp as _ <-. split; [exact Hres | repeat constructor].
    - in_cases Hin; subst ev;
        destruct Hfail as [[p Hp]|[s0 [d Hp]]]; try discriminate.
      injection Hp as _ <-. split; [exact Hres | repeat constructor].
    - in_cases Hin; subst ev;
        destruct Hfail as [[p Hp]|[s0 [d Hp]]]; try discriminate.
      injection Hp as _ _ <-. split; [exact Hres | repeat constructor].
    - exfalso. in_cases Hin; try subst ev;
        try (destruct Hfail as [[p Hp]|[s0 [d Hp]]]; discriminate).
      rewrite List.Forall_forall in Hrest. apply Hrest in Hin.
      destruct Hin as [_ Hin].
      destruct Hfail as [[p ->]|[s0 [d ->]]]; discriminate. }
  split; [exact Hres|]. split; [|exact Hall].
  apply on_process_raises, Hres.
Qed.

(** C2, as the program has it. The sweep is called after the
    workspace of the job has been set up: what comes before it in the
    run is exactly the two [mkdir], the copy of the upload, all three
    successful, and the progress report, so no subprocess has been
    started yet; nothing after it touches the workspace or sweeps again.
    It is called exactly when the upload is valid and the workspace
    could be set up. *)
Theorem sweep_follows_workspace w :
  (forall pre j post,
      events (job w) = pre ++ EvSweep j :: post ->
      pre = [EvMkdir (input_dir env jobs_dir) None;
             EvMkdir (output_dir env jobs_dir) None;
             EvCopy (PathOps.of_str file_path)
               (dest_path env jobs_dir file_path) None;
             EvProgress 5 "Cleaning up old jobs..."]
      /\ j = PathOps.of_str jobs_dir
      /\ Forall (fun ev => is_sweep ev = false /\ is_workspace ev = false) post)
  /\ (In (EvSweep (PathOps.of_str jobs_dir)) (events (job w))
      <-> (validate_file env file_path (fs w)).1 = true
          /\ forall ev e, In ev (events (job w)) -> ¬ workspace_failure ev e).
Proof.
  split.
  - intros pre j post Heq.
    assert (In (EvSweep j) (events (job w))) as Hin.
    { rewrite Heq. apply in_or_app. right. left. reflexivity. }
    destruct (job_prefix w) as
      [[Hev _]|[[e0 [Hev Hres]]|[[e0 [Hev Hres]]|[[e0 [Hev Hres]]|[rest [Hev [Hrest Hok]]]]]]];
      rewrite Hev in Hin, Heq.
    1-4: exfalso; in_cases Hin.
    clear Hin.
    change ([EvMkdir (input_dir env jobs_dir) None;
             EvMkdir (output_dir env jobs_dir) None;
             EvCopy (PathOps.of_str file_path)
               (dest_path env jobs_dir file_path) None;
             EvProgress 5 "Cleaning up old jobs...";
             EvSweep (PathOps.of_str jobs_dir)] ++ rest)
      with ([EvMkdir (input_dir env jobs_dir) None;
             EvMkdir (output_dir env jobs_dir) None;
             EvCopy (PathOps.of_str file_path)
               (dest_path env jobs_dir file_path) None;
             EvProgress 5 "Cleaning up old jobs..."]
              ++ EvSweep (PathOps.of_str jobs_dir) :: rest) in Heq.
    apply split_at_sweep in Heq.
    + destruct Heq as (-> & -> & ->). auto.
    + repeat constructor.
    + eapply Forall_impl; [exact Hrest|]. intros x [Hx _]. exact Hx.
  - split.
    + intros Hin.
      destruct (job_prefix w) as
        [[Hev _]|[[e0 [Hev Hres]]|[[e0 [Hev Hres]]|[[e0 [Hev Hres]]|[rest [Hev [Hrest Hok]]]]]]];
        rewrite Hev in Hin |- *.
      1-4: exfalso; in_cases Hin.
      split; [exact Hok|].
      intros ev e Hev' Hfail.
      in_cases Hev'; try subst ev;
        try (destruct Hfail as [[p Hp]|[s0 [d Hp]]]; discriminate).
      rewrite List.Forall_forall in Hrest. apply Hrest in Hev'.
      destruct Hev' as [_ Hev'].
      destruct Hfail as [[p ->]|[s0 [d ->]]]; discriminate.
    + intros [Hvalid Hnofail].
      destruct (job_prefix w) as
        [[Hev Hv]|[[e0 [Hev Hres]]|[[e0 [Hev Hres]]|[[e0 [Hev Hres]]|[rest [Hev [Hrest Hok]]]]]]].
      * congruence.
      * exfalso. apply (Hnofail (EvMkdir (input_dir env jobs_dir) (Some e0)) e0).
        -- rewrite Hev. left. reflexivity.
        -- left. eauto.
      * exfalso. apply (Hnofail (EvMkdir (output_dir env jobs_dir) (Some e0)) e0).
        -- rewrite Hev. right. left. reflexivity.
        -- left. eauto.
      * exfalso.
        apply (Hnofail (EvCopy (PathOps.of_str file_path)
                          (dest_path env jobs_dir file_path) (Some e0)) e0).
        -- rewrite Hev. right. right. left. reflexivity.
        -- right. eauto.
      * rewrite Hev. do 4 right. left. reflexivity.
Qed.

End Workspace.

(** ** Sorting by a key *)

Section SortByKey.

Context {A : Type} (key : A -> Z).

Local Abbreviation key_le := (key_le key).
Local Abbreviation of_key := (of_key key).

Lemma insert_by_key_perm x l : insert_by_key key x l ≡ₚ x :: l.
Proof.
  induction l as [|y l IH]; simpl; [reflexivity|].
  destruct (key x <=? key y); [reflexivity|].
  rewrite IH. apply Permutation_swap.
Qed.

Lemma sort_by_key_perm l : sort_by_key key l ≡ₚ l.
Proof.
  induction l as [|x l IH]; simpl; [reflexivity|].
  rewrite insert_by_key_perm, IH. reflexivity.
Qed.

Lemma insert_by_key_sorted x l :
  StronglySorted key_le l -> StronglySorted key_le (insert_by_key key x l).
Proof.
  induction 1 as [|y l Hl IH Hy]; simpl.
  - repeat constructor.
  - destruct (key x <=? key y) eqn:E.
    + apply Z.leb_le in E. constructor; [constructor; assumption|].
      constructor; [exact E|].
      eapply Forall_impl; [exact Hy|]. intros z Hz. unfold key_le in *. lia.
    + apply Z.leb_gt in E. constructor; [exact IH|].
      rewrite insert_by_key_perm. constructor; [|exact Hy].
      unfold key_le. lia.
Qed.

Lemma sort_by_key_sorted l : StronglySorted key_le (sort_by_key key l).
Proof.
  induction l as [|x l IH]; simpl; [constructor|].
  apply insert_by_key_sorted, IH.
Qed.

Lemma insert_by_key_of_key k x l :
  of_key k (insert_by_key key x l) = of_key k (x :: l).
Proof.
  induction l as [|y l IH]; [reflexivity|].
  simpl insert_by_key. destruct (key x <=? key y) eqn:E; [reflexivity|].
  apply Z.leb_gt in E.
  change (of_key k (y :: insert_by_key key x l))
    with (if key y =? k then y :: of_key k (insert_by_key key x l)
          else of_key k (insert_by_key key x l)).
  rewrite IH. unfold of_key. simpl.
  destruct (key y =? k) eqn:Ey, (key x =? k) eqn:Ex; try reflexivity.
  apply Z.eqb_eq in Ey, Ex. lia.
Qed.

(** The sort is stable: items of one key keep their order. *)
Lemma sort_by_key_stable k l : of_key k (sort_by_key key l) = of_key k l.
Proof.
  induction l as [|x l IH]; [reflexivity|].
  simpl sort_by_key. rewrite insert_by_key_of_key.
  unfold of_key in *. simpl. rewrite IH. reflexivity.
Qed.

Lemma of_key_In k x l : In x (of_key k l) <-> In x l /\ key x = k.
Proof.
  unfold of_key. rewrite List.filter_In, Z.eqb_eq. reflexivity.
Qed.

(** Two lists in ascending order of the key that hold the same items
    of each key, in the same order, are the same list: there is one
    stable sort. *)
Lemma sorted_of_key_unique l1 l2 :
  StronglySorted key_le l1 -> StronglySorted key_le l2 ->
  (forall k, of_key k l1 = of_key k l2) -> l1 = l2.
Proof.
  intros H1. revert l2. induction H1 as [|x l1 Hl1 IH Hx]; intros l2 H2 Hk.
  - destruct l2 as [|y l2]; [reflexivity|].
    specialize (Hk (key y)). unfold of_key in Hk. simpl in Hk.
    rewrite Z.eqb_refl in Hk. discriminate.
  - destruct H2 as [|y l2 Hl2 Hy].
    { specialize (Hk (key x)). unfold of_key in Hk. simpl in Hk.
      rewrite Z.eqb_refl in Hk. discriminate. }
    assert (key x <= key y) as Hxy.
    { assert (In y (of_key (key y) (x :: l1))) as Hin.
      { rewrite Hk. apply of_key_In. split; [left|]; reflexivity. }
      apply of_key_In in Hin. destruct Hin as [[->|Hin] _]; [lia|].
      rewrite List.Forall_forall in Hx. apply Hx, Hin. }
    assert (key y <= key x) as Hyx.
    { assert (In x (of_key (key x) (y :: l2))) as Hin.
      { rewrite <- Hk. apply of_key_In. split; [left|]; reflexivity. }
      apply of_key_In in Hin. destruct Hin as [[->|Hin] _]; [lia|].
      rewrite List.Forall_forall in Hy. apply Hy, Hin. }
    assert (key x = key y) as Hkey by lia.
    pose proof (Hk (key x)) as Hhead. unfold of_key in Hhead. simpl in Hhead.
    rewrite Z.eqb_refl, <- Hkey, Z.eqb_refl in Hhead.
    injection Hhead as <- Htail. f_equal.
    apply IH; [exact Hl2|].
    intros k. specialize (Hk k). unfold of_key in Hk |- *. simpl in Hk.
    destruct (key x =? k) eqn:E; [injection Hk as Hk|]; exact Hk.
Qed.

(** So whatever algorithm [list.sort] runs, being stable it returns
    [sort_by_key]. *)
Lemma stable_sort_is_sort_by_key l l' :
  StronglySorted key_le l' -> (forall k, of_key k l' = of_key k l) ->
  l' = sort_by_key key l.
Proof.
  intros Hs Hk. apply sorted_of_key_unique; [exact Hs | apply sort_by_key_sorted |].
  intros k. rewrite Hk, sort_by_key_stable. reflexivity.
Qed.

End SortByKey.

(** ** The two stages and the harvest (claims C1, C5, C6 and C7) *)

(** ** What [int] does not read *)

Section Numerals.

Implicit Types (s : string) (c a : ascii).

Lemma lstrip_keeps c s :
  In c (String.list_ascii_of_string s) -> Py.is_space c = false ->
  In c (String.list_ascii_of_string (Py.lstrip s)).
Proof.
  intros Hin Hc. induction s as [|a s IH]; [exact Hin|].
  cbn [Py.lstrip]. destruct (Py.is_space a) eqn:Ea; [|exact Hin].
  apply IH. destruct Hin as [->|Hin]; [congruence | exact Hin].
Qed.

Lemma rstrip_keeps c s :
  In c (String.list_ascii_of_string s) -> Py.is_space c = false ->
  In c (String.list_ascii_of_string (Py.rstrip s)).
Proof.
  intros Hin Hc. induction s as [|a s IH]; [exact Hin|].
  cbn [Py.rstrip]. destruct Hin as [->|Hin].
  - destruct (Py.rstrip s); [rewrite Hc|]; left; reflexivity.
  - specialize (IH Hin). destruct (Py.rstrip s) as [|b r]; [destruct IH|].
    right. exact IH.
Qed.

Lemma digits_rejects c s : forall acc b,
  In c (String.list_ascii_of_string s) -> Py.digit_val c = None -> c ≠ "_"%char ->
  Py.digits acc b s = None.
Proof.
  induction s as [|a s IH]; intros acc b Hin Hd Hu; [destruct Hin|].
  cbn [Py.digits]. destruct Hin as [->|Hin].
  - rewrite Hd. apply Ascii.eqb_neq in Hu. rewrite Hu. reflexivity.
  - destruct (Py.digit_val a); [apply IH; assumption|].
    destruct (Ascii.eqb a "_" && b); [apply IH; assumption | reflexivity].
Qed.

(** [int] raises on a text that holds a character of no numeral. *)
Lemma int_rejects c s :
  In c (String.list_ascii_of_string s) -> numeral_char c = false -> Py.int s = None.
Proof.
  unfold numeral_char. intros Hin Hc.
  destruct (Py.digit_val c) eqn:Hd; [discriminate Hc|].
  apply orb_false_iff in Hc. destruct Hc as [Hc Hu].
  apply orb_false_iff in Hc. destruct Hc as [Hc Hm].
  apply orb_false_iff in Hc. destruct Hc as [Hsp Hp].
  apply Ascii.eqb_neq in Hu, Hm, Hp.
  assert (In c (String.list_ascii_of_string (Py.strip s))) as Hs.
  { apply rstrip_keeps, Hsp. apply lstrip_keeps; assumption. }
  unfold Py.int. destruct (Py.strip s) as [|a t]; [destruct Hs|].
  assert (forall acc b, Py.digits acc b (String a t) = None) as Hall.
  { intros acc b. apply (digits_rejects c); assumption. }
  destruct (Ascii.eqb_spec a "+") as [->|Hap].
  { destruct Hs as [Hs|Hs]; [congruence|].
    rewrite (digits_rejects c t 0 false Hs Hd Hu). reflexivity. }
  destruct (Ascii.eqb_spec a "-") as [->|Ham].
  { destruct Hs as [Hs|Hs]; [congruence|].
    rewrite (digits_rejects c t 0 false Hs Hd Hu). reflexivity. }
  specialize (Hall 0 false).
  destruct a as [[] [] [] [] [] [] [] []]; try exact Hall; congruence.
Qed.

End Numerals.

(** What is left to do with a spawn event found in a run: it is the one
    of the run, so its parts are those of the run. *)
Ltac same_spawn :=
  repeat match goal with
         | Hev : EvSpawn _ _ _ = EvSpawn _ _ _ |- _ =>
             injection Hev; clear Hev; intros; subst
         end.

Section Pipeline.

Context (env : Env).
Context (file_path : string) (is_point_cloud : bool) (max_clusters : Z)
  (use_agglomerative preprocess_mesh : bool) (adjacency_option : Z)
  (add_knn_edges : bool) (points_per_face : Z) (jobs_dir : string).

Local Abbreviation job :=
  (process_3d_file env file_path is_point_cloud max_clusters use_agglomerative
     preprocess_mesh adjacency_option add_knn_edges points_per_face jobs_dir).

(** C1. When the subprocess of stage 1 exits with a status other than 0,
    [process_3d_file] returns without artifacts, and its status tells
    the two cases apart: "GPU out of memory", with the advice to reduce
    the points per face, when the captured output holds the signature,
    and the plain failure of the feature extraction when it does not. *)
Theorem oom_is_classified w cmd cwd lines code after :
  In (EvSpawn cmd cwd (Exits lines code after)) (events (job w)) ->
  is_stage1 cmd -> code ≠ 0 ->
  exists log,
    res (job w) =
    Ret (if oom_signature (Py.join EmptyString lines)
         then "Error: GPU out of memory. Try reducing 'Points per face' in advanced options."
         else "Error: Feature extraction failed",
         [], None, log).
Proof.
  change (wp job w (fun r _ evs =>
    In (EvSpawn cmd cwd (Exits lines code after)) evs ->
    is_stage1 cmd -> code ≠ 0 ->
    exists log,
      r = Ret (if oom_signature (Py.join EmptyString lines)
               then "Error: GPU out of memory. Try reducing 'Points per face' in advanced options."
               else "Error: Feature extraction failed",
               [], None, log))).
  unfold process_3d_file, is_stage1, oom_signature.
  wp_run.
  all: intros Hin Hs1 Hcode; in_cases Hin.
  all: try (exfalso; eapply no_spawn_among_rmtrees; eassumption).
  all: same_spawn.
  all: try (simpl in Hs1; discriminate Hs1).
  all: try match goal with
         | H : (?c =? 0) = true |- _ => apply Z.eqb_eq in H; contradiction
         end.
  all: match goal with
       | H : (_ || _) = _ |- _ => rewrite H; eexists; reflexivity
       end.
Qed.

Lemma glob_fs_missing p pre suf n :
  bool_decide (is_Some (FS.lookup (parts p) n)) = false -> glob_fs p pre suf n = [].
Proof.
  intros H. apply bool_decide_eq_false in H.
  unfold glob_fs, FS.listing.
  destruct (FS.lookup (parts p) n) as [[|]|]; try reflexivity.
  exfalso. apply H. eauto.
Qed.

(** Stage 2 is only started once stage 1 has exited with status 0, in
    the same directory. *)
Lemma stage2_after_stage1 w cmd2 d p2 :
  In (EvSpawn cmd2 d p2) (events (job w)) -> is_stage2 cmd2 ->
  exists cmd1 lines1 after1,
    In (EvSpawn cmd1 d (Exits lines1 0 after1)) (events (job w)) /\ is_stage1 cmd1.
Proof.
  change (wp job w (fun r _ evs =>
    In (EvSpawn cmd2 d p2) evs -> is_stage2 cmd2 ->
    exists cmd1 lines1 after1,
      In (EvSpawn cmd1 d (Exits lines1 0 after1)) evs /\ is_stage1 cmd1)).
  unfold process_3d_file, is_stage1, is_stage2.
  wp_run.
  all: intros Hin Hs2; in_cases Hin.
  all: try (exfalso; eapply no_spawn_among_rmtrees; eassumption).
  all: same_spawn.
  all: try (simpl in Hs2; discriminate Hs2).
  all: repeat match goal with
              | H : (?c =? 0) = true |- _ => apply Z.eqb_eq in H; subst c
              end.
  all: do 3 eexists; split;
    [ do 5 right; apply in_or_app; right; do 3 right; left; reflexivity
    | reflexivity ].
Qed.

(** C6. When stage 2 exits with status 0 (stage 1 has, then) and the
    [ply] directory of the output holds no [.ply] and no [.obj] file, or
    is not there at all, [process_3d_file] returns the status
    "Warning: No output files generated", not an error, with no
    artifact. *)
Theorem empty_harvest_is_a_warning w cmd cwd lines after :
  In (EvSpawn cmd cwd (Exits lines 0 after)) (events (job w)) ->
  is_stage2 cmd ->
  glob_fs (ply_dir env jobs_dir) EmptyString ".ply" (fs after) = [] ->
  glob_fs (ply_dir env jobs_dir) EmptyString ".obj" (fs after) = [] ->
  exists pca log,
    res (job w) = Ret ("Warning: No output files generated", [], pca, log).
Proof.
  change (wp job w (fun r _ evs =>
    In (EvSpawn cmd cwd (Exits lines 0 after)) evs ->
    is_stage2 cmd ->
    glob_fs (ply_dir env jobs_dir) EmptyString ".ply" (fs after) = [] ->
    glob_fs (ply_dir env jobs_dir) EmptyString ".obj" (fs after) = [] ->
    exists pca log,
      r = Ret ("Warning: No output files generated", [], pca, log))).
  unfold process_3d_file, is_stage2, ply_dir, output_dir, job_dir, job_id.
  wp_run.
  all: intros Hin Hs2 Hply Hobj; in_cases Hin.
  all: try (exfalso; eapply no_spawn_among_rmtrees; eassumption).
  all: same_spawn.
  all: try (simpl in Hs2; discriminate Hs2).
  all: try match goal with
         | H : (0 =? 0) = false |- _ => discriminate H
         end.
  all: try match goal with
         | H : _ <$> sort_by_key _ _ = _ :: _ |- _ =>
             rewrite Hply, Hobj in H; discriminate H
         end.
  all: do 2 eexists; reflexivity.
Qed.


Lemma features_dir_parts d : parts (features_dir env d) ≠ [].
Proof.
  unfold features_dir, PathOps.child. simpl.
  destruct (parts d); discriminate.
Qed.

Lemma not_there (p : list string) (n : node) :
  bool_decide (is_Some (FS.lookup p n)) = false -> FS.lookup p n = None.
Proof.
  intros H. apply bool_decide_eq_false in H.
  destruct (FS.lookup p n); [exfalso; apply H; eauto | reflexivity].
Qed.

(** C7, as the program has it. When stage 2 has exited with status 0
    (stage 1 has, then), [process_3d_file] returns. If at least one mesh
    file is harvested, it calls [rmtree], errors ignored, on the
    features directory if that is there before it returns: unless that
    call fails, the features directory is gone on return, and the
    output directory of the job is as the subprocess left it (the two
    directories do not lie inside each other). If nothing is harvested,
    it returns with the world as stage 2 left it, features included. *)
Theorem features_removed_after_harvest w cmd d lines after :
  In (EvSpawn cmd d (Exits lines 0 after)) (events (job w)) ->
  is_stage2 cmd ->
  (exists v, res (job w) = Ret v)
  /\ (harvest (ply_dir env jobs_dir) (fs after) ≠ [] ->
      (is_Some (FS.lookup (parts (features_dir env d)) (fs after)) ->
       exists failure,
         In (EvRmtree (features_dir env d) failure) (events (job w)))
      /\ ((forall e, ¬ In (EvRmtree (features_dir env d) (Some e)) (events (job w))) ->
          FS.lookup (parts (features_dir env d)) (fs (final (job w))) = None)
      /\ (¬ parts (features_dir env d) `prefix_of` parts (output_dir env jobs_dir) ->
          ¬ parts (output_dir env jobs_dir) `prefix_of` parts (features_dir env d) ->
          FS.lookup (parts (output_dir env jobs_dir)) (fs (final (job w)))
          = FS.lookup (parts (output_dir env jobs_dir)) (fs after)))
  /\ (harvest (ply_dir env jobs_dir) (fs after) = [] -> final (job w) = after).
Proof.
  change (wp job w (fun r w' evs =>
    In (EvSpawn cmd d (Exits lines 0 after)) evs ->
    is_stage2 cmd ->
    (exists v, r = Ret v)
    /\ (harvest (ply_dir env jobs_dir) (fs after) ≠ [] ->
        (is_Some (FS.lookup (parts (features_dir env d)) (fs after)) ->
         exists failure, In (EvRmtree (features_dir env d) failure) evs)
        /\ ((forall e, ¬ In (EvRmtree (features_dir env d) (Some e)) evs) ->
            FS.lookup (parts (features_dir env d)) (fs w') = None)
        /\ (¬ parts (features_dir env d) `prefix_of` parts (output_dir env jobs_dir) ->
            ¬ parts (output_dir env jobs_dir) `prefix_of` parts (features_dir env d) ->
            FS.lookup (parts (output_dir env jobs_dir)) (fs w')
            = FS.lookup (parts (output_dir env jobs_dir)) (fs after)))
    /\ (harvest (ply_dir env jobs_dir) (fs after) = [] -> w' = after))).
  pose proof (features_dir_parts d) as Hparts.
  unfold process_3d_file, is_stage2, harvest, features_dir, ply_dir, output_dir,
    job_dir, job_id in Hparts |- *.
  wp_run.
  all: intros Hin Hs2; in_cases Hin.
  all: try (exfalso; eapply no_spawn_among_rmtrees; eassumption).
  all: same_spawn.
  all: try (simpl in Hs2; discriminate Hs2).
  all: try match goal with
         | H : (0 =? 0) = false |- _ => discriminate H
         end.
  all: split; [eexists; reflexivity|].
  all: split; [intros Hne | intros Hempty].
  (* nothing harvested *)
  all: try match goal with
         | H : _ <$> sort_by_key _ _ = [] |- _ = _ => reflexivity
         | H : bool_decide (is_Some (FS.lookup (parts (_ // "ply")) _)) = false
           |- _ = _ => reflexivity
         end.
  all: try match goal with
         | H : _ <$> sort_by_key _ _ = [] |- _ =>
             apply fmap_nil_inv in H; contradiction
         | H : bool_decide (is_Some (FS.lookup (parts (_ // "ply")) _)) = false |- _ =>
             exfalso; apply Hne; rewrite !(glob_fs_missing _ _ _ _ H); reflexivity
         end.
  (* something harvested *)
  all: try match goal with
         | H : _ <$> sort_by_key _ _ = _ :: _ |- _ = _ =>
             rewrite Hempty in H; discriminate H
         end.
  all: split; [intros Hsome; try (eexists; prove_in)|].
  all: try match goal with
         | H : bool_decide _ = false, Hsome : is_Some _ |- _ =>
             apply bool_decide_eq_false in H; contradiction
         end.
  all: split; [intros Hno | intros Hfo Hof].
  all: try reflexivity.
  all: try (apply lookup_remove_self; assumption).
  all: try (apply lookup_remove_other; assumption).
  all: try (apply not_there; assumption).
  all: exfalso; eapply Hno; prove_in.
Qed.

End Pipeline.

(** ** Running a command (claim C10) *)

(** C10. [run_command] never raises. It returns [(True, output)], the
    output being the captured lines joined, exactly when the subprocess
    exits with status 0; an exception raised when the subprocess is
    started or while its output is read comes back as
    [(False, "Command failed: " + str(e))]. (On a subprocess that never
    closes its output it does not return at all.) *)
Theorem run_command_never_raises env cmd cwd log_callback w :
  (forall e, res (run_command env cmd cwd log_callback w) ≠ Raise e)
  /\ (forall output,
        res (run_command env cmd cwd log_callback w) = Ret (true, output)
        <-> exists lines after,
              subprocess env cmd (PathOps.str cwd) w = Exits lines 0 after
              /\ output = Py.join EmptyString lines)
  /\ (forall e,
        (subprocess env cmd (PathOps.str cwd) w = SpawnFails e
         \/ exists lines after,
              subprocess env cmd (PathOps.str cwd) w = CaptureFails lines e after) ->
        res (run_command env cmd cwd log_callback w)
        = Ret (false, "Command failed: " +:+ exn_str e))
  /\ (subprocess env cmd (PathOps.str cwd) w = Hangs ->
      res (run_command env cmd cwd log_callback w) = Block).
Proof.
  rewrite run_command_run. cbv zeta.
  destruct (subprocess env cmd (PathOps.str cwd) w)
    as [e0|lines0 e0 after0|lines0 code after0|]; cbn [res].
  - split; [discriminate|]. split; [|split; [|discriminate]].
    + intros output. split; [discriminate|]. intros (l & a & H & _). discriminate.
    + intros e [H|(l & a & H)]; [injection H as ->; reflexivity | discriminate].
  - split; [discriminate|]. split; [|split; [|discriminate]].
    + intros output. split; [discriminate|]. intros (l & a & H & _). discriminate.
    + intros e [H|(l & a & H)]; [discriminate | injection H as _ -> _; reflexivity].
  - split; [discriminate|]. split; [|split; [|discriminate]].
    + intros output. split.
      * intros H. injection H as Hc <-. apply Z.eqb_eq in Hc. subst code. eauto.
      * intros (l & a & H & ->). injection H as -> -> _. reflexivity.
    + intros e [H|(l & a & H)]; discriminate.
  - split; [discriminate|]. split; [|split; [|reflexivity]].
    + intros output. split; [discriminate|]. intros (l & a & H & _). discriminate.
    + intros e [H|(l & a & H)]; discriminate.
Qed.

(** ** Validation (claim C8) *)

(** C8. A file whose base name, extension stripped and in lower case,
    is [car] or [complex_car] is rejected by [validate_file] whatever
    its extension; when the file is there, of a supported format and
    not too large, the reason given is the reserved name. *)
Theorem reserved_names_are_rejected env file_path n :
  Py.lower (PathOps.stem (PathOps.of_str file_path)) ∈ ["car"; "complex_car"] ->
  (validate_file env file_path n).1 = false
  /\ (forall st,
        FS.lookup (parts (PathOps.of_str file_path)) n = Some st ->
        Py.lower (PathOps.suffix (PathOps.of_str file_path)) ∈ SUPPORTED_EXTENSIONS ->
        FS.size st <= 100 * (1024 * 1024) ->
        (validate_file env file_path n).2
        = "The filename '" +:+ PathOps.name (PathOps.of_str file_path)
          +:+ "' is reserved and will be skipped by the model. Please rename your file.").
Proof.
  intros Hres. unfold validate_file. split.
  - destruct (String.eqb file_path EmptyString); [reflexivity|].
    destruct (FS.lookup _ n) as [st|]; [|reflexivity].
    destruct (negb (bool_decide _)); [reflexivity|].
    destruct (_ <? FS.size st); [reflexivity|].
    rewrite (bool_decide_eq_true_2 _ Hres). reflexivity.
  - intros st Hst Hext Hsize.
    destruct (String.eqb file_path EmptyString) eqn:E.
    { apply String.eqb_eq in E. subst file_path. exfalso.
      apply list_elem_of_In in Hres. vm_compute in Hres.
      destruct Hres as [H|[H|[]]]; discriminate H. }
    rewrite Hst, (bool_decide_eq_true_2 _ Hext). cbn [negb].
    destruct (_ <? FS.size st) eqn:Es; [apply Z.ltb_lt in Es; lia|].
    rewrite (bool_decide_eq_true_2 _ Hres). reflexivity.
Qed.

(** ** Labels of the harvested files (claim C9) *)

Section Labels.

Lemma last_char_app s c t :
  last_char (s +:+ String c t) = last_char (String c t).
Proof.
  induction s as [|a s IH]; [reflexivity|].
  change (last_char (String a (s +:+ String c t)) = last_char (String c t)).
  cbn [last_char] in IH |- *. rewrite IH.
  destruct (last_char t); reflexivity.
Qed.

Lemma length_append (a b : string) :
  String.length (a +:+ b) = (String.length a + String.length b)%nat.
Proof.
  induction a as [|c a IH]; [reflexivity|].
  change (S (String.length (a +:+ b)) = S (String.length a + String.length b)).
  rewrite IH. reflexivity.
Qed.

Lemma append_cancel_r (s a b : string) : a +:+ s = b +:+ s -> a = b.
Proof.
  revert b. induction a as [|c a IH]; intros [|d b] H; try reflexivity.
  - exfalso. apply (f_equal String.length) in H.
    rewrite !length_append in H. simpl in H. lia.
  - exfalso. apply (f_equal String.length) in H.
    rewrite !length_append in H. simpl in H. lia.
  - cbn in H. injection H as -> H. f_equal. apply IH, H.
Qed.

Lemma mesh_label_plain p :
  is_obj p = false -> mesh_label p = last_token p +:+ " parts".
Proof.
  unfold is_obj, mesh_label, last_token. intros ->. reflexivity.
Qed.

Lemma mesh_label_uv p :
  is_obj p = true -> mesh_label p = last_token p +:+ " parts (UV)".
Proof.
  unfold is_obj, mesh_label, last_token. intros ->. reflexivity.
Qed.

(** The label tells the format: it ends in [s] or in a bracket. *)
Lemma mesh_label_tells_format p q :
  mesh_label p = mesh_label q -> is_obj p = is_obj q.
Proof.
  intros H. apply (f_equal last_char) in H.
  destruct (is_obj p) eqn:Ep, (is_obj q) eqn:Eq; try reflexivity; exfalso.
  - rewrite (mesh_label_uv p Ep), (mesh_label_plain q Eq) in H.
    rewrite !last_char_app in H. discriminate H.
  - rewrite (mesh_label_plain p Ep), (mesh_label_uv q Eq) in H.
    rewrite !last_char_app in H. discriminate H.
Qed.

Lemma build_choices_snoc l x :
  build_choices (l ++ [x])
  = ((build_choices l).1 ++ [mesh_label x],
     <[mesh_label x := x]> (build_choices l).2).
Proof. unfold build_choices. rewrite fold_left_app. reflexivity. Qed.

(** Every mesh file has its label in the mapping, bound to a file of
    that label. *)
Lemma build_choices_lookup l p :
  In p l ->
  exists p', (build_choices l).2 !! mesh_label p = Some p'
             /\ In p' l /\ mesh_label p' = mesh_label p.
Proof.
  induction l as [|x l IH] using rev_ind; [intros []|].
  intros Hin. rewrite build_choices_snoc. cbn [snd].
  destruct (decide (mesh_label x = mesh_label p)) as [E|E].
  - exists x. rewrite <- E, lookup_insert_eq.
    split; [reflexivity|]. split; [|reflexivity].
    apply in_or_app. right. left. reflexivity.
  - rewrite lookup_insert_ne by exact E.
    apply in_app_or in Hin. destruct Hin as [Hin|[->|[]]]; [|congruence].
    destruct (IH Hin) as (p' & Hl & Hp' & Hlab).
    exists p'. split; [exact Hl|]. split; [|exact Hlab].
    apply in_or_app. left. exact Hp'.
Qed.

Context (env : Env) (jobs_dir : string).
Context (file_path : string) (is_pc : bool) (max_clust : Z)
  (use_agglo preprocess : bool) (adj_opt : Z) (knn : bool) (ppf : Z).

Local Abbreviation job :=
  (process_3d_file env file_path is_pc max_clust use_agglo preprocess adj_opt
     knn ppf jobs_dir).

Local Abbreviation handler :=
  (on_process env jobs_dir file_path is_pc max_clust use_agglo preprocess
     adj_opt knn ppf).

(** What the handler returns is what the job returns, with the choices
    and the mapping built from its artifacts. *)
Lemma on_process_returns w status choices first_model pca log mapping :
  res (handler w) = Ret (status, choices, first_model, pca, log, mapping) ->
  exists mesh_files,
    res (job w) = Ret (status, mesh_files, pca, log)
    /\ mapping = (build_choices mesh_files).2.
Proof.
  unfold on_process, bind.
  destruct (res (job w)) as [[[[st files] pc] lg]| |]; cbn; intros H;
    try discriminate H.
  injection H as <- _ _ <- <- <-. eauto.
Qed.

(** C9, as the program has it. Of two harvested artifacts that differ
    in format, whether or not they share the part count, both are
    surfaced: the one that is not an OBJ file under the label
    "<count> parts" and the OBJ file under "<count> parts (UV)". The two
    labels differ, and each leads to a file of its own format. *)
Theorem both_formats_are_surfaced w status choices first_model pca log mapping :
  res (handler w) = Ret (status, choices, first_model, pca, log, mapping) ->
  exists mesh_files,
    res (job w) = Ret (status, mesh_files, pca, log)
    /\ forall p q,
        In p mesh_files -> In q mesh_files ->
        is_obj p = false -> is_obj q = true ->
        mesh_label p = last_token p +:+ " parts"
        /\ mesh_label q = last_token q +:+ " parts (UV)"
        /\ mesh_label p ≠ mesh_label q
        /\ (exists p', mapping !! mesh_label p = Some p'
                       /\ In p' mesh_files /\ is_obj p' = false
                       /\ last_token p' = last_token p)
        /\ (exists q', mapping !! mesh_label q = Some q'
                       /\ In q' mesh_files /\ is_obj q' = true
                       /\ last_token q' = last_token q).
Proof.
  intros H. destruct (on_process_returns w _ _ _ _ _ _ H) as (files & Hjob & ->).
  exists files. split; [exact Hjob|].
  intros p q Hp Hq Ep Eq.
  split; [apply mesh_label_plain, Ep|].
  split; [apply mesh_label_uv, Eq|].
  split.
  { intros E. apply mesh_label_tells_format in E. congruence. }
  split.
  - destruct (build_choices_lookup files p Hp) as (p' & Hl & Hin & Hlab).
    exists p'. split; [exact Hl|]. split; [exact Hin|].
    pose proof (mesh_label_tells_format _ _ Hlab) as Hfmt.
    rewrite Ep in Hfmt. split; [exact Hfmt|].
    rewrite (mesh_label_plain p Ep), (mesh_label_plain p' Hfmt) in Hlab.
    exact (append_cancel_r _ _ _ Hlab).
  - destruct (build_choices_lookup files q Hq) as (q' & Hl & Hin & Hlab).
    exists q'. split; [exact Hl|]. split; [exact Hin|].
    pose proof (mesh_label_tells_format _ _ Hlab) as Hfmt.
    rewrite Eq in Hfmt. split; [exact Hfmt|].
    rewrite (mesh_label_uv q Eq), (mesh_label_uv q' Hfmt) in Hlab.
    exact (append_cancel_r _ _ _ Hlab).
Qed.

End Labels.

(** ** The retention sweep (claim C4) *)

Section Sweep.

Context (env : Env) (jobs_dir : Path) (cutoff : Z).

Local Abbreviation sweep_one :=
  (fun (removed : Z) (job_dir : Path) =>
     d <- path_is_dir job_dir ;;
     if d then
       try_except
         (mtime <- stat_mtime env job_dir ;;
          if mtime <? cutoff then
            rmtree env job_dir ;;
            ret (removed + 1)
          else ret removed)
         (fun _ => ret removed)
     else ret removed).

Local Abbreviation keep := (fun e => negb (swept env jobs_dir cutoff e)).

(** One turn of the loop on an entry that is there: the entry is
    removed and counted when it is swept, and nothing changes when it
    is not. *)
Lemma res_bind_Ret {A B} (m : M A) (f : A -> M B) w a :
  res (m w) = Ret a -> res (bind m f w) = res (f a (final (m w))).
Proof. unfold bind. intros ->. reflexivity. Qed.

Lemma final_bind_Ret {A B} (m : M A) (f : A -> M B) w a :
  res (m w) = Ret a -> final (bind m f w) = final (f a (final (m w))).
Proof. unfold bind. intros ->. reflexivity. Qed.

Lemma wp_stat_mtime_exact p w (Q : result Z -> World -> list event -> Prop) :
  match refused env (OpStat p) with
  | Some e => Q (Raise e) w []
  | None =>
      match FS.lookup (parts p) (fs w) with
      | Some n => Q (Ret (FS.mtime n)) w []
      | None => Q (Raise (FS.FileNotFoundError (PathOps.str p))) w []
      end
  end ->
  wp (stat_mtime env p) w Q.
Proof.
  unfold wp, stat_mtime, bind, get_world. cbn [res final events].
  destruct (refused env (OpStat p)); [intros H; exact H|].
  destruct (FS.lookup (parts p) (fs w)); intros H; exact H.
Qed.

Lemma wp_rmtree_exact p w (Q : result unit -> World -> list event -> Prop) :
  match refused env (OpRmtree p) with
  | Some e => Q (Raise e) w [EvRmtree p (Some e)]
  | None =>
      match FS.lookup (parts p) (fs w) with
      | Some (Dir _ _) =>
          Q (Ret tt) (mkWorld (FS.remove (clock w) (parts p) (fs w)) (clock w))
            [EvRmtree p None]
      | Some (File _ _) =>
          Q (Raise (FS.NotADirectoryError (PathOps.str p))) w
            [EvRmtree p (Some (FS.NotADirectoryError (PathOps.str p)))]
      | None =>
          Q (Raise (FS.FileNotFoundError (PathOps.str p))) w
            [EvRmtree p (Some (FS.FileNotFoundError (PathOps.str p)))]
      end
  end ->
  wp (rmtree env p) w Q.
Proof.
  unfold wp, rmtree, bind, get_world. cbn [res final events].
  destruct (refused env (OpRmtree p)); [intros H; exact H|].
  destruct (FS.lookup (parts p) (fs w)) as [[|]|]; intros H; exact H.
Qed.

Lemma sweep_one_run removed c n w :
  FS.lookup (parts (jobs_dir // c)) (fs w) = Some n ->
  res (sweep_one removed (jobs_dir // c) w)
  = Ret (if swept env jobs_dir cutoff (c, n) then removed + 1 else removed)
  /\ final (sweep_one removed (jobs_dir // c) w)
     = (if swept env jobs_dir cutoff (c, n)
        then mkWorld (FS.remove (clock w) (parts (jobs_dir // c)) (fs w)) (clock w)
        else w).
Proof.
  intros Hl.
  change (wp (sweep_one removed (jobs_dir // c)) w (fun r w' _ =>
    r = Ret (if swept env jobs_dir cutoff (c, n) then removed + 1 else removed)
    /\ w' = (if swept env jobs_dir cutoff (c, n)
             then mkWorld (FS.remove (clock w) (parts (jobs_dir // c)) (fs w)) (clock w)
             else w))).
  unfold swept, expired, allowed. cbn [fst snd].
  apply wp_bind, wp_reads. cbv beta iota. rewrite Hl.
  destruct n as [sz mt|mt es]; cbn [FS.is_dir FS.mtime andb].
  { apply wp_ret. split; reflexivity. }
  apply wp_try_except, wp_bind, wp_stat_mtime_exact.
  destruct (refused env (OpStat (jobs_dir // c))) as [e|]; cbn [andb].
  { rewrite andb_false_r. cbn [andb]. apply wp_ret. split; reflexivity. }
  rewrite Hl. cbn [FS.mtime]. rewrite andb_true_r.
  destruct (mt <? cutoff); cbn [andb].
  2:{ apply wp_ret. split; reflexivity. }
  apply wp_bind, wp_rmtree_exact.
  destruct (refused env (OpRmtree (jobs_dir // c))) as [e|].
  { apply wp_ret. split; reflexivity. }
  rewrite Hl. apply wp_ret. split; reflexivity.
Qed.

Lemma filter_keep_snoc (done : list (string * node)) e :
  List.filter keep (done ++ [e])
  = List.filter keep done ++ (if swept env jobs_dir cutoff e then [] else [e]).
Proof.
  rewrite List.filter_app. cbn [List.filter].
  destruct (swept env jobs_dir cutoff e); reflexivity.
Qed.

Lemma names_filter_subset (f : string * node -> bool) es c :
  c ∉ List.map fst es -> c ∉ List.map fst (List.filter f es).
Proof.
  intros H Hin. apply H.
  apply list_elem_of_In in Hin. apply List.in_map_iff in Hin.
  destruct Hin as (e & <- & He). apply List.filter_In in He.
  apply list_elem_of_In, List.in_map, He.
Qed.

(** The loop over the listing of the jobs directory *)
Lemma sweep_loop rest : forall done w removed m,
  FS.lookup (parts jobs_dir) (fs w) = Some (Dir m (List.filter keep done ++ rest)) ->
  NoDup (List.map fst (done ++ rest)) ->
  res (for_each (List.map (fun e => jobs_dir // e.1) rest) sweep_one removed w)
  = Ret (removed + Z.of_nat (length (List.filter (swept env jobs_dir cutoff) rest)))
  /\ exists m',
      FS.lookup (parts jobs_dir)
        (fs (final (for_each (List.map (fun e => jobs_dir // e.1) rest)
                      sweep_one removed w)))
      = Some (Dir m' (List.filter keep (done ++ rest))).
Proof.
  induction rest as [|[c n] rest IH]; intros done w removed m Hl Hnd.
  - cbn [List.map for_each ret res final List.filter length].
    rewrite Z.add_0_r. split; [reflexivity|]. exists m.
    rewrite app_nil_r in Hl |- *. exact Hl.
  - assert ((c ∉ List.map fst done) /\ (c ∉ List.map fst rest)
            /\ NoDup (List.map fst ((done ++ [(c, n)]) ++ rest))) as (Hcd & Hcr & Hnd').
    { rewrite <- app_assoc. cbn [app]. split; [|split; [|exact Hnd]].
      - rewrite List.map_app in Hnd. cbn [List.map fst] in Hnd.
        apply NoDup_app in Hnd. destruct Hnd as (_ & Hd & _).
        intros Hin. apply (Hd c Hin). left.
      - rewrite List.map_app in Hnd. cbn [List.map fst] in Hnd.
        apply NoDup_app in Hnd. destruct Hnd as (_ & _ & Hr).
        apply NoDup_cons in Hr. tauto. }
    assert (FS.lookup (parts (jobs_dir // c)) (fs w) = Some n) as Hc.
    { cbn [parts PathOps.child]. rewrite lookup_child, Hl.
      rewrite find_app_r by (apply names_filter_subset, Hcd).
      cbn [FS.find]. rewrite eqb_string_refl. reflexivity. }
    destruct (sweep_one_run removed c n w Hc) as [Hres Hfin].
    cbn [List.map for_each fst].
    rewrite (res_bind_Ret _ _ _ _ Hres), (final_bind_Ret _ _ _ _ Hres), Hfin.
    clear Hres Hfin.
    cbn [List.filter length].
    destruct (swept env jobs_dir cutoff (c, n)) eqn:Es.
    + destruct (lookup_remove_parent (clock w) (parts jobs_dir) c (fs w) m _ n Hl)
        as [m' Hm'].
      { rewrite find_app_r by (apply names_filter_subset, Hcd).
        cbn [FS.find]. rewrite eqb_string_refl. reflexivity. }
      rewrite del_app in Hm'.
      rewrite del_not_listed in Hm' by (apply names_filter_subset, Hcd).
      cbn [FS.del List.filter fst] in Hm'. rewrite eqb_string_refl in Hm'.
      cbn [negb] in Hm'. fold (FS.del c rest) in Hm'.
      rewrite del_not_listed in Hm' by exact Hcr.
      destruct (IH (done ++ [(c, n)])
                  (mkWorld (FS.remove (clock w) (parts (jobs_dir // c)) (fs w)) (clock w))
                  (removed + 1) m') as [Hr [m'' Hm'']].
      { cbn [fs]. rewrite filter_keep_snoc, Es, app_nil_r. exact Hm'. }
      { exact Hnd'. }
      split.
      * rewrite Hr. f_equal. cbn [length]. lia.
      * exists m''. rewrite Hm''. rewrite <- app_assoc. reflexivity.
    + destruct (IH (done ++ [(c, n)]) w removed m) as [Hr [m'' Hm'']].
      { rewrite filter_keep_snoc, Es, <- app_assoc. exact Hl. }
      { exact Hnd'. }
      split.
      * rewrite Hr. reflexivity.
      * exists m''. rewrite Hm''. rewrite <- app_assoc. reflexivity.
Qed.

Lemma find_filter_listed (f : string * node -> bool) es c n :
  NoDup (List.map fst es) -> In (c, n) es ->
  FS.find c (List.filter f es) = if f (c, n) then Some n else None.
Proof.
  induction es as [|[c' n'] es IH]; intros Hnd Hin; [destruct Hin|].
  cbn [List.map fst] in Hnd. apply NoDup_cons in Hnd. destruct Hnd as [Hc' Hnd].
  destruct Hin as [Heq|Hin].
  - injection Heq as -> ->. cbn [List.filter].
    destruct (f (c, n)).
    + cbn [FS.find]. rewrite eqb_string_refl. reflexivity.
    + apply find_not_listed, names_filter_subset, Hc'.
  - assert (c' ≠ c) as Hne.
    { intros ->. apply Hc'. apply list_elem_of_In.
      apply (List.in_map fst _ _ Hin). }
    cbn [List.filter]. destruct (f (c', n')).
    + cbn [FS.find]. rewrite (eqb_string_ne _ _ Hne). apply IH; assumption.
    + apply IH; assumption.
Qed.

Lemma wp_iterdir_exact p w (Q : result (list Path) -> World -> list event -> Prop) :
  match FS.lookup (parts p) (fs w) with
  | Some (Dir _ es) => Q (Ret (List.map (fun e => p // e.1) es)) w []
  | Some (File _ _) => Q (Raise (FS.NotADirectoryError (PathOps.str p))) w []
  | None => Q (Raise (FS.FileNotFoundError (PathOps.str p))) w []
  end ->
  wp (iterdir p) w Q.
Proof.
  unfold wp, iterdir, bind, get_world. cbn [res final events].
  destruct (FS.lookup (parts p) (fs w)) as [[|]|]; intros H; exact H.
Qed.

(** On a jobs root that is a directory, the sweep is its loop. *)
Lemma cleanup_as_loop expiry_hours w m es :
  cutoff = clock w - timedelta_hours expiry_hours ->
  FS.lookup (parts jobs_dir) (fs w) = Some (Dir m es) ->
  res (cleanup_old_jobs env jobs_dir expiry_hours w)
  = res (for_each (List.map (fun e => jobs_dir // e.1) es) sweep_one 0 w)
  /\ final (cleanup_old_jobs env jobs_dir expiry_hours w)
     = final (for_each (List.map (fun e => jobs_dir // e.1) es) sweep_one 0 w).
Proof.
  intros Hc Hl.
  set (L := for_each (List.map (fun e => jobs_dir // e.1) es) sweep_one 0 w).
  change (wp (cleanup_old_jobs env jobs_dir expiry_hours) w
            (fun r w' _ => r = res L /\ w' = final L)).
  unfold cleanup_old_jobs.
  apply wp_bind, wp_emit. cbv beta iota.
  apply wp_bind, wp_path_exists. cbv beta iota.
  rewrite Hl, bool_decide_eq_true_2 by eauto. cbn [negb].
  apply wp_bind, wp_reads. cbv beta iota zeta. rewrite <- Hc.
  apply wp_bind, wp_iterdir_exact. rewrite Hl.
  subst L. unfold wp. split; reflexivity.
Qed.

End Sweep.

(** Without a jobs root there is nothing to sweep. *)
Lemma sweep_without_root env jobs_dir expiry_hours w :
  FS.lookup (parts jobs_dir) (fs w) = None ->
  res (cleanup_old_jobs env jobs_dir expiry_hours w) = Ret 0
  /\ final (cleanup_old_jobs env jobs_dir expiry_hours w) = w.
Proof.
  intros Hl.
  change (wp (cleanup_old_jobs env jobs_dir expiry_hours) w
            (fun r w' _ => r = Ret 0 /\ w' = w)).
  unfold cleanup_old_jobs.
  apply wp_bind, wp_emit. cbv beta iota.
  apply wp_bind, wp_path_exists. cbv beta iota.
  rewrite Hl, bool_decide_eq_false_2 by (intros [x Hx]; discriminate Hx).
  cbn [negb]. apply wp_ret. split; reflexivity.
Qed.


(** ** The properties on the scenarios *)

Section OnScenarios.

Import Scenario.

Local Abbreviation run_job env :=
  (process_3d_file env upload false 20 true false 1 false 1000 "/workspace/jobs").

Local Abbreviation run_handler env :=
  (on_process env "/workspace/jobs" upload false 20 true false 1 false 1000).

(** Stage 1 runs out of memory in one run and fails on a key error in
    another. *)
Lemma oom_is_classified_witness :
  (exists log,
      res (run_job env_oom world0)
      = Ret ("Error: GPU out of memory. Try reducing 'Points per face' in advanced options.",
             [], None, log))
  /\ (exists log,
        res (run_job env_crash world0)
        = Ret ("Error: Feature extraction failed", [], None, log)).
Proof.
  split.
  - assert (exists cmd cwd lines code after,
               In (EvSpawn cmd cwd (Exits lines code after))
                 (events (run_job env_oom world0))
               /\ is_stage1 cmd /\ code ≠ 0
               /\ oom_signature (Py.join EmptyString lines) = true)
      as (cmd & cwd & lines & code & after & Hin & Hs & Hc & Hoom).
    { vm_compute. do 5 eexists. split; [do 10 right; left; reflexivity|].
      split; [reflexivity|]. split; [discriminate | reflexivity]. }
    destruct (oom_is_classified env_oom upload false 20 true false 1 false 1000
                "/workspace/jobs" world0 cmd cwd lines code after Hin Hs Hc)
      as [log Hlog].
    exists log. rewrite Hoom in Hlog. exact Hlog.
  - assert (exists cmd cwd lines code after,
               In (EvSpawn cmd cwd (Exits lines code after))
                 (events (run_job env_crash world0))
               /\ is_stage1 cmd /\ code ≠ 0
               /\ oom_signature (Py.join EmptyString lines) = false)
      as (cmd & cwd & lines & code & after & Hin & Hs & Hc & Hoom).
    { vm_compute. do 5 eexists. split; [do 10 right; left; reflexivity|].
      split; [reflexivity|]. split; [discriminate | reflexivity]. }
    destruct (oom_is_classified env_crash upload false 20 true false 1 false 1000
                "/workspace/jobs" world0 cmd cwd lines code after Hin Hs Hc)
      as [log Hlog].
    exists log. rewrite Hoom in Hlog. exact Hlog.
Defined.

(** The first thing a job does is to make its input directory: no
    sweep has come before. *)
Lemma sweep_precedes_workspace_counterexample :
  ¬ sweep_precedes_workspace (events (run_job env_ok world0)).
Proof.
  intros H.
  destruct (H [] (EvMkdir (input_dir env_ok "/workspace/jobs") None)
              (tail (events (run_job env_ok world0)))) as [j []].
  - vm_compute. reflexivity.
  - reflexivity.
Qed.

Lemma sweep_follows_workspace_witness :
  In (EvSweep (PathOps.of_str "/workspace/jobs")) (events (run_job env_ok world0)).
Proof.
  apply (proj2 (sweep_follows_workspace env_ok upload false 20 true false 1 false
                  1000 "/workspace/jobs" world0)).
  split.
  - vm_compute. reflexivity.
  - intros ev e Hin Hfail. vm_compute in Hin.
    repeat (destruct Hin as [<-|Hin];
            [destruct Hfail as [[p Hp]|[s [d Hp]]]; discriminate Hp|]).
    destruct Hin.
Defined.

(** The disk is full when the upload is copied. *)
Lemma workspace_error_is_returned_counterexample :
  ¬ workspace_error_is_returned (run_job env_disk_full world0).
Proof.
  intros H.
  destruct (H (EvCopy (PathOps.of_str upload)
                 (dest_path env_disk_full "/workspace/jobs" upload)
                 (Some (Exn "OSError" "[Errno 28] No space left on device")))
              (Exn "OSError" "[Errno 28] No space left on device"))
    as (status & aux & log & Hres).
  - vm_compute. do 2 right. left. reflexivity.
  - right. eauto.
  - vm_compute in Hres. discriminate Hres.
Qed.

Lemma workspace_failure_is_raised_witness :
  res (run_job env_disk_full world0)
  = Raise (Exn "OSError" "[Errno 28] No space left on device")
  /\ res (run_handler env_disk_full world0)
     = Raise (Exn "OSError" "[Errno 28] No space left on device").
Proof.
  destruct (workspace_failure_is_raised env_disk_full upload false 20 true false 1
              false 1000 "/workspace/jobs" world0
              (EvCopy (PathOps.of_str upload)
                 (dest_path env_disk_full "/workspace/jobs" upload)
                 (Some (Exn "OSError" "[Errno 28] No space left on device")))
              (Exn "OSError" "[Errno 28] No space left on device"))
    as (H1 & H2 & _).
  - vm_compute. do 2 right. left. reflexivity.
  - right. eauto.
  - split; assumption.
Defined.



(** A clustering that ends well and writes nothing *)
Lemma empty_harvest_is_a_warning_witness :
  exists pca log,
    res (run_job env_silent world0)
    = Ret ("Warning: No output files generated", [], pca, log).
Proof.
  assert (exists cmd cwd lines after,
             In (EvSpawn cmd cwd (Exits lines 0 after))
               (events (run_job env_silent world0))
             /\ is_stage2 cmd
             /\ glob_fs (ply_dir env_silent "/workspace/jobs") EmptyString ".ply"
                  (fs after) = []
             /\ glob_fs (ply_dir env_silent "/workspace/jobs") EmptyString ".obj"
                  (fs after) = [])
    as (cmd & cwd & lines & after & Hin & Hs & Hply & Hobj).
  { vm_compute. do 4 eexists. split; [do 13 right; left; reflexivity|].
    split; [reflexivity|]. split; reflexivity. }
  exact (empty_harvest_is_a_warning env_silent upload false 20 true false 1 false
           1000 "/workspace/jobs" world0 cmd cwd lines after Hin Hs Hply Hobj).
Defined.

(** Both stages end well, nothing is harvested, and the features are
    still on the disk when the job returns. *)
Lemma features_deleted_on_success_counterexample :
  ¬ features_deleted_on_success env_silent (run_job env_silent world0).
Proof.
  intros H.
  assert (exists cmd1 cmd2 d lines1 lines2 after1 after2,
             In (EvSpawn cmd1 d (Exits lines1 0 after1))
               (events (run_job env_silent world0))
             /\ is_stage1 cmd1
             /\ In (EvSpawn cmd2 d (Exits lines2 0 after2))
                  (events (run_job env_silent world0))
             /\ is_stage2 cmd2
             /\ FS.lookup (parts (features_dir env_silent d))
                  (fs (final (run_job env_silent world0))) ≠ None)
    as (cmd1 & cmd2 & d & l1 & l2 & a1 & a2 & Hin1 & Hs1 & Hin2 & Hs2 & Hthere).
  { vm_compute. do 7 eexists. split; [do 10 right; left; reflexivity|].
    split; [reflexivity|]. split; [do 13 right; left; reflexivity|].
    split; [reflexivity | discriminate]. }
  apply Hthere. exact (H cmd1 cmd2 d l1 l2 a1 a2 Hin1 Hs1 Hin2 Hs2).
Qed.

Lemma features_removed_after_harvest_witness :
  FS.lookup ["workspace"; "partfield"; "exp_results"; "job_3f2a9c1e"]
    (fs (final (run_job env_ok world0))) = None
  /\ FS.lookup ["workspace"; "jobs"; "3f2a9c1e"; "output"; "ply"; "x_0_5.ply"]
       (fs (final (run_job env_ok world0))) = Some (File 500 (noon + 90 * second)).
Proof.
  assert (exists cmd d lines after,
             In (EvSpawn cmd d (Exits lines 0 after)) (events (run_job env_ok world0))
             /\ is_stage2 cmd
             /\ harvest (ply_dir env_ok "/workspace/jobs") (fs after) ≠ []
             /\ parts (features_dir env_ok d)
                = ["workspace"; "partfield"; "exp_results"; "job_3f2a9c1e"]
             /\ FS.lookup (parts (output_dir env_ok "/workspace/jobs")) (fs after)
                = Some (Dir (noon + 90 * second)
                          [("ply", Dir (noon + 90 * second)
                                     [("x_0_5.ply", File 500 (noon + 90 * second));
                                      ("x_0_2.ply", File 500 (noon + 90 * second));
                                      ("x_0_10.ply", File 500 (noon + 90 * second))])]))
    as (cmd & d & lines & after & Hin & Hs & Hne & Hparts & Hout).
  { vm_compute. do 4 eexists. split; [do 13 right; left; reflexivity|].
    split; [reflexivity|]. split; [discriminate|]. split; reflexivity. }
  destruct (features_removed_after_harvest env_ok upload false 20 true false 1
              false 1000 "/workspace/jobs" world0 cmd d lines after Hin Hs)
    as (_ & Hfull & _).
  destruct (Hfull Hne) as (_ & Hgone & Hkept).
  split.
  - rewrite <- Hparts. apply Hgone.
    intros e He. vm_compute in He.
    repeat (destruct He as [He|He]; [discriminate He|]). destruct He.
  - change ["workspace"; "jobs"; "3f2a9c1e"; "output"; "ply"; "x_0_5.ply"]
      with (parts (output_dir env_ok "/workspace/jobs") ++ ["ply"; "x_0_5.ply"]).
    assert (FS.lookup (parts (output_dir env_ok "/workspace/jobs"))
              (fs (final (run_job env_ok world0)))
            = FS.lookup (parts (output_dir env_ok "/workspace/jobs")) (fs after))
      as Hsame.
    { apply Hkept; rewrite Hparts; vm_compute; intros [k Hk]; discriminate Hk. }
    rewrite Hout in Hsame. revert Hsame.
    generalize (fs (final (run_job env_ok world0))). intros n Hn.
    change (parts (output_dir env_ok "/workspace/jobs"))
      with ["workspace"; "jobs"; "3f2a9c1e"; "output"] in Hn |- *.
    cbn [app FS.lookup] in Hn |- *.
    destruct n as [|m0 es0]; [discriminate Hn|].
    destruct (FS.find "workspace" es0) as [[|m1 es1]|]; try discriminate Hn.
    destruct (FS.find "jobs" es1) as [[|m2 es2]|]; try discriminate Hn.
    destruct (FS.find "3f2a9c1e" es2) as [[|m3 es3]|]; try discriminate Hn.
    destruct (FS.find "output" es3) as [n4|]; try discriminate Hn.
    injection Hn as ->. reflexivity.
Defined.

(** Two uploads that are there, small and of a supported format: what
    rejects them is the reserved name. *)
Lemma reserved_names_are_rejected_witness :
  validate_file env_ok "/tmp/gradio/CAR.obj" disk_cars
  = (false, "The filename 'CAR.obj' is reserved and will be skipped by the model. Please rename your file.")
  /\ validate_file env_ok "/tmp/gradio/Complex_Car.ply" disk_cars
     = (false, "The filename 'Complex_Car.ply' is reserved and will be skipped by the model. Please rename your file.").
Proof.
  split.
  - destruct (reserved_names_are_rejected env_ok "/tmp/gradio/CAR.obj" disk_cars)
      as [H1 H2].
    { apply list_elem_of_In. vm_compute. left. reflexivity. }
    specialize (H2 (File 2048 (noon - hour))).
    rewrite (surjective_pairing (validate_file _ _ _)), H1, H2.
    + reflexivity.
    + vm_compute. reflexivity.
    + apply list_elem_of_In. vm_compute. left. reflexivity.
    + vm_compute. discriminate.
  - destruct (reserved_names_are_rejected env_ok "/tmp/gradio/Complex_Car.ply"
                disk_cars) as [H1 H2].
    { apply list_elem_of_In. vm_compute. right. left. reflexivity. }
    specialize (H2 (File 4096 (noon - hour))).
    rewrite (surjective_pairing (validate_file _ _ _)), H1, H2.
    + reflexivity.
    + vm_compute. reflexivity.
    + apply list_elem_of_In. vm_compute. do 3 right. left. reflexivity.
    + vm_compute. discriminate.
Defined.

(** Five parts in both formats: the PLY file is there under "5 parts". *)
Lemma only_uv_is_surfaced_counterexample :
  ¬ only_uv_is_surfaced (artifacts_of (run_job env_both world0))
      (mapping_of (run_handler env_both world0)).
Proof.
  intros H.
  refine (H "/workspace/jobs/3f2a9c1e/output/ply/x_0_5.ply"
            "/workspace/jobs/3f2a9c1e/output/ply/x_0_5.obj" _ _ _ _ _
            "5 parts" _).
  - vm_compute. left. reflexivity.
  - vm_compute. right. left. reflexivity.
  - vm_compute. reflexivity.
  - vm_compute. reflexivity.
  - vm_compute. reflexivity.
  - vm_compute. reflexivity.
Qed.

Lemma both_formats_are_surfaced_witness :
  exists p' q',
    mapping_of (run_handler env_both world0) !! "5 parts" = Some p'
    /\ is_obj p' = false
    /\ mapping_of (run_handler env_both world0) !! "5 parts (UV)" = Some q'
    /\ is_obj q' = true.
Proof.
  assert (exists status choices first_model pca log mapping,
             res (run_handler env_both world0)
             = Ret (status, choices, first_model, pca, log, mapping)
             /\ mapping_of (run_handler env_both world0) = mapping)
    as (status & choices & fm & pca & log & mapping & Hres & Hmap).
  { vm_compute. do 6 eexists. split; reflexivity. }
  destruct (both_formats_are_surfaced env_both "/workspace/jobs" upload false 20
              true false 1 false 1000 world0 status choices fm pca log mapping Hres)
    as (files & Hjob & Hboth).
  assert (files = [ "/workspace/jobs/3f2a9c1e/output/ply/x_0_5.ply";
                    "/workspace/jobs/3f2a9c1e/output/ply/x_0_5.obj" ]) as ->.
  { vm_compute in Hjob. injection Hjob as _ <- _ _. reflexivity. }
  destruct (Hboth "/workspace/jobs/3f2a9c1e/output/ply/x_0_5.ply"
              "/workspace/jobs/3f2a9c1e/output/ply/x_0_5.obj")
    as (Hp & Hq & _ & (p' & Hp' & _ & Ep' & _) & (q' & Hq' & _ & Eq' & _)).
  - left. reflexivity.
  - right. left. reflexivity.
  - vm_compute. reflexivity.
  - vm_compute. reflexivity.
  - exists p', q'. rewrite Hmap.
    change (mesh_label "/workspace/jobs/3f2a9c1e/output/ply/x_0_5.ply")
      with "5 parts" in Hp'.
    change (mesh_label "/workspace/jobs/3f2a9c1e/output/ply/x_0_5.obj")
      with "5 parts (UV)" in Hq'.
    repeat split; assumption.
Defined.

(** The feature extraction of the good day, run by hand *)
Lemma run_command_never_raises_witness :
  res (run_command env_ok ["/usr/bin/python3"; "partfield_inference.py"]
         (PathOps.of_str "/workspace/partfield") None world0)
  = Ret (true, Py.join EmptyString ["Loading model" +:+ nl; "done" +:+ nl]).
Proof.
  apply (proj1 (proj2 (run_command_never_raises env_ok
                         ["/usr/bin/python3"; "partfield_inference.py"]
                         (PathOps.of_str "/workspace/partfield") None world0))).
  do 2 eexists. split; reflexivity.
Defined.

End OnScenarios.

(** * Further properties of the program *)

(** ** Directories stay directories *)

Section DirsStay.

Implicit Types (c d : string) (es : list (string * node)) (p q : list string).

Lemma find_app_found c es1 es2 x :
  FS.find c es1 = Some x -> FS.find c (es1 ++ es2) = Some x.
Proof.
  induction es1 as [|[c' n] es1 IH]; simpl; [discriminate|].
  destruct (String.eqb c' c); [intros H; exact H | exact IH].
Qed.

Lemma find_app_absent c es1 es2 :
  FS.find c es1 = None -> FS.find c (es1 ++ es2) = FS.find c es2.
Proof.
  induction es1 as [|[c' n] es1 IH]; simpl; [reflexivity|].
  destruct (String.eqb c' c); [discriminate | exact IH].
Qed.

Lemma fresh_dirs_lookup now p q : is_dir_at p (FS.fresh_dirs now (p ++ q)).
Proof.
  induction p as [|c p IH]; simpl.
  - destruct q; simpl; unfold is_dir_at; simpl; eauto.
  - unfold is_dir_at in *. simpl. rewrite eqb_string_refl. exact IH.
Qed.

Lemma mkdirs_gives_dir now full p n n' :
  FS.mkdirs now full p n = inr n' -> FS.is_dir n' = true.
Proof.
  destruct p as [|c p]; simpl; destruct n as [|m es]; try discriminate.
  - intros H. injection H as <-. reflexivity.
  - destruct (FS.find c es) as [x|].
    + destruct (FS.mkdirs now full p x); [discriminate|].
      intros H. injection H as <-. reflexivity.
    + intros H. injection H as <-. reflexivity.
Qed.

Lemma is_dir_at_root n : FS.is_dir n = true -> is_dir_at [] n.
Proof. destruct n; [discriminate|]. unfold is_dir_at. simpl. eauto. Qed.

(** [mkdir -p] makes every directory on the way. *)
Lemma mkdirs_makes_dirs now full p q n n' :
  FS.mkdirs now full (p ++ q) n = inr n' -> is_dir_at p n'.
Proof.
  revert n n'. induction p as [|c p IH]; intros n n' H.
  - apply is_dir_at_root. eapply mkdirs_gives_dir. exact H.
  - simpl in H. destruct n as [|m es]; [discriminate|].
    destruct (FS.find c es) as [x|] eqn:E.
    + destruct (FS.mkdirs now full (p ++ q) x) as [|x'] eqn:Ex; [discriminate|].
      injection H as <-. apply IH in Ex.
      unfold is_dir_at in *. simpl. rewrite find_set_eq. exact Ex.
    + injection H as <-.
      pose proof (fresh_dirs_lookup now p q) as Hf.
      unfold is_dir_at in *. simpl.
      rewrite (find_app_absent _ _ _ E). simpl. rewrite eqb_string_refl.
      exact Hf.
Qed.

(** [mkdir -p] leaves the directories that are there directories. *)
Lemma mkdirs_keeps_dirs now full q : forall p n n',
  is_dir_at p n -> FS.mkdirs now full q n = inr n' -> is_dir_at p n'.
Proof.
  induction q as [|c q IH]; intros p n n' Hp H.
  - simpl in H. destruct n; [discriminate|]. injection H as <-. exact Hp.
  - destruct p as [|d p].
    { apply is_dir_at_root. eapply mkdirs_gives_dir. exact H. }
    simpl in H. destruct n as [|m es]; [discriminate|].
    destruct Hp as (m0 & es0 & Hp). simpl in Hp.
    destruct (FS.find d es) as [y|] eqn:Ed; [|discriminate].
    destruct (FS.find c es) as [x|] eqn:E.
    + destruct (FS.mkdirs now full q x) as [|x'] eqn:Ex; [discriminate|].
      injection H as <-. unfold is_dir_at. simpl.
      destruct (decide (c = d)) as [->|Hne].
      * rewrite find_set_eq. rewrite E in Ed. injection Ed as ->.
        apply (IH p y x'); [|exact Ex]. unfold is_dir_at. eauto.
      * rewrite find_set_ne by exact Hne. rewrite Ed. eauto.
    + injection H as <-. unfold is_dir_at. simpl.
      rewrite (find_app_found _ _ _ _ Ed). eauto.
Qed.

(** Writing a file leaves the directories that are there directories. *)
Lemma write_keeps_dirs now full sz mt q : forall p n n',
  is_dir_at p n -> FS.write now full q (File sz mt) n = inr n' -> is_dir_at p n'.
Proof.
  induction q as [|c q IH]; intros p n n' Hp H; [discriminate|].
  destruct n as [|m es]; [simpl in H; discriminate|].
  destruct q as [|c' q].
  - simpl in H.
    destruct (FS.find c es) as [[sz' mt'|]|] eqn:E; try discriminate;
      injection H as <-.
    + destruct p as [|d p]; [apply is_dir_at_root; reflexivity|].
      destruct Hp as (m0 & es0 & Hp). simpl in Hp.
      destruct (FS.find d es) as [y|] eqn:Ed; [|discriminate].
      unfold is_dir_at. simpl.
      destruct (decide (c = d)) as [->|Hne].
      * rewrite E in Ed. injection Ed as <-.
        destruct p; simpl in Hp; discriminate.
      * rewrite find_set_ne by exact Hne. rewrite Ed. eauto.
    + destruct p as [|d p]; [apply is_dir_at_root; reflexivity|].
      destruct Hp as (m0 & es0 & Hp). simpl in Hp.
      destruct (FS.find d es) as [y|] eqn:Ed; [|discriminate].
      unfold is_dir_at. simpl.
      rewrite (find_app_found _ _ _ _ Ed). eauto.
  - change (FS.write now full (c :: c' :: q) (File sz mt) (Dir m es))
      with (match FS.find c es with
            | Some x =>
                match FS.write now full (c' :: q) (File sz mt) x with
                | inl e => inl e
                | inr x' => inr (Dir m (FS.set c x' es))
                end
            | None => inl (FS.FileNotFoundError full)
            end) in H.
    destruct (FS.find c es) as [x|] eqn:E; [|discriminate].
    destruct (FS.write now full (c' :: q) (File sz mt) x) as [|x'] eqn:Ex;
      [discriminate|].
    injection H as <-.
    destruct p as [|d p]; [apply is_dir_at_root; reflexivity|].
    destruct Hp as (m0 & es0 & Hp). simpl in Hp.
    destruct (FS.find d es) as [y|] eqn:Ed; [|discriminate].
    unfold is_dir_at. simpl.
    destruct (decide (c = d)) as [->|Hne].
    + rewrite find_set_eq. rewrite E in Ed. injection Ed as ->.
      apply (IH p y x'); [|exact Ex]. unfold is_dir_at. eauto.
    + rewrite find_set_ne by exact Hne. rewrite Ed. eauto.
Qed.

Lemma copy2_keeps_dirs src dst w n' p :
  is_dir_at p (fs w) -> copy2_fs src dst w = inr n' -> is_dir_at p n'.
Proof.
  unfold copy2_fs. intros Hp H.
  destruct (FS.lookup (parts src) (fs w)) as [[sz mt|]|]; try discriminate.
  destruct (bool_decide _); [discriminate|].
  eapply write_keeps_dirs; eassumption.
Qed.

End DirsStay.

(** ** More on the retention sweep *)

Section SweepAgain.

Context (env : Env) (jobs_dir : Path).

Local Abbreviation sweep_one cutoff :=
  (fun (removed : Z) (job_dir : Path) =>
     d <- path_is_dir job_dir ;;
     if d then
       try_except
         (mtime <- stat_mtime env job_dir ;;
          if mtime <? cutoff then
            rmtree env job_dir ;;
            ret (removed + 1)
          else ret removed)
         (fun _ => ret removed)
     else ret removed).

Lemma events_bind_Ret {A B} (m : M A) (f : A -> M B) w a :
  res (m w) = Ret a ->
  events (bind m f w) = events (m w) ++ events (f a (final (m w))).
Proof. unfold bind. intros ->. reflexivity. Qed.

Lemma lookup_remove_none now p : forall q n,
  FS.lookup q n = None -> FS.lookup q (FS.remove now p n) = None.
Proof.
  induction p as [|c p IH]; intros q n Hq; [exact Hq|].
  destruct n as [sz m|m es]; [exact Hq|].
  destruct q as [|d q]; [discriminate Hq|].
  destruct p as [|c' p'].
  - simpl. destruct (FS.find c es) eqn:E; [|exact Hq]. simpl.
    destruct (decide (c = d)) as [->|Hne].
    + rewrite find_del_eq. reflexivity.
    + rewrite find_del_ne by exact Hne. exact Hq.
  - change (FS.remove now (c :: c' :: p') (Dir m es))
      with (match FS.find c es with
            | Some n' => Dir m (FS.set c (FS.remove now (c' :: p') n') es)
            | None => Dir m es
            end).
    destruct (FS.find c es) as [n'|] eqn:E; [|exact Hq].
    simpl in Hq |- *.
    destruct (decide (c = d)) as [->|Hne].
    + rewrite find_set_eq. rewrite E in Hq. apply IH, Hq.
    + rewrite find_set_ne by exact Hne. exact Hq.
Qed.

(** One turn of the loop either changes nothing or removes its
    directory and counts it. *)
Lemma sweep_one_cases cutoff removed x w :
  (res (sweep_one cutoff removed x w) = Ret removed
   /\ final (sweep_one cutoff removed x w) = w
   /\ Forall (fun ev => is_removal ev = false /\ is_rmtree ev = true)
        (events (sweep_one cutoff removed x w)))
  \/ (res (sweep_one cutoff removed x w) = Ret (removed + 1)
      /\ final (sweep_one cutoff removed x w)
         = mkWorld (FS.remove (clock w) (parts x) (fs w)) (clock w)
      /\ events (sweep_one cutoff removed x w) = [EvRmtree x None]).
Proof.
  change (wp (sweep_one cutoff removed x) w (fun r w' evs =>
    (r = Ret removed /\ w' = w
     /\ Forall (fun ev => is_removal ev = false /\ is_rmtree ev = true) evs)
    \/ (r = Ret (removed + 1)
        /\ w' = mkWorld (FS.remove (clock w) (parts x) (fs w)) (clock w)
        /\ evs = [EvRmtree x None]))).
  apply wp_bind, wp_reads. cbv beta iota.
  destruct (match FS.lookup (parts x) (fs w) with
            | Some n => FS.is_dir n | None => false end).
  2:{ apply wp_ret. left. repeat split. constructor. }
  apply wp_try_except, wp_bind, wp_stat_mtime_exact.
  destruct (refused env (OpStat x)).
  { apply wp_ret. left. repeat split. constructor. }
  destruct (FS.lookup (parts x) (fs w)) as [n|].
  2:{ apply wp_ret. left. repeat split. constructor. }
  destruct (FS.mtime n <? cutoff).
  2:{ apply wp_ret. left. repeat split. constructor. }
  apply wp_bind, wp_rmtree_exact.
  destruct (refused env (OpRmtree x)).
  { apply wp_ret. left. repeat split. repeat constructor. }
  destruct (FS.lookup (parts x) (fs w)) as [[|]|].
  - apply wp_ret. left. repeat split. repeat constructor.
  - apply wp_ret. right. repeat split.
  - apply wp_ret. left. repeat split. repeat constructor.
Qed.

(** The loop of the sweep, on any list of directories to look at *)
Lemma sweep_loop_general cutoff l : forall removed w,
  (forall x, In x l -> parts x ≠ []) ->
  res (for_each l (sweep_one cutoff) removed w)
  = Ret (removed
         + Z.of_nat (length (List.filter is_removal
                               (events (for_each l (sweep_one cutoff) removed w)))))
  /\ clock (final (for_each l (sweep_one cutoff) removed w)) = clock w
  /\ (forall q,
        (forall x, In x l -> ¬ parts x `prefix_of` q /\ ¬ q `prefix_of` parts x) ->
        FS.lookup q (fs (final (for_each l (sweep_one cutoff) removed w)))
        = FS.lookup q (fs w))
  /\ (forall q,
        FS.lookup q (fs w) = None ->
        FS.lookup q (fs (final (for_each l (sweep_one cutoff) removed w))) = None)
  /\ (forall x,
        In (EvRmtree x None) (events (for_each l (sweep_one cutoff) removed w)) ->
        FS.lookup (parts x)
          (fs (final (for_each l (sweep_one cutoff) removed w))) = None)
  /\ Forall (fun ev => is_rmtree ev = true)
       (events (for_each l (sweep_one cutoff) removed w)).
Proof.
  induction l as [|x l IH]; intros removed w Hl.
  - cbn [for_each ret res final events List.filter length].
    rewrite Z.add_0_r. repeat split; try reflexivity; try tauto.
    + intros y [].
    + constructor.
  - cbn [for_each].
    assert (forall y, In y l -> parts y ≠ []) as Hl'.
    { intros y Hy. apply Hl. right. exact Hy. }
    destruct (sweep_one_cases cutoff removed x w)
      as [(Hres & Hfin & Hev)|(Hres & Hfin & Hev)];
      rewrite (res_bind_Ret _ _ _ _ Hres), (final_bind_Ret _ _ _ _ Hres),
        (events_bind_Ret _ _ _ _ Hres), Hfin.
    + destruct (IH removed w Hl') as (Hr & Hc & Hframe & Hnone & Hgone & Hrm).
      split; [|split; [|split; [|split; [|split]]]].
      * rewrite Hr. f_equal. f_equal. f_equal.
        rewrite List.filter_app.
        assert (List.filter is_removal
                  (events (sweep_one cutoff removed x w)) = []) as ->.
        { induction Hev as [|ev evs [H1 _] _ IHev]; [reflexivity|].
          cbn [List.filter]. rewrite H1. exact IHev. }
        reflexivity.
      * exact Hc.
      * intros q Hq. apply Hframe. intros y Hy. apply Hq. right. exact Hy.
      * exact Hnone.
      * intros y Hy. apply in_app_or in Hy. destruct Hy as [Hy|Hy].
        -- rewrite List.Forall_forall in Hev. apply Hev in Hy.
           destruct Hy as [Hy _]. discriminate Hy.
        -- apply Hgone, Hy.
      * apply Forall_app. split; [|exact Hrm].
        eapply Forall_impl; [exact Hev|]. intros ev [_ H]. exact H.
    + destruct (IH (removed + 1)
                  (mkWorld (FS.remove (clock w) (parts x) (fs w)) (clock w)) Hl')
        as (Hr & Hc & Hframe & Hnone & Hgone & Hrm).
      rewrite Hev.
      split; [|split; [|split; [|split; [|split]]]].
      * rewrite Hr. cbn [app List.filter is_removal length]. f_equal. lia.
      * exact Hc.
      * intros q Hq. rewrite Hframe.
        -- cbn [fs]. apply lookup_remove_other; apply Hq; left; reflexivity.
        -- intros y Hy. apply Hq. right. exact Hy.
      * intros q Hq. apply Hnone. cbn [fs]. apply lookup_remove_none, Hq.
      * intros y Hy. cbn [app] in Hy. destruct Hy as [Hy|Hy].
        -- injection Hy as <-. apply Hnone. cbn [fs].
           apply lookup_remove_self, Hl. left. reflexivity.
        -- apply Hgone, Hy.
      * constructor; [reflexivity | exact Hrm].
Qed.

(** The whole sweep, by what the jobs root is *)
Lemma cleanup_on_dir expiry_hours w m es :
  FS.lookup (parts jobs_dir) (fs w) = Some (Dir m es) ->
  res (cleanup_old_jobs env jobs_dir expiry_hours w)
  = res (for_each (List.map (fun e => jobs_dir // e.1) es)
           (sweep_one (clock w - timedelta_hours expiry_hours)) 0 w)
  /\ final (cleanup_old_jobs env jobs_dir expiry_hours w)
     = final (for_each (List.map (fun e => jobs_dir // e.1) es)
                (sweep_one (clock w - timedelta_hours expiry_hours)) 0 w)
  /\ events (cleanup_old_jobs env jobs_dir expiry_hours w)
     = EvSweep jobs_dir
       :: events (for_each (List.map (fun e => jobs_dir // e.1) es)
                    (sweep_one (clock w - timedelta_hours expiry_hours)) 0 w).
Proof.
  intros Hl.
  set (L := for_each (List.map (fun e => jobs_dir // e.1) es)
              (sweep_one (clock w - timedelta_hours expiry_hours)) 0 w).
  change (wp (cleanup_old_jobs env jobs_dir expiry_hours) w
            (fun r w' evs => r = res L /\ w' = final L
                             /\ evs = EvSweep jobs_dir :: events L)).
  unfold cleanup_old_jobs.
  apply wp_bind, wp_emit. cbv beta iota.
  apply wp_bind, wp_path_exists. cbv beta iota.
  rewrite Hl, bool_decide_eq_true_2 by eauto. cbn [negb].
  apply wp_bind, wp_reads. cbv beta iota zeta.
  apply wp_bind, wp_iterdir_exact. rewrite Hl.
  subst L. unfold wp. repeat split; reflexivity.
Qed.

Lemma cleanup_off_dir expiry_hours w :
  (forall m es, FS.lookup (parts jobs_dir) (fs w) ≠ Some (Dir m es)) ->
  (forall k, res (cleanup_old_jobs env jobs_dir expiry_hours w) = Ret k -> k = 0)
  /\ final (cleanup_old_jobs env jobs_dir expiry_hours w) = w
  /\ events (cleanup_old_jobs env jobs_dir expiry_hours w) = [EvSweep jobs_dir].
Proof.
  intros Hl.
  change (wp (cleanup_old_jobs env jobs_dir expiry_hours) w
            (fun r w' evs => (forall k, r = Ret k -> k = 0) /\ w' = w
                             /\ evs = [EvSweep jobs_dir])).
  unfold cleanup_old_jobs.
  apply wp_bind, wp_emit. cbv beta iota.
  apply wp_bind, wp_path_exists. cbv beta iota.
  destruct (bool_decide _); cbn [negb].
  2:{ apply wp_ret. repeat split. intros k H. injection H as <-. reflexivity. }
  apply wp_bind, wp_reads. cbv beta iota zeta.
  apply wp_bind, wp_iterdir_exact.
  destruct (FS.lookup (parts jobs_dir) (fs w)) as [[|m es]|].
  - repeat split. discriminate.
  - exfalso. apply (Hl m es). reflexivity.
  - repeat split. discriminate.
Qed.

Lemma children_have_parts (es : list (string * node)) x :
  In x (List.map (fun e => jobs_dir // e.1) es) -> parts x ≠ [].
Proof.
  intros H. apply List.in_map_iff in H. destruct H as (e & <- & _).
  cbn. destruct (parts jobs_dir); discriminate.
Qed.

(** What the sweep has removed is not there when it returns. *)
Lemma removed_is_gone expiry_hours w x :
  In (EvRmtree x None) (events (cleanup_old_jobs env jobs_dir expiry_hours w)) ->
  FS.lookup (parts x)
    (fs (final (cleanup_old_jobs env jobs_dir expiry_hours w))) = None.
Proof.
  destruct (FS.lookup (parts jobs_dir) (fs w)) as [[sz mt|m es]|] eqn:Hl.
  - destruct (cleanup_off_dir expiry_hours w) as (_ & _ & Hev).
    { intros m es. rewrite Hl. discriminate. }
    rewrite Hev. intros [H|[]]. discriminate H.
  - destruct (cleanup_on_dir expiry_hours w m es Hl) as (_ & Hfin & Hev).
    destruct (sweep_loop_general (clock w - timedelta_hours expiry_hours)
                (List.map (fun e => jobs_dir // e.1) es) 0 w
                (children_have_parts es))
      as (_ & _ & _ & _ & Hgone & _).
    rewrite Hev, Hfin. intros [H|H]; [discriminate H|]. apply Hgone, H.
  - destruct (cleanup_off_dir expiry_hours w) as (_ & _ & Hev).
    { intros m es. rewrite Hl. discriminate. }
    rewrite Hev. intros [H|[]]. discriminate H.
Qed.

(** X1. In every world, the number [cleanup_old_jobs] returns is the
    number of its calls of [rmtree] that succeeded, and every directory
    so removed is gone when it returns. *)
Theorem sweep_counts_its_removals expiry_hours w k :
  res (cleanup_old_jobs env jobs_dir expiry_hours w) = Ret k ->
  k = Z.of_nat (length (List.filter is_removal
                          (events (cleanup_old_jobs env jobs_dir expiry_hours w))))
  /\ forall x,
      In (EvRmtree x None) (events (cleanup_old_jobs env jobs_dir expiry_hours w)) ->
      FS.lookup (parts x)
        (fs (final (cleanup_old_jobs env jobs_dir expiry_hours w))) = None.
Proof.
  intros Hk. split; [|intros x; apply removed_is_gone].
  destruct (FS.lookup (parts jobs_dir) (fs w)) as [[sz mt|m es]|] eqn:Hl.
  - destruct (cleanup_off_dir expiry_hours w) as (H0 & _ & Hev).
    { intros m es. rewrite Hl. discriminate. }
    rewrite Hev. apply H0, Hk.
  - destruct (cleanup_on_dir expiry_hours w m es Hl) as (Hres & _ & Hev).
    destruct (sweep_loop_general (clock w - timedelta_hours expiry_hours)
                (List.map (fun e => jobs_dir // e.1) es) 0 w
                (children_have_parts es))
      as (Hr & _).
    rewrite Hres, Hr in Hk. injection Hk as <-.
    rewrite Hev. cbn [List.filter is_removal]. lia.
  - destruct (cleanup_off_dir expiry_hours w) as (H0 & _ & Hev).
    { intros m es. rewrite Hl. discriminate. }
    rewrite Hev. apply H0, Hk.
Qed.

(** X2. The sweep keeps to the jobs root: in every world it leaves
    the clock alone and every path that lies neither inside the root
    nor above it as it was. *)
Theorem sweep_keeps_to_its_root expiry_hours w q :
  ¬ parts jobs_dir `prefix_of` q -> ¬ q `prefix_of` parts jobs_dir ->
  FS.lookup q (fs (final (cleanup_old_jobs env jobs_dir expiry_hours w)))
  = FS.lookup q (fs w)
  /\ clock (final (cleanup_old_jobs env jobs_dir expiry_hours w)) = clock w.
Proof.
  intros Hin Hup.
  destruct (FS.lookup (parts jobs_dir) (fs w)) as [[sz mt|m es]|] eqn:Hl.
  - destruct (cleanup_off_dir expiry_hours w) as (_ & -> & _).
    { intros m es. rewrite Hl. discriminate. }
    split; reflexivity.
  - destruct (cleanup_on_dir expiry_hours w m es Hl) as (_ & Hfin & _).
    destruct (sweep_loop_general (clock w - timedelta_hours expiry_hours)
                (List.map (fun e => jobs_dir // e.1) es) 0 w
                (children_have_parts es))
      as (_ & Hc & Hframe & _).
    rewrite Hfin. split; [|exact Hc].
    apply Hframe. intros x Hx.
    apply List.in_map_iff in Hx. destruct Hx as (e & <- & _).
    cbn [parts PathOps.child]. split.
    + intros Hp. apply Hin. etrans; [|exact Hp]. apply prefix_app_r. reflexivity.
    + intros Hp.
      destruct Hp as [k Hk].
      destruct k as [|a k] using rev_ind.
      * rewrite app_nil_r in Hk. apply Hin. exists [e.1]. symmetry. exact Hk.
      * rewrite app_assoc in Hk. apply app_inj_tail in Hk. destruct Hk as [Hk _].
        apply Hup. exists k. exact Hk.
  - destruct (cleanup_off_dir expiry_hours w) as (_ & -> & _).
    { intros m es. rewrite Hl. discriminate. }
    split; reflexivity.
Qed.

(** A loop over entries none of which is swept changes nothing. *)
Lemma sweep_loop_idle cutoff rest : forall removed w,
  (forall c n, In (c, n) rest ->
     FS.lookup (parts (jobs_dir // c)) (fs w) = Some n
     /\ swept env jobs_dir cutoff (c, n) = false) ->
  res (for_each (List.map (fun e => jobs_dir // e.1) rest)
         (sweep_one cutoff) removed w) = Ret removed
  /\ final (for_each (List.map (fun e => jobs_dir // e.1) rest)
              (sweep_one cutoff) removed w) = w.
Proof.
  induction rest as [|[c n] rest IH]; intros removed w H.
  - split; reflexivity.
  - cbn [List.map for_each fst].
    destruct (H c n (or_introl eq_refl)) as [Hl Hs].
    destruct (sweep_one_run env jobs_dir cutoff removed c n w Hl) as [Hr Hf].
    rewrite Hs in Hr, Hf.
    rewrite (res_bind_Ret _ _ _ _ Hr), (final_bind_Ret _ _ _ _ Hr), Hf.
    apply IH. intros c' n' Hin. apply H. right. exact Hin.
Qed.


End SweepAgain.

(** ** The calls that set up the workspace *)

Section Raises.

Context (env : Env).
Context (file_path : string) (is_point_cloud : bool) (max_clusters : Z)
  (use_agglomerative preprocess_mesh : bool) (adjacency_option : Z)
  (add_knn_edges : bool) (points_per_face : Z) (jobs_dir : string).

Local Abbreviation job :=
  (process_3d_file env file_path is_point_cloud max_clusters use_agglomerative
     preprocess_mesh adjacency_option add_knn_edges points_per_face jobs_dir).

Lemma wp_mkdir_exact p w (Q : result unit -> World -> list event -> Prop) :
  (forall e, Q (Raise e) w [EvMkdir p (Some e)]) ->
  (forall n, FS.mkdirs (clock w) (PathOps.str p) (parts p) (fs w) = inr n ->
             Q (Ret tt) (mkWorld n (clock w)) [EvMkdir p None]) ->
  wp (mkdir env p) w Q.
Proof.
  intros Hf Hs. unfold wp, mkdir, bind, get_world. simpl.
  destruct (refused env (OpMkdir p)); simpl; [apply Hf|].
  destruct (FS.mkdirs _ _ _ _) eqn:E; simpl; [apply Hf | apply Hs; reflexivity].
Qed.

Lemma wp_copy2_exact src dst w (Q : result unit -> World -> list event -> Prop) :
  (forall e, Q (Raise e) w [EvCopy src dst (Some e)]) ->
  (forall n, copy2_fs src dst w = inr n ->
             Q (Ret tt) (mkWorld n (clock w)) [EvCopy src dst None]) ->
  wp (copy2 env src dst) w Q.
Proof.
  intros Hf Hs. unfold wp, copy2, bind, get_world. simpl.
  destruct (refused env (OpCopy src dst)); simpl; [apply Hf|].
  destruct (copy2_fs _ _ _) eqn:E; simpl; [apply Hf | apply Hs; reflexivity].
Qed.

End Raises.

(** ** What a job returns *)

Section Returns.

Context (env : Env).
Context (file_path : string) (is_point_cloud : bool) (max_clusters : Z)
  (use_agglomerative preprocess_mesh : bool) (adjacency_option : Z)
  (add_knn_edges : bool) (points_per_face : Z) (jobs_dir : string).

Local Abbreviation job :=
  (process_3d_file env file_path is_point_cloud max_clusters use_agglomerative
     preprocess_mesh adjacency_option add_knn_edges points_per_face jobs_dir).

(** X6. A rejected upload touches nothing: the job returns the error
    of the validation with no artifact, has made no call, and leaves
    the world as it was. *)
Theorem rejected_upload_touches_nothing w :
  (validate_file env file_path (fs w)).1 = false ->
  res (job w)
  = Ret ("Error: " +:+ (validate_file env file_path (fs w)).2, [], None,
         transcript ["[" +:+ strftime_HMS (clock w) +:+ "] "
                     +:+ "Validation failed: "
                     +:+ (validate_file env file_path (fs w)).2])
  /\ events (job w) = []
  /\ final (job w) = w.
Proof.
  intros Hv.
  change (wp job w (fun r w' evs =>
    r = Ret ("Error: " +:+ (validate_file env file_path (fs w)).2, [], None,
             transcript ["[" +:+ strftime_HMS (clock w) +:+ "] "
                         +:+ "Validation failed: "
                         +:+ (validate_file env file_path (fs w)).2])
    /\ evs = [] /\ w' = w)).
  unfold process_3d_file.
  apply wp_bind, wp_reads. cbv beta iota. rewrite Hv. cbn [negb].
  apply wp_bind, wp_log. cbv beta iota. apply wp_ret.
  repeat split; reflexivity.
Qed.

(** X7. Artifacts come with success only: when the list returned is
    not empty, the status is the success message, which counts the
    artifacts, names the largest number of parts asked for and says
    whether an OBJ file is among them. *)
Theorem artifacts_mean_success w status files pca log :
  res (job w) = Ret (status, files, pca, log) ->
  files ≠ [] ->
  status
  = "Success! Generated " +:+ Py.str_int (Z.of_nat (length files))
    +:+ " segmentation(s) with 2 to " +:+ Py.str_int max_clusters +:+ " parts"
    +:+ (if existsb (Py.endswith ".obj") files then " (with UV maps)"
         else EmptyString).
Proof.
  change (wp job w (fun r _ _ =>
    r = Ret (status, files, pca, log) ->
    files ≠ [] ->
    status
    = "Success! Generated " +:+ Py.str_int (Z.of_nat (length files))
      +:+ " segmentation(s) with 2 to " +:+ Py.str_int max_clusters +:+ " parts"
      +:+ (if existsb (Py.endswith ".obj") files then " (with UV maps)"
           else EmptyString))).
  unfold process_3d_file.
  wp_run.
  all: intros Hres Hne; try discriminate Hres.
  all: injection Hres as <- <- <- <-.
  all: try (exfalso; apply Hne; reflexivity).
  all: reflexivity.
Qed.

End Returns.

(** ** The stages of a job *)

Section Stages.

Context (env : Env).
Context (file_path : string) (is_point_cloud : bool) (max_clusters : Z)
  (use_agglomerative preprocess_mesh : bool) (adjacency_option : Z)
  (add_knn_edges : bool) (points_per_face : Z) (jobs_dir : string).

Local Abbreviation job :=
  (process_3d_file env file_path is_point_cloud max_clusters use_agglomerative
     preprocess_mesh adjacency_option add_knn_edges points_per_face jobs_dir).

Lemma no_spawn_in_rmtrees rms :
  Forall (fun ev => is_rmtree ev = true) rms -> List.filter is_spawn rms = [].
Proof.
  induction 1 as [|ev rms Hev _ IH]; [reflexivity|].
  cbn [List.filter]. destruct ev; try discriminate Hev. exact IH.
Qed.

(** X8. A job starts at most two subprocesses, in this order: stage 1
    and, only when stage 1 has exited with status 0, stage 2, in the
    same working directory; when a single subprocess was started, it
    is a stage 1 that did not exit with status 0. *)
Theorem stages_run_in_order w :
  List.filter is_spawn (events (job w)) = []
  \/ (exists cmd1 d p1,
        List.filter is_spawn (events (job w)) = [EvSpawn cmd1 d p1]
        /\ is_stage1 cmd1 /\ forall lines after, p1 ≠ Exits lines 0 after)
  \/ (exists cmd1 cmd2 d lines1 after1 p2,
        List.filter is_spawn (events (job w))
        = [EvSpawn cmd1 d (Exits lines1 0 after1); EvSpawn cmd2 d p2]
        /\ is_stage1 cmd1 /\ is_stage2 cmd2).
Proof.
  change (wp job w (fun r _ evs =>
    List.filter is_spawn evs = []
    \/ (exists cmd1 d p1,
          List.filter is_spawn evs = [EvSpawn cmd1 d p1]
          /\ is_stage1 cmd1 /\ forall lines after, p1 ≠ Exits lines 0 after)
    \/ (exists cmd1 cmd2 d lines1 after1 p2,
          List.filter is_spawn evs
          = [EvSpawn cmd1 d (Exits lines1 0 after1); EvSpawn cmd2 d p2]
          /\ is_stage1 cmd1 /\ is_stage2 cmd2))).
  unfold process_3d_file, is_stage1, is_stage2.
  wp_run.
  all: repeat (rewrite ?List.filter_app; progress cbn [List.filter is_spawn app]).
  all: repeat match goal with
              | H : Forall (fun ev => is_rmtree ev = true) ?rms |- _ =>
                  rewrite (no_spawn_in_rmtrees rms H); clear H
              end.
  all: cbn [app].
  all: try (left; reflexivity).
  all: try (right; left; do 3 eexists;
            split; [reflexivity|]; split; [reflexivity|];
            intros lines' after' Heq; try discriminate Heq;
            injection Heq as -> -> ->;
            match goal with H : (0 =? 0) = false |- _ => discriminate H end).
  all: right; right; do 6 eexists.
  all: repeat match goal with
              | H : (?c =? 0) = true |- _ => apply Z.eqb_eq in H; subst c
              end.
  all: split; [reflexivity|]; split; reflexivity.
Qed.

(** X9. A stage-2 subprocess that does not end with status 0 (it cannot be
    started, its output cannot be read, or it exits with another
    status) makes the job return "Error: Clustering failed" with no
    artifact; the PCA file found after stage 1 is still returned. *)
Theorem clustering_failure_is_reported w cmd cwd p :
  In (EvSpawn cmd cwd p) (events (job w)) -> is_stage2 cmd ->
  (forall lines after, p ≠ Exits lines 0 after) -> p ≠ Hangs ->
  exists pca log,
    res (job w) = Ret ("Error: Clustering failed", [], pca, log)
    /\ forall cmd1 d1 p1 after1,
        In (EvSpawn cmd1 d1 p1) (events (job w)) -> is_stage1 cmd1 ->
        (exists lines1 code1, p1 = Exits lines1 code1 after1) ->
        pca = PathOps.str
                <$> head (glob_fs (features_dir env cwd) "feat_pca_" ".ply"
                            (fs after1)).
Proof.
  change (wp job w (fun r _ evs =>
    In (EvSpawn cmd cwd p) evs -> is_stage2 cmd ->
    (forall lines after, p ≠ Exits lines 0 after) -> p ≠ Hangs ->
    exists pca log,
      r = Ret ("Error: Clustering failed", [], pca, log)
      /\ forall cmd1 d1 p1 after1,
          In (EvSpawn cmd1 d1 p1) evs -> is_stage1 cmd1 ->
          (exists lines1 code1, p1 = Exits lines1 code1 after1) ->
          pca = PathOps.str
                  <$> head (glob_fs (features_dir env cwd) "feat_pca_" ".ply"
                              (fs after1)))).
  unfold process_3d_file, is_stage1, is_stage2, features_dir, job_id.
  wp_run.
  all: intros Hin Hs2 Hnz Hnh; in_cases Hin.
  all: try (exfalso; eapply no_spawn_among_rmtrees; eassumption).
  all: same_spawn.
  all: try (simpl in Hs2; discriminate Hs2).
  all: try (exfalso; apply Hnh; reflexivity).
  all: repeat match goal with
              | H : (?c =? 0) = true |- _ => apply Z.eqb_eq in H; subst c
              end.
  all: try (exfalso; eapply Hnz; reflexivity).
  all: do 2 eexists; split; [reflexivity|].
  all: intros cmd1 d1 p1 after1 Hin1 Hs1 (lines1 & code1 & ->); in_cases Hin1.
  all: try (exfalso; eapply no_spawn_among_rmtrees; eassumption).
  all: same_spawn.
  all: try (simpl in Hs1; discriminate Hs1).
  all: reflexivity.
Qed.

Lemma copy2_of_a_directory src dst w :
  is_dir_at (parts src) (fs w) ->
  copy2_fs src dst w = inl (FS.IsADirectoryError (PathOps.str src)).
Proof.
  intros (m & es & H). unfold copy2_fs. rewrite H. reflexivity.
Qed.

(** X10. [validate_file] asks whether the upload exists, not whether it is
    a file: a directory that passes validation makes the job raise
    before any stage is started. *)
Theorem directory_upload_raises w :
  (validate_file env file_path (fs w)).1 = true ->
  is_dir_at (parts (PathOps.of_str file_path)) (fs w) ->
  exists e, res (job w) = Raise e
            /\ List.filter is_spawn (events (job w)) = [].
Proof.
  intros Hv Hd.
  change (wp job w (fun r _ evs =>
    exists e, r = Raise e /\ List.filter is_spawn evs = [])).
  unfold process_3d_file.
  apply wp_bind, wp_reads. cbv beta iota. rewrite Hv. cbn [negb].
  apply wp_bind, wp_log_any. intros lo0. cbv beta iota zeta.
  apply wp_bind, wp_mkdir_exact.
  { intros e. eexists. split; reflexivity. }
  intros n1 Hn1. cbv beta iota.
  apply wp_bind, wp_mkdir_exact.
  { intros e. eexists. split; reflexivity. }
  intros n2 Hn2. cbv beta iota. cbn [fs clock] in Hn2.
  apply wp_bind, wp_log_any. intros lo1. cbv beta iota zeta.
  apply wp_bind, wp_copy2_exact.
  { intros e. eexists. split; reflexivity. }
  intros n3 Hn3. exfalso.
  rewrite copy2_of_a_directory in Hn3; [discriminate Hn3|].
  cbn [fs]. eapply mkdirs_keeps_dirs; [|exact Hn2].
  eapply mkdirs_keeps_dirs; [|exact Hn1]. exact Hd.
Qed.

Lemma lookup_app_none p q n :
  FS.lookup p n = None -> FS.lookup (p ++ q) n = None.
Proof.
  revert n. induction p as [|c p IH]; intros n H; [discriminate H|].
  simpl in H |- *. destruct n as [|m es]; [reflexivity|].
  destruct (FS.find c es); [apply IH, H | reflexivity].
Qed.

Lemma glob_fs_children p pre suf n q :
  In q (glob_fs p pre suf n) -> exists c, q = p // c.
Proof.
  unfold glob_fs. intros H. apply List.in_map_iff in H.
  destruct H as (c & <- & _). eauto.
Qed.

End Stages.

(** ** The directory of the pipeline *)

Lemma wp_get_partfield_dir_exact env w
  (Q : result Path -> World -> list event -> Prop) :
  (forall d,
      d = script_dir env \/ d = PathOps.of_str "/workspace/partfield" ->
      Q (Ret d) w []) ->
  wp (get_partfield_dir env) w Q.
Proof.
  intros H. unfold wp, get_partfield_dir, bind, path_exists, reads. simpl.
  destruct (bool_decide _); simpl; apply H; [left | right]; reflexivity.
Qed.

Ltac wp_step_dir :=
  lazymatch goal with
  | |- wp (get_partfield_dir _) _ _ =>
      apply wp_get_partfield_dir_exact; intros ?partfield_dir ?Hdir;
      cbv beta iota zeta
  | _ => wp_step
  end.

Section PcaFile.

Context (env : Env).
Context (file_path : string) (is_point_cloud : bool) (max_clusters : Z)
  (use_agglomerative preprocess_mesh : bool) (adjacency_option : Z)
  (add_knn_edges : bool) (points_per_face : Z) (jobs_dir : string).

Local Abbreviation job :=
  (process_3d_file env file_path is_point_cloud max_clusters use_agglomerative
     preprocess_mesh adjacency_option add_knn_edges points_per_face jobs_dir).

(** The PCA file of a successful job lies in its features directory,
    which is gone on return unless its removal failed. *)
Lemma returned_pca_lay_in_features w status files pca log :
  res (job w) = Ret (status, files, Some pca, log) -> files ≠ [] ->
  (forall d e, ¬ In (EvRmtree (features_dir env d) (Some e)) (events (job w))) ->
  exists d c,
    (d = script_dir env \/ d = PathOps.of_str "/workspace/partfield")
    /\ pca = PathOps.str (features_dir env d // c)
    /\ FS.lookup (parts (features_dir env d)) (fs (final (job w))) = None.
Proof.
  change (wp job w (fun r w' evs =>
    r = Ret (status, files, Some pca, log) -> files ≠ [] ->
    (forall d e, ¬ In (EvRmtree (features_dir env d) (Some e)) evs) ->
    exists d c,
      (d = script_dir env \/ d = PathOps.of_str "/workspace/partfield")
      /\ pca = PathOps.str (features_dir env d // c)
      /\ FS.lookup (parts (features_dir env d)) (fs w') = None)).
  unfold process_3d_file, features_dir, job_id.
  repeat wp_step_dir. cbn [app].
  all: intros Hres Hne Hok; try discriminate Hres.
  all: injection Hres as <- <- Hpca <-; try (exfalso; apply Hne; reflexivity).
  all: try (exfalso; eapply Hok; prove_in).
  all: match type of Hpca with
       | _ <$> head ?l = _ =>
           destruct l as [|q l'] eqn:Hglob; [discriminate Hpca|];
           injection Hpca as <-;
           destruct (glob_fs_children _ _ _ _ q
                       ltac:(rewrite Hglob; left; reflexivity)) as [c ->]
       end.
  all: exists partfield_dir, c; split; [exact Hdir|]; split; [reflexivity|].
  all: cbn [parts PathOps.child fs].
  all: first
    [ apply lookup_remove_self; destruct (parts partfield_dir); discriminate
    | match goal with
      | H : bool_decide (is_Some (FS.lookup ?p ?n)) = false
        |- FS.lookup ?p ?n = None => apply not_there, H
      end ].
Qed.

End PcaFile.

(** ** Names, keys and labels *)

Section Names.

Implicit Types (s t u : string) (c a : ascii).

Lemma append_assoc s t u : (s +:+ t) +:+ u = s +:+ (t +:+ u).
Proof.
  induction s as [|a s IH]; [reflexivity|].
  change (String a ((s +:+ t) +:+ u) = String a (s +:+ (t +:+ u))).
  rewrite IH. reflexivity.
Qed.

Lemma append_nil_r s : s +:+ EmptyString = s.
Proof.
  induction s as [|a s IH]; [reflexivity|].
  change (String a (s +:+ EmptyString) = String a s). rewrite IH. reflexivity.
Qed.

Lemma rfind_cons_none c a s :
  Py.rfind c (String a s) = None <-> Ascii.eqb a c = false /\ Py.rfind c s = None.
Proof.
  cbn [Py.rfind]. destruct (Py.rfind c s); [split; [discriminate|intros [_ H]; discriminate H]|].
  destruct (Ascii.eqb a c); split; try discriminate; try tauto.
  intros [H _]. discriminate H.
Qed.

Lemma lacks_app c s t : lacks c (s +:+ t) <-> lacks c s /\ lacks c t.
Proof.
  unfold lacks. induction s as [|a s IH].
  - change (EmptyString +:+ t) with t. cbn [Py.rfind]. tauto.
  - change (String a s +:+ t) with (String a (s +:+ t)).
    rewrite !rfind_cons_none, IH. tauto.
Qed.

Lemma rfind_app c s t :
  lacks c t -> Py.rfind c (s +:+ String c t) = Some (Py.len s).
Proof.
  unfold lacks. intros Ht. induction s as [|a s IH].
  - change (EmptyString +:+ String c t) with (String c t).
    cbn [Py.rfind]. rewrite Ht, Ascii.eqb_refl. reflexivity.
  - change (String a s +:+ String c t) with (String a (s +:+ String c t)).
    cbn [Py.rfind]. rewrite IH. reflexivity.
Qed.

Lemma take_app s t : Py.take (Py.len s) (s +:+ t) = s.
Proof.
  induction s as [|a s IH]; [destruct t; reflexivity|].
  change (String a (Py.take (Py.len s) (s +:+ t)) = String a s).
  rewrite IH. reflexivity.
Qed.

Lemma drop_app s t : Py.drop (Py.len s) (s +:+ t) = t.
Proof.
  induction s as [|a s IH]; [reflexivity|]. exact IH.
Qed.

(** The stem and the suffix of [s.t] *)
Lemma stem_suffix_of_name s t :
  s ≠ EmptyString -> t ≠ EmptyString -> lacks "." t ->
  PathOps.stem_of_name (s +:+ String "." t) = s
  /\ PathOps.suffix_of_name (s +:+ String "." t) = String "." t.
Proof.
  intros Hs Ht Hl. unfold PathOps.stem_of_name, PathOps.suffix_of_name.
  rewrite (rfind_app "." s t Hl).
  assert (((0 <? Py.len s) && (Py.len s <? Py.len (s +:+ String "." t) - 1))%nat
          = true) as ->.
  { unfold Py.len. rewrite length_append. cbn [String.length].
    destruct s; [congruence|]. destruct t; [congruence|].
    cbn [String.length].
    apply andb_true_iff. split; [reflexivity|]. apply Nat.ltb_lt. lia. }
  rewrite take_app, drop_app. split; reflexivity.
Qed.

Lemma split_nonempty c s : Py.split c s ≠ [].
Proof.
  destruct s as [|a s]; cbn [Py.split]; [discriminate|].
  destruct (Ascii.eqb a c); [discriminate|].
  destruct (Py.split c s); discriminate.
Qed.

Lemma split_lacks c s : lacks c s -> Py.split c s = [s].
Proof.
  unfold lacks. induction s as [|a s IH]; [reflexivity|].
  rewrite rfind_cons_none. intros [Ha Hs].
  cbn [Py.split]. rewrite Ha, (IH Hs). reflexivity.
Qed.

Lemma split_app c s t :
  Py.split c (s +:+ String c t) = Py.split c s ++ Py.split c t.
Proof.
  induction s as [|a s IH].
  - change (EmptyString +:+ String c t) with (String c t).
    cbn [Py.split]. rewrite Ascii.eqb_refl. reflexivity.
  - change (String a s +:+ String c t) with (String a (s +:+ String c t)).
    cbn [Py.split]. rewrite IH.
    destruct (Ascii.eqb a c); [reflexivity|].
    destruct (Py.split c s) as [|tok rest] eqn:E; [|reflexivity].
    exfalso. exact (split_nonempty c s E).
Qed.

Lemma last_item_split c s t :
  lacks c t -> Py.last_item (Py.split c (s +:+ String c t)) = t.
Proof.
  intros Ht. rewrite split_app, (split_lacks c t Ht).
  unfold Py.last_item. apply List.last_last.
Qed.

(** *** Decimal numerals *)

Lemma digit_val_char d :
  (d < 10)%N -> Py.digit_val (pretty_N_char d) = Some (Z.of_N d).
Proof.
  intros H. destruct d as [|p]; [reflexivity|].
  repeat (destruct p as [p|p|]; try (exfalso; lia); try reflexivity).
Qed.

Lemma digit_is_no_space c v : Py.digit_val c = Some v -> Py.is_space c = false.
Proof.
  unfold Py.digit_val, Py.is_space.
  destruct ((48 <=? N_of_ascii c)%N && (N_of_ascii c <=? 57)%N) eqn:E;
    [|discriminate].
  intros _. apply andb_true_iff in E. destruct E as [E1 E2].
  apply N.leb_le in E1, E2.
  apply orb_false_iff. split; apply andb_false_iff.
  - right. apply N.leb_gt. lia.
  - right. apply N.leb_gt. lia.
Qed.

Lemma all_digits_app s t :
  all_digits (s +:+ t) = all_digits s && all_digits t.
Proof.
  induction s as [|a s IH]; [reflexivity|].
  change (String a s +:+ t) with (String a (s +:+ t)).
  cbn [all_digits]. destruct (Py.digit_val a); [exact IH | reflexivity].
Qed.

Lemma all_digits_lstrip s : all_digits s = true -> Py.lstrip s = s.
Proof.
  destruct s as [|a s]; [reflexivity|]. cbn [all_digits Py.lstrip].
  destruct (Py.digit_val a) eqn:E; [|discriminate].
  rewrite (digit_is_no_space a _ E). reflexivity.
Qed.

Lemma all_digits_rstrip s : all_digits s = true -> Py.rstrip s = s.
Proof.
  induction s as [|a s IH]; [reflexivity|]. cbn [all_digits Py.rstrip].
  destruct (Py.digit_val a) eqn:E; [|discriminate].
  intros H. rewrite (IH H). destruct s; [|reflexivity].
  rewrite (digit_is_no_space a _ E). reflexivity.
Qed.

Lemma all_digits_lacks c s :
  Py.digit_val c = None -> all_digits s = true -> lacks c s.
Proof.
  unfold lacks. intros Hc. induction s as [|a s IH]; [reflexivity|].
  cbn [all_digits]. destruct (Py.digit_val a) eqn:E; [|discriminate].
  intros H. apply rfind_cons_none. split; [|apply IH, H].
  destruct (Ascii.eqb a c) eqn:Eq; [|reflexivity].
  apply Ascii.eqb_eq in Eq. subst a. congruence.
Qed.

(** What [pretty_N_go] puts in front of its accumulator: the decimal
    digits of the number, as [int] reads them back. *)
Lemma pretty_N_go_digits x :
  (0 < x)%N ->
  exists D,
    D ≠ EmptyString /\ all_digits D = true
    /\ (forall s, pretty_N_go x s = D +:+ s)
    /\ forall acc b t,
        Py.digits acc b (D +:+ t)
        = Py.digits (acc * 10 ^ Z.of_nat (Py.len D) + Z.of_N x) true t.
Proof.
  induction x as [x IH] using (well_founded_induction N.lt_wf_0). intros Hx.
  assert (x `mod` 10 < 10)%N as Hr by (apply N.mod_lt; lia).
  pose proof (N.div_mod x 10 ltac:(lia)) as Hdm.
  destruct (decide (x `div` 10 = 0)%N) as [Hq|Hq].
  - exists (String (pretty_N_char (x `mod` 10)) EmptyString).
    split; [discriminate|]. split.
    { cbn [all_digits]. rewrite (digit_val_char _ Hr). reflexivity. }
    split.
    { intros s. rewrite (pretty_N_go_step x s Hx), Hq, pretty_N_go_0. reflexivity. }
    intros acc b t.
    change (String (pretty_N_char (x `mod` 10)) EmptyString +:+ t)
      with (String (pretty_N_char (x `mod` 10)) t).
    cbn [Py.digits]. rewrite (digit_val_char _ Hr). f_equal.
    cbn [Py.len String.length]. lia.
  - destruct (IH (x `div` 10)%N) as (D & Hne & Hall & Hgo & Hdig).
    { apply N.div_lt; lia. }
    { lia. }
    exists (D +:+ String (pretty_N_char (x `mod` 10)) EmptyString).
    split; [destruct D; [congruence | discriminate]|]. split.
    { rewrite all_digits_app, Hall. cbn [all_digits andb].
      rewrite (digit_val_char _ Hr). reflexivity. }
    split.
    { intros s. rewrite (pretty_N_go_step x s Hx), Hgo, append_assoc. reflexivity. }
    intros acc b t. rewrite append_assoc.
    change (String (pretty_N_char (x `mod` 10)) EmptyString +:+ t)
      with (String (pretty_N_char (x `mod` 10)) t).
    rewrite Hdig. cbn [Py.digits]. rewrite (digit_val_char _ Hr). f_equal.
    unfold Py.len. rewrite length_append. cbn [String.length].
    rewrite Nat2Z.inj_add, Z.pow_add_r by lia.
    change (10 ^ Z.of_nat 1) with 10. lia.
Qed.

Lemma int_of_digits c s :
  is_Some (Py.digit_val c) -> Py.strip (String c s) = String c s ->
  Py.int (String c s) = Py.digits 0 false (String c s).
Proof.
  intros Hc Hs. unfold Py.int. rewrite Hs.
  destruct c as [[] [] [] [] [] [] [] []]; try reflexivity;
    exfalso; vm_compute in Hc; destruct Hc as [v Hv]; discriminate Hv.
Qed.

Lemma pretty_pos (p : positive) :
  exists D,
    D ≠ EmptyString /\ all_digits D = true
    /\ pretty (N.pos p) = D
    /\ Py.digits 0 false D = Some (Z.pos p).
Proof.
  destruct (pretty_N_go_digits (N.pos p) ltac:(lia)) as (D & Hne & Hall & Hgo & Hdig).
  exists D. split; [exact Hne|]. split; [exact Hall|]. split.
  - unfold pretty, pretty_N. destruct (decide _) as [E|_]; [discriminate E|].
    rewrite Hgo. apply append_nil_r.
  - rewrite <- (append_nil_r D) at 1. rewrite Hdig. reflexivity.
Qed.

(** [int(str(n)) == n] *)
Lemma int_str_int n : Py.int (Py.str_int n) = Some n.
Proof.
  unfold Py.str_int. destruct n as [|p|p].
  - reflexivity.
  - change (pretty (Z.pos p)) with (pretty (N.pos p)).
    destruct (pretty_pos p) as (D & Hne & Hall & -> & Hdig).
    destruct D as [|c D]; [congruence|].
    rewrite int_of_digits; [exact Hdig | |].
    + cbn [all_digits] in Hall. destruct (Py.digit_val c); [eauto|discriminate].
    + unfold Py.strip. rewrite (all_digits_lstrip _ Hall).
      apply all_digits_rstrip, Hall.
  - change (pretty (Z.neg p)) with ("-" +:+ pretty (N.pos p)).
    destruct (pretty_pos p) as (D & Hne & Hall & -> & Hdig).
    unfold Py.int, Py.strip.
    change ("-" +:+ D) with (String "-" D).
    change (Py.lstrip (String "-" D)) with (String "-" D).
    cbn [Py.rstrip]. rewrite (all_digits_rstrip _ Hall).
    destruct D as [|c D]; [congruence|].
    rewrite Hdig. reflexivity.
Qed.

Lemma str_int_lacks c n :
  Py.digit_val c = None -> c ≠ "-"%char -> lacks c (Py.str_int n).
Proof.
  intros Hc Hm. unfold Py.str_int. destruct n as [|p|p].
  - apply (all_digits_lacks c "0" Hc). reflexivity.
  - change (pretty (Z.pos p)) with (pretty (N.pos p)).
    destruct (pretty_pos p) as (D & _ & Hall & -> & _).
    apply all_digits_lacks; assumption.
  - change (pretty (Z.neg p)) with ("-" +:+ pretty (N.pos p)).
    destruct (pretty_pos p) as (D & _ & Hall & -> & _).
    change ("-" +:+ D) with (String "-" D).
    apply rfind_cons_none. split.
    + destruct (Ascii.eqb "-" c) eqn:E; [|reflexivity].
      apply Ascii.eqb_eq in E. congruence.
    + apply all_digits_lacks; assumption.
Qed.

Lemma name_child p nm : PathOps.name (p // nm) = nm.
Proof. unfold PathOps.name. cbn [parts PathOps.child]. apply List.last_last. Qed.

(** The stem of an output name ends in the number of clusters. *)
Lemma output_name_stem uid n t :
  t ≠ EmptyString -> lacks "." t ->
  PathOps.stem_of_name (output_name uid n (String "." t))
  = uid +:+ String "_" (Py.str_int n)
  /\ PathOps.suffix_of_name (output_name uid n (String "." t)) = String "." t.
Proof.
  intros Ht Hl. unfold output_name.
  change (uid +:+ "_" +:+ Py.str_int n +:+ String "." t)
    with (uid +:+ (String "_" (Py.str_int n) +:+ String "." t)).
  rewrite <- append_assoc.
  apply stem_suffix_of_name; [|exact Ht|exact Hl].
  destruct uid; discriminate.
Qed.

(** X12. The sort key of an output file named by the convention of the
    clustering script is its number of clusters, for both formats and
    whatever the identifier holds. *)
Theorem cluster_count_of_output_name dir uid n :
  get_cluster_count (dir // output_name uid n ".ply") = n
  /\ get_cluster_count (dir // output_name uid n ".obj") = n.
Proof.
  assert (forall t, t ≠ EmptyString -> lacks "." t ->
            get_cluster_count (dir // output_name uid n (String "." t)) = n) as H.
  { intros t Ht Hl. unfold get_cluster_count, PathOps.stem.
    rewrite name_child.
    destruct (output_name_stem uid n t Ht Hl) as [-> _].
    rewrite last_item_split.
    - rewrite int_str_int. reflexivity.
    - apply str_int_lacks; [reflexivity | discriminate]. }
  split; apply H; try discriminate; reflexivity.
Qed.

(** *** A name survives [str] and [Path] *)

Lemma concat_snoc sep (l : list string) x :
  l ≠ [] -> String.concat sep (l ++ [x]) = String.concat sep l +:+ sep +:+ x.
Proof.
  induction l as [|y l IH]; [congruence|]. intros _.
  destruct l as [|z l]; [reflexivity|].
  change (y +:+ sep +:+ String.concat sep ((z :: l) ++ [x])
          = (y +:+ sep +:+ String.concat sep (z :: l)) +:+ sep +:+ x).
  rewrite IH by discriminate. rewrite !append_assoc. reflexivity.
Qed.

Lemma str_child p nm :
  exists pre,
    PathOps.str (p // nm) = nm
    \/ PathOps.str (p // nm) = pre +:+ String "/" nm.
Proof.
  unfold PathOps.str. cbn [parts anchored PathOps.child].
  destruct (parts p ++ [nm]) as [|x l] eqn:E.
  { destruct (parts p); discriminate E. }
  rewrite <- E. clear E x l. unfold Py.join.
  destruct (parts p) as [|y l].
  - cbn [app String.concat]. destruct (anchored p).
    + exists EmptyString. right. reflexivity.
    + exists EmptyString. left. reflexivity.
  - rewrite concat_snoc by discriminate.
    exists ((if anchored p then "/" else EmptyString)
            +:+ String.concat "/" (y :: l)).
    right. rewrite append_assoc. reflexivity.
Qed.

Lemma name_of_str_str p nm :
  lacks "/" nm -> nm ≠ EmptyString -> nm ≠ "." ->
  PathOps.name (PathOps.of_str (PathOps.str (p // nm))) = nm.
Proof.
  intros Hl Hne Hdot.
  assert (negb (String.eqb nm EmptyString) && negb (String.eqb nm ".") = true) as Hf.
  { apply andb_true_iff. split; apply negb_true_iff, String.eqb_neq; assumption. }
  unfold PathOps.name, PathOps.of_str. cbn [parts].
  destruct (str_child p nm) as (pre & [-> | ->]).
  - rewrite (split_lacks _ _ Hl). cbn [List.filter]. rewrite Hf. reflexivity.
  - rewrite split_app, (split_lacks _ _ Hl), List.filter_app.
    cbn [List.filter]. rewrite Hf. apply List.last_last.
Qed.

Lemma output_name_is_a_name uid n t :
  lacks "/" uid -> lacks "/" t ->
  lacks "/" (output_name uid n t)
  /\ output_name uid n t ≠ EmptyString /\ output_name uid n t ≠ ".".
Proof.
  intros Hu Ht. unfold output_name. split; [|split].
  - apply lacks_app. split; [exact Hu|].
    apply lacks_app. split; [reflexivity|].
    apply lacks_app. split; [|exact Ht].
    apply str_int_lacks; [reflexivity | discriminate].
  - destruct uid; discriminate.
  - destruct uid as [|a [|b uid]]; discriminate.
Qed.

(** X13. The label of an output file named by the convention of the
    clustering script, found under any directory, is its number of
    clusters followed by " parts", and by " (UV)" for an OBJ file. *)
Theorem label_of_output_name dir uid n :
  lacks "/" uid ->
  mesh_label (PathOps.str (dir // output_name uid n ".ply"))
  = Py.str_int n +:+ " parts"
  /\ mesh_label (PathOps.str (dir // output_name uid n ".obj"))
     = Py.str_int n +:+ " parts (UV)".
Proof.
  intros Hu.
  assert (forall t, t ≠ EmptyString -> lacks "." t -> lacks "/" (String "." t) ->
            mesh_label (PathOps.str (dir // output_name uid n (String "." t)))
            = Py.str_int n +:+ " parts"
              +:+ (if String.eqb (Py.lower (String "." t)) ".obj"
                   then " (UV)" else EmptyString)) as H.
  { intros t Ht Hl Hs. unfold mesh_label, PathOps.stem, PathOps.suffix.
    destruct (output_name_is_a_name uid n (String "." t) Hu Hs) as (H1 & H2 & H3).
    rewrite (name_of_str_str dir _ H1 H2 H3).
    destruct (output_name_stem uid n t Ht Hl) as [-> ->].
    rewrite last_item_split.
    - reflexivity.
    - apply str_int_lacks; [reflexivity | discriminate]. }
  split.
  - rewrite (H "ply"); [|discriminate|reflexivity|reflexivity].
    cbn. rewrite append_nil_r. reflexivity.
  - rewrite (H "obj"); [|discriminate|reflexivity|reflexivity].
    reflexivity.
Qed.

End Names.

(** ** The PCA file after a successful job *)

Section PcaPath.

Context (env : Env).
Context (file_path : string) (is_point_cloud : bool) (max_clusters : Z)
  (use_agglomerative preprocess_mesh : bool) (adjacency_option : Z)
  (add_knn_edges : bool) (points_per_face : Z) (jobs_dir : string).

Local Abbreviation job :=
  (process_3d_file env file_path is_point_cloud max_clusters use_agglomerative
     preprocess_mesh adjacency_option add_knn_edges points_per_face jobs_dir).

Local Abbreviation component :=
  (fun c => negb (String.eqb c EmptyString) && negb (String.eqb c ".")).

Lemma plain_component c : plain c -> component c = true.
Proof.
  intros (_ & H1 & H2).
  apply andb_true_iff. split; apply negb_true_iff, String.eqb_neq; assumption.
Qed.

Lemma split_join_plain (l : list string) x :
  Forall plain l ->
  Py.split "/" (Py.join "/" (l ++ [x])) = l ++ Py.split "/" x.
Proof.
  unfold Py.join. induction l as [|y l IH]; intros Hl; [reflexivity|].
  apply Forall_cons in Hl. destruct Hl as [(Hy & _) Hl].
  cbn [app]. destruct (l ++ [x]) as [|z l'] eqn:E.
  { destruct l; discriminate E. }
  change (String.concat "/" (y :: z :: l'))
    with (y +:+ String "/" (String.concat "/" (z :: l'))).
  rewrite split_app, (split_lacks _ _ Hy), (IH Hl). reflexivity.
Qed.

(** [Path(str(p / c))] lies below [p] when the components of [p] are
    plain. *)
Lemma of_str_str_below p c :
  Forall plain (parts p) ->
  parts p `prefix_of` parts (PathOps.of_str (PathOps.str (p // c))).
Proof.
  intros Hp. unfold PathOps.of_str, PathOps.str.
  cbn [parts anchored PathOps.child].
  destruct (parts p ++ [c]) as [|x l] eqn:E.
  { destruct (parts p); discriminate E. }
  rewrite <- E. clear E x l.
  assert (List.filter component (parts p) = parts p) as Hkeep.
  { induction Hp as [|y l Hy _ IH]; [reflexivity|].
    cbn [List.filter]. rewrite (plain_component y Hy), IH. reflexivity. }
  destruct (anchored p).
  - change ("/" +:+ Py.join "/" (parts p ++ [c]))
      with (EmptyString +:+ String "/" (Py.join "/" (parts p ++ [c]))).
    rewrite split_app, (split_join_plain _ _ Hp).
    cbn [Py.split app List.filter String.eqb negb andb].
    rewrite List.filter_app, Hkeep. eexists. reflexivity.
  - change (EmptyString +:+ Py.join "/" (parts p ++ [c]))
      with (Py.join "/" (parts p ++ [c])).
    rewrite (split_join_plain _ _ Hp), List.filter_app, Hkeep.
    eexists. reflexivity.
Qed.

Lemma features_dir_plain d :
  Forall plain (parts d) -> lacks "/" (job_id env) ->
  Forall plain (parts (features_dir env d)).
Proof.
  intros Hd Hid. unfold features_dir. cbn [parts PathOps.child].
  rewrite !Forall_app. split; [split; [exact Hd|]|].
  - apply List.Forall_cons; [|apply List.Forall_nil].
    split; [reflexivity|]. split; discriminate.
  - apply List.Forall_cons; [|apply List.Forall_nil].
    split; [|split; [discriminate|]].
    + apply lacks_app. split; [reflexivity | exact Hid].
    + intros H. cbn in H. discriminate H.
Qed.

(** X11. The clean-up of a successful job removes the PCA file it
    returns. Let the directory of the script have plain components and
    the job identifier no slash: when artifacts and a PCA path come
    back and no removal of the features directory has failed, nothing
    lies at the returned path any more. *)
Theorem returned_pca_is_removed w status files pca log :
  Forall plain (parts (script_dir env)) -> lacks "/" (job_id env) ->
  res (job w) = Ret (status, files, Some pca, log) -> files ≠ [] ->
  (forall d e, ¬ In (EvRmtree (features_dir env d) (Some e)) (events (job w))) ->
  FS.lookup (parts (PathOps.of_str pca)) (fs (final (job w))) = None.
Proof.
  intros Hscript Hid Hres Hne Hok.
  destruct (returned_pca_lay_in_features env file_path is_point_cloud
              max_clusters use_agglomerative preprocess_mesh adjacency_option
              add_knn_edges points_per_face jobs_dir w status files pca log
              Hres Hne Hok) as (d & c & Hd & -> & Hgone).
  assert (Forall plain (parts d)) as Hplain.
  { destruct Hd as [->| ->]; [exact Hscript|].
    repeat (apply List.Forall_cons; [split; [reflexivity|split; discriminate]|]).
    apply List.Forall_nil. }
  destruct (of_str_str_below (features_dir env d) c
              (features_dir_plain d Hplain Hid)) as [k ->].
  apply lookup_app_none, Hgone.
Qed.

End PcaPath.

(** ** The handlers of the interface *)

Section Handlers.

Context (env : Env) (jobs_dir : string).
Context (file_path : string) (is_pc : bool) (max_clust : Z) (use_agglo : bool)
  (preprocess : bool) (adj_opt : Z) (knn : bool) (ppf : Z).

Local Abbreviation job :=
  (process_3d_file env file_path is_pc max_clust use_agglo preprocess adj_opt
     knn ppf jobs_dir).

Local Abbreviation handler :=
  (on_process env jobs_dir file_path is_pc max_clust use_agglo preprocess
     adj_opt knn ppf).

(** The artifacts that carry a label, in the order of the list *)
Local Abbreviation labelled label :=
  (List.filter (fun p => String.eqb (mesh_label p) label)).

Lemma build_choices_labels l : (build_choices l).1 = List.map mesh_label l.
Proof.
  induction l as [|x l IH] using rev_ind; [reflexivity|].
  rewrite build_choices_snoc, List.map_app, IH. reflexivity.
Qed.

(** A label leads to the last artifact that carries it. *)
Lemma build_choices_last l label :
  (build_choices l).2 !! label = last (labelled label l).
Proof.
  induction l as [|x l IH] using rev_ind; [reflexivity|].
  rewrite build_choices_snoc, List.filter_app. cbn [snd List.filter].
  destruct (String.eqb (mesh_label x) label) eqn:E.
  - apply String.eqb_eq in E. subst label.
    rewrite lookup_insert_eq, last_snoc. reflexivity.
  - apply String.eqb_neq in E.
    rewrite lookup_insert_ne by exact E. rewrite app_nil_r. exact IH.
Qed.

Lemma mesh_label_nonempty p : mesh_label p ≠ EmptyString.
Proof.
  unfold mesh_label. intros H. apply (f_equal String.length) in H.
  rewrite !length_append in H. simpl in H. lia.
Qed.

Lemma on_select_result_lookup label (m : gmap string string) :
  label ≠ EmptyString -> on_select_result label m = m !! label.
Proof.
  intros Hl. unfold on_select_result.
  apply String.eqb_neq in Hl. rewrite Hl. cbn [negb andb].
  destruct (decide (m = ∅)) as [->|Hm].
  - rewrite bool_decide_eq_true_2 by reflexivity. cbn [negb andb].
    rewrite lookup_empty. reflexivity.
  - rewrite bool_decide_eq_false_2 by exact Hm. cbn [negb andb].
    destruct (m !! label) eqn:E.
    + rewrite bool_decide_eq_true_2 by eauto. reflexivity.
    + rewrite bool_decide_eq_false_2; [reflexivity|]. intros [x Hx]. discriminate Hx.
Qed.

(** X14. What the button hands to the drop-down: one choice per artifact,
    its label, in the order of the artifacts; a choice selects the last
    artifact that carries its label, so of two artifacts with one label
    only the later can be shown; the model shown first is the one the
    first choice selects. *)
Theorem choice_selects_last_of_label w status choices first first_model pca log mapping :
  res (handler w) = Ret (status, (choices, first), first_model, pca, log, mapping) ->
  exists files,
    res (job w) = Ret (status, files, pca, log)
    /\ choices = List.map mesh_label files
    /\ first = head choices
    /\ (forall label, label ≠ EmptyString ->
        on_select_result label mapping = last (labelled label files))
    /\ first_model = first ≫= (fun label => on_select_result label mapping).
Proof.
  unfold on_process, bind.
  destruct (res (job w)) as [[[[st files] pc] lg]| |]; cbn [res fst snd ret];
    intros H; try discriminate H.
  injection H as <- <- <- <- <- <- <-.
  exists files. split; [reflexivity|]. split; [apply build_choices_labels|].
  split; [reflexivity|]. split.
  - intros label Hl. rewrite (on_select_result_lookup _ _ Hl).
    apply build_choices_last.
  - rewrite build_choices_labels.
    destruct files as [|p files]; [reflexivity|].
    cbn [List.map head option_bind mbind].
    rewrite (proj2 (String.eqb_neq _ _) (mesh_label_nonempty p)).
    rewrite on_select_result_lookup by apply mesh_label_nonempty.
    reflexivity.
Qed.

(** X16. A result the sweep has removed is still in the mapping but no
    longer offered: after a sweep that removed a directory above the
    path of a label, the drop-down still gives that path and the
    download button hides the file. *)
Theorem swept_result_is_not_offered jobs expiry_hours w x label
  (mapping : gmap string string) path :
  In (EvRmtree x None) (events (cleanup_old_jobs env jobs expiry_hours w)) ->
  parts x `prefix_of` parts (PathOps.of_str path) ->
  label ≠ EmptyString -> mapping !! label = Some path ->
  on_select_result label mapping = Some path
  /\ res (on_download label mapping
            (final (cleanup_old_jobs env jobs expiry_hours w))) = Ret None.
Proof.
  intros Hin [k Hk] Hl Hm.
  pose proof (removed_is_gone env jobs expiry_hours w x Hin) as Hgone.
  apply (lookup_app_none _ k) in Hgone. rewrite <- Hk in Hgone.
  rewrite (on_select_result_lookup _ _ Hl), Hm. split; [reflexivity|].
  unfold on_download.
  destruct (negb (String.eqb label EmptyString)
            && negb (bool_decide (mapping = ∅))
            && bool_decide (is_Some (mapping !! label))); [|reflexivity].
  rewrite Hm. unfold bind, path_exists, reads. cbn [res final events].
  rewrite Hgone. rewrite bool_decide_eq_false_2; [reflexivity|].
  intros [y Hy]. discriminate Hy.
Qed.

End Handlers.

(** ** What a job reports and where it writes *)

Section Bounds.

Context (env : Env).

Local Abbreviation sweep_one cutoff :=
  (fun (removed : Z) (job_dir : Path) =>
     d <- path_is_dir job_dir ;;
     if d then
       try_except
         (mtime <- stat_mtime env job_dir ;;
          if mtime <? cutoff then
            rmtree env job_dir ;;
            ret (removed + 1)
          else ret removed)
         (fun _ => ret removed)
     else ret removed).

Lemma sweep_one_events cutoff removed x w :
  Forall (fun ev => exists failure, ev = EvRmtree x failure)
    (events (sweep_one cutoff removed x w)).
Proof.
  change (wp (sweep_one cutoff removed x) w (fun _ _ evs =>
    Forall (fun ev => exists failure, ev = EvRmtree x failure) evs)).
  apply wp_bind, wp_reads. cbv beta iota.
  destruct (match FS.lookup (parts x) (fs w) with
            | Some n => FS.is_dir n | None => false end).
  2:{ apply wp_ret. constructor. }
  apply wp_try_except, wp_bind, wp_stat_mtime_exact.
  destruct (refused env (OpStat x)).
  { apply wp_ret. constructor. }
  destruct (FS.lookup (parts x) (fs w)) as [n|].
  2:{ apply wp_ret. constructor. }
  destruct (FS.mtime n <? cutoff).
  2:{ apply wp_ret. constructor. }
  apply wp_bind, wp_rmtree_exact.
  destruct (refused env (OpRmtree x)).
  { apply wp_ret. repeat constructor. eauto. }
  destruct (FS.lookup (parts x) (fs w)) as [[|]|];
    apply wp_ret; repeat constructor; eauto.
Qed.

Lemma sweep_loop_events cutoff l : forall removed w,
  Forall (fun ev => exists x failure, In x l /\ ev = EvRmtree x failure)
    (events (for_each l (sweep_one cutoff) removed w)).
Proof.
  induction l as [|x l IH]; intros removed w; [constructor|].
  cbn [for_each].
  assert (exists removed' w',
             res (sweep_one cutoff removed x w) = Ret removed'
             /\ final (sweep_one cutoff removed x w) = w')
    as (removed' & w' & Hres & Hfin).
  { destruct (sweep_one_cases env cutoff removed x w)
      as [(Hres & Hfin & _)|(Hres & Hfin & _)]; eauto. }
  rewrite (events_bind_Ret _ _ _ _ Hres), Hfin.
  apply Forall_app. split.
  - eapply Forall_impl; [apply sweep_one_events|].
    intros ev [failure ->]. exists x, failure. split; [left; reflexivity|reflexivity].
  - eapply Forall_impl; [apply IH|].
    intros ev (y & failure & Hy & ->). exists y, failure.
    split; [right; exact Hy | reflexivity].
Qed.

(** The sweep only removes entries of the jobs root. *)
Lemma cleanup_events jobs expiry_hours w :
  exists rms,
    events (cleanup_old_jobs env jobs expiry_hours w) = EvSweep jobs :: rms
    /\ Forall (fun ev => exists c failure, ev = EvRmtree (jobs // c) failure) rms.
Proof.
  destruct (FS.lookup (parts jobs) (fs w)) as [[sz mt|m es]|] eqn:Hl.
  - destruct (cleanup_off_dir env jobs expiry_hours w) as (_ & _ & Hev).
    { intros m es. rewrite Hl. discriminate. }
    exists []. split; [exact Hev | constructor].
  - destruct (cleanup_on_dir env jobs expiry_hours w m es Hl) as (_ & _ & Hev).
    eexists. split; [exact Hev|].
    eapply Forall_impl; [apply sweep_loop_events|].
    intros ev (x & failure & Hx & ->).
    apply List.in_map_iff in Hx. destruct Hx as (e & <- & _). eauto.
  - destruct (cleanup_off_dir env jobs expiry_hours w) as (_ & _ & Hev).
    { intros m es. rewrite Hl. discriminate. }
    exists []. split; [exact Hev | constructor].
Qed.

Lemma wp_cleanup_children jobs expiry_hours w
  (Q : result Z -> World -> list event -> Prop) :
  (forall r w' rms,
      r ≠ Block ->
      Forall (fun ev => exists c failure, ev = EvRmtree (jobs // c) failure) rms ->
      Q r w' (EvSweep jobs :: rms)) ->
  wp (cleanup_old_jobs env jobs expiry_hours) w Q.
Proof.
  intros HQ. unfold wp.
  destruct (cleanup_events jobs expiry_hours w) as (rms & -> & Hrms).
  apply HQ; [|exact Hrms].
  apply (wp_cleanup_old_jobs env jobs expiry_hours w (fun r _ _ => r ≠ Block)).
  intros r _ _ Hr _. exact Hr.
Qed.

End Bounds.

Ltac wp_step_bounds :=
  lazymatch goal with
  | |- wp (cleanup_old_jobs _ _ _) _ _ =>
      apply wp_cleanup_children;
      let r := fresh "r" in
      intros r ?w ?rms ?Hnb ?Hrms; destruct r as [?removed|?e|]; [| |congruence];
      cbv beta iota zeta
  | _ => wp_step
  end.

Section Reports.

Context (env : Env).
Context (file_path : string) (is_point_cloud : bool) (max_clusters : Z)
  (use_agglomerative preprocess_mesh : bool) (adjacency_option : Z)
  (add_knn_edges : bool) (points_per_face : Z) (jobs_dir : string).

Local Abbreviation job :=
  (process_3d_file env file_path is_point_cloud max_clusters use_agglomerative
     preprocess_mesh adjacency_option add_knn_edges points_per_face jobs_dir).

Lemma percents_app evs1 evs2 : percents (evs1 ++ evs2) = percents evs1 ++ percents evs2.
Proof. apply List.flat_map_app. Qed.

Lemma percents_cons ev evs :
  percents (ev :: evs)
  = match ev with EvProgress percent _ => [percent] | _ => [] end ++ percents evs.
Proof. reflexivity. Qed.

Lemma percents_rmtrees rms :
  Forall (fun ev => is_rmtree ev = true) rms -> percents rms = [].
Proof.
  induction 1 as [|ev rms Hev _ IH]; [reflexivity|].
  destruct ev; try discriminate Hev. exact IH.
Qed.

(** X17. The progress a job reports only advances: the percentages it
    reports are strictly increasing, and it reports 100 exactly when it
    returns artifacts. *)
Theorem progress_only_advances w :
  StronglySorted Z.lt (percents (events (job w)))
  /\ (In 100 (percents (events (job w))) <-> artifacts_of (job w) ≠ []).
Proof.
  unfold artifacts_of.
  change (wp job w (fun r _ evs =>
    StronglySorted Z.lt (percents evs)
    /\ (In 100 (percents evs)
        <-> match r with Ret v => v.1.1.2 | _ => [] end ≠ []))).
  unfold process_3d_file.
  wp_run.
  all: repeat (rewrite percents_app || rewrite percents_cons).
  all: repeat match goal with
              | H : Forall (fun ev => is_rmtree ev = true) ?rms |- _ =>
                  rewrite (percents_rmtrees rms H); clear H
              end.
  all: change (percents []) with (@nil Z); cbn [app fst snd].
  all: split;
    [ repeat (apply SSorted_cons;
              [|repeat (apply List.Forall_cons; [lia|]); apply List.Forall_nil]);
      apply SSorted_nil
    | split;
      [ intros Hin; repeat (destruct Hin as [Hin|Hin]; [try discriminate Hin|]);
        try (destruct Hin); discriminate
      | intros Hne; try (exfalso; apply Hne; reflexivity);
        repeat first [left; reflexivity | right] ] ].
Qed.

(** X18. A job creates and removes within bounds: every directory it
    makes and the copy of the upload lie in its own job directory, and
    what it removes is an entry of the jobs root (the sweep) or its
    features directory. *)
Theorem job_stays_in_bounds w :
  Forall (in_bounds env jobs_dir) (events (job w)).
Proof.
  change (wp job w (fun _ _ evs => Forall (in_bounds env jobs_dir) evs)).
  unfold process_3d_file, in_bounds, job_dir, features_dir, job_id.
  repeat wp_step_bounds.
  all: cbn [app].
  all: repeat first
    [ apply List.Forall_nil
    | apply Forall_app; split
    | apply List.Forall_cons ].
  all: try exact I.
  all: try (cbn [parts PathOps.child]; eexists; rewrite <- !app_assoc; reflexivity).
  all: try (right; eexists; reflexivity).
  all: try (eapply Forall_impl; [eassumption|];
            intros ev (c & failure & ->); left; eauto).
Qed.

End Reports.

(** ** The further properties on the scenarios *)

Section FurtherScenarios.

Import Scenario.

Local Abbreviation run_job env :=
  (process_3d_file env upload false 20 true false 1 false 1000 "/workspace/jobs").

Local Abbreviation run_handler env :=
  (on_process env "/workspace/jobs" upload false 20 true false 1 false 1000).

Local Abbreviation jobs := (PathOps.of_str "/workspace/jobs").

Local Abbreviation sweep := (cleanup_old_jobs env_ok jobs 24 world0).

(** The sweep of the disk at noon removes two directories and says so. *)
Lemma sweep_counts_its_removals_witness :
  res sweep = Ret 2
  /\ length (List.filter is_removal (events sweep)) = 2%nat
  /\ FS.lookup ["workspace"; "jobs"; "0a0a0a0a"] (fs (final sweep)) = None.
Proof.
  assert (res sweep = Ret 2) as Hres by (vm_compute; reflexivity).
  destruct (sweep_counts_its_removals env_ok jobs 24 world0 2 Hres) as [Hk Hgone].
  split; [exact Hres|]. split; [lia|].
  apply (Hgone (jobs // "0a0a0a0a")).
  vm_compute. right. left. reflexivity.
Defined.

(** The upload lies outside the jobs root: the sweep leaves it alone. *)
Lemma sweep_keeps_to_its_root_witness :
  FS.lookup ["tmp"; "gradio"; "chair.obj"] (fs (final sweep))
  = Some (File 2048 (noon - hour))
  /\ clock (final sweep) = noon.
Proof.
  destruct (sweep_keeps_to_its_root env_ok jobs 24 world0
              ["tmp"; "gradio"; "chair.obj"]) as [Hl Hc].
  - intros [k Hk]. vm_compute in Hk. discriminate Hk.
  - intros [k Hk]. vm_compute in Hk. discriminate Hk.
  - split; [rewrite Hl; reflexivity | exact Hc].
Defined.


(** A text file is not a supported upload. *)
Lemma rejected_upload_touches_nothing_witness :
  (exists log,
      res (process_3d_file env_ok "/workspace/jobs/notes.txt" false 20 true false
             1 false 1000 "/workspace/jobs" world0)
      = Ret ("Error: Unsupported format: .txt. Supported: .ply, .obj, .glb, .off",
             [], None, log))
  /\ events (process_3d_file env_ok "/workspace/jobs/notes.txt" false 20 true
               false 1 false 1000 "/workspace/jobs" world0) = []
  /\ final (process_3d_file env_ok "/workspace/jobs/notes.txt" false 20 true
              false 1 false 1000 "/workspace/jobs" world0) = world0.
Proof.
  destruct (rejected_upload_touches_nothing env_ok "/workspace/jobs/notes.txt"
              false 20 true false 1 false 1000 "/workspace/jobs" world0)
    as (Hres & Hev & Hfin).
  - vm_compute. reflexivity.
  - split; [|split; assumption].
    eexists. rewrite Hres. reflexivity.
Defined.

Lemma artifacts_mean_success_witness :
  exists files pca log,
    res (run_job env_ok world0)
    = Ret ("Success! Generated 3 segmentation(s) with 2 to 20 parts", files, pca, log).
Proof.
  assert (exists status files pca log,
             res (run_job env_ok world0) = Ret (status, files, pca, log)
             /\ files ≠ []
             /\ length files = 3%nat
             /\ existsb (Py.endswith ".obj") files = false)
    as (status & files & pca & log & Hres & Hne & Hlen & Hobj).
  { vm_compute. do 4 eexists. split; [reflexivity|].
    split; [discriminate|]. split; reflexivity. }
  pose proof (artifacts_mean_success env_ok upload false 20 true false 1 false
                1000 "/workspace/jobs" world0 status files pca log Hres Hne) as Hs.
  rewrite Hlen, Hobj in Hs. exists files, pca, log. rewrite Hres, Hs. reflexivity.
Defined.

(** Clustering exits with status 2: the error is reported and the PCA
    picture of stage 1 is still returned. *)
Lemma clustering_failure_is_reported_witness :
  exists log,
    res (run_job env_clustering_crash world0)
    = Ret ("Error: Clustering failed", [],
           Some "/workspace/partfield/exp_results/job_3f2a9c1e/feat_pca_chair.ply",
           log).
Proof.
  assert (exists cmd cwd lines after cmd1 lines1 after1,
             In (EvSpawn cmd cwd (Exits lines 2 after))
               (events (run_job env_clustering_crash world0))
             /\ is_stage2 cmd
             /\ In (EvSpawn cmd1 cwd (Exits lines1 0 after1))
                  (events (run_job env_clustering_crash world0))
             /\ is_stage1 cmd1
             /\ PathOps.str
                  <$> head (glob_fs (features_dir env_clustering_crash cwd)
                              "feat_pca_" ".ply" (fs after1))
                = Some "/workspace/partfield/exp_results/job_3f2a9c1e/feat_pca_chair.ply")
    as (cmd & cwd & lines & after & cmd1 & lines1 & after1
        & Hin & Hs2 & Hin1 & Hs1 & Hpca).
  { vm_compute. do 7 eexists.
    split; [do 13 right; left; reflexivity|]. split; [reflexivity|].
    split; [do 10 right; left; reflexivity|]. split; reflexivity. }
  destruct (clustering_failure_is_reported env_clustering_crash upload false 20
              true false 1 false 1000 "/workspace/jobs" world0 cmd cwd
              (Exits lines 2 after) Hin Hs2)
    as (pca & log & Hres & Hp).
  - intros l a H. discriminate H.
  - discriminate.
  - exists log. rewrite Hres.
    rewrite (Hp cmd1 cwd (Exits lines1 0 after1) after1 Hin1 Hs1
               ltac:(eauto)), Hpca.
    reflexivity.
Defined.

(** A directory called [scan.obj] passes validation and makes the job
    raise. *)
Lemma directory_upload_raises_witness :
  exists e,
    res (process_3d_file env_ok upload_dir false 20 true false 1 false 1000
           "/workspace/jobs" world_dir) = Raise e.
Proof.
  destruct (directory_upload_raises env_ok upload_dir false 20 true false 1
              false 1000 "/workspace/jobs" world_dir) as (e & He & _).
  - vm_compute. reflexivity.
  - vm_compute. do 2 eexists. reflexivity.
  - exists e. exact He.
Defined.

Lemma returned_pca_is_removed_witness :
  FS.lookup
    (parts (PathOps.of_str
              "/workspace/partfield/exp_results/job_3f2a9c1e/feat_pca_chair.ply"))
    (fs (final (run_job env_ok world0))) = None.
Proof.
  assert (exists status files log,
             res (run_job env_ok world0)
             = Ret (status, files,
                    Some "/workspace/partfield/exp_results/job_3f2a9c1e/feat_pca_chair.ply",
                    log)
             /\ files ≠ [])
    as (status & files & log & Hres & Hne).
  { vm_compute. do 3 eexists. split; [reflexivity | discriminate]. }
  apply (returned_pca_is_removed env_ok upload false 20 true false 1 false
           1000 "/workspace/jobs" world0 status files _ log).
  - repeat (apply List.Forall_cons; [split; [reflexivity|split; discriminate]|]).
    apply List.Forall_nil.
  - reflexivity.
  - exact Hres.
  - exact Hne.
  - intros d e Hin. vm_compute in Hin.
    repeat (destruct Hin as [Hin|Hin]; [discriminate Hin|]). destruct Hin.
Defined.

Lemma label_of_output_name_witness :
  mesh_label "/workspace/jobs/3f2a9c1e/output/ply/chair_0_12.obj" = "12 parts (UV)".
Proof.
  destruct (label_of_output_name (PathOps.of_str "/workspace/jobs/3f2a9c1e/output/ply")
              "chair_0" 12) as [_ H].
  - reflexivity.
  - exact H.
Defined.

(** Two meshes of five parts in one format: two choices of one label,
    and both select the second mesh. *)
Lemma choice_selects_last_of_label_witness :
  exists choices first mapping,
    (exists status first_model pca log,
        res (run_handler env_twins world0)
        = Ret (status, (choices, first), first_model, pca, log, mapping))
    /\ choices = ["5 parts"; "5 parts"]
    /\ on_select_result "5 parts" mapping
       = Some "/workspace/jobs/3f2a9c1e/output/ply/b_0_5.ply".
Proof.
  assert (exists status choices first first_model pca log mapping,
             res (run_handler env_twins world0)
             = Ret (status, (choices, first), first_model, pca, log, mapping))
    as (status & choices & first & fm & pca & log & mapping & Hres).
  { vm_compute. do 7 eexists. reflexivity. }
  destruct (choice_selects_last_of_label env_twins "/workspace/jobs" upload false
              20 true false 1 false 1000 world0 status choices first fm pca log
              mapping Hres)
    as (files & Hjob & Hch & _ & Hsel & _).
  assert (files = [ "/workspace/jobs/3f2a9c1e/output/ply/a_0_5.ply";
                    "/workspace/jobs/3f2a9c1e/output/ply/b_0_5.ply" ]) as ->.
  { vm_compute in Hjob. injection Hjob as _ <- _ _. reflexivity. }
  exists choices, first, mapping. split; [eauto 10|]. split.
  - rewrite Hch. reflexivity.
  - rewrite Hsel by discriminate. reflexivity.
Defined.

(** The result of an expired job is still in the mapping of a session
    and no longer offered for download. *)
Lemma swept_result_is_not_offered_witness :
  on_select_result "5 parts"
    {[ "5 parts" := "/workspace/jobs/0a0a0a0a/output/ply/x_0_5.ply" ]}
  = Some "/workspace/jobs/0a0a0a0a/output/ply/x_0_5.ply"
  /\ res (on_download "5 parts"
            {[ "5 parts" := "/workspace/jobs/0a0a0a0a/output/ply/x_0_5.ply" ]}
            (final sweep)) = Ret None.
Proof.
  apply (swept_result_is_not_offered env_ok jobs 24 world0 (jobs // "0a0a0a0a")).
  - vm_compute. right. left. reflexivity.
  - exists ["output"; "ply"; "x_0_5.ply"]. vm_compute. reflexivity.
  - discriminate.
  - apply lookup_singleton_eq.
Defined.

End FurtherScenarios.
